(** * Durable flight-watch store: a shallow embedding of [research_2b_files.py]

    The development follows the Python module function by function:
    the slug and file-name allocator, the record store (locate, load, save),
    the URI codec, the price simulator and the handlers of the resource
    surface: [handle_list_tools], [handle_call_tool], [handle_list_resources],
    [handle_read_resource] and [handle_subscribe_resource].

    Modelling conventions.
    - A Python [str] is a [string], one [ascii] per character; the helper
      functions are exact on ASCII text.
    - A JSON document is a value of type [json]; Python's [int] is [Z].  A
      [float] is an IEEE binary64 value: NaN, an infinity, or a finite
      double given by its exact rational value; sums are rounded to the
      nearest double, ties to even, and negative zero is identified with
      zero.  A [dict] is an association list in insertion order; lookups
      and updates act on the first binding of a key.
    - The file system is the store directory alone, on a POSIX host: a flat
      listing of regular files in the order the operating system enumerates
      them.  A file holds
      either the text of a JSON document or text that [json.loads] rejects;
      [json.dumps] followed by [json.loads] is taken to be the identity.
    - An exception is a value [Raise e]; [Unmodelled] marks the few inputs
      whose behaviour leaves the model (a path outside the store directory,
      a percent-escape above 0x7f).
    - Library behaviour the code relies on but the claims do not depend on
      (the text [str()] gives for a non-string, [float()] on a string, the
      host checks of [urlsplit]) is collected in the class [Runtime]. *)

From Stdlib Require Import String Ascii List ZArith QArith Qminmax Lia Bool Arith.
From Stdlib Require Import DecimalString DecimalNat DecimalFacts Permutation Sorted.
Import ListNotations.

Set Warnings "-register-all".

Open Scope list_scope.
Open Scope string_scope.

(* ------------------------------------------------------------------ *)
(** ** Python strings *)

Module PyStr.

Definition code (c : ascii) : nat := nat_of_ascii c.

Definition in_range (lo hi : nat) (c : ascii) : bool :=
  (lo <=? code c)%nat && (code c <=? hi)%nat.

Definition is_lower (c : ascii) : bool := in_range 97 122 c.
Definition is_upper (c : ascii) : bool := in_range 65 90 c.
Definition is_digit (c : ascii) : bool := in_range 48 57 c.
Definition is_alpha (c : ascii) : bool := is_lower c || is_upper c.

(** [c.lower()] *)
Definition lower_char (c : ascii) : ascii :=
  if is_upper c then ascii_of_nat (code c + 32) else c.

(** [s.lower()] *)
Fixpoint lower (s : string) : string :=
  match s with
  | EmptyString => EmptyString
  | String c r => String (lower_char c) (lower r)
  end.

(** [c in s] for a single character [c] *)
Fixpoint contains (c : ascii) (s : string) : bool :=
  match s with
  | EmptyString => false
  | String a r => Ascii.eqb a c || contains c r
  end.

(** [s.find(c)], [None] standing for -1 *)
Fixpoint find (c : ascii) (s : string) : option nat :=
  match s with
  | EmptyString => None
  | String a r =>
      if Ascii.eqb a c then Some 0%nat
      else match find c r with Some i => Some (S i) | None => None end
  end.

(** [s[:n]] and [s[n:]] *)
Fixpoint take (n : nat) (s : string) : string :=
  match n, s with
  | S k, String a r => String a (take k r)
  | _, _ => EmptyString
  end.

Fixpoint drop (n : nat) (s : string) : string :=
  match n, s with
  | S k, String _ r => drop k r
  | _, _ => s
  end.

(** [s.split(c, 1)] when [c] occurs in [s]: the text before and after the
    first occurrence. *)
Fixpoint split_first (c : ascii) (s : string) : option (string * string) :=
  match s with
  | EmptyString => None
  | String a r =>
      if Ascii.eqb a c then Some (EmptyString, r)
      else match split_first c r with
           | Some (h, t) => Some (String a h, t)
           | None => None
           end
  end.

(** [s.split(c)]: never empty, the empty string splits into one empty piece. *)
Fixpoint split (c : ascii) (s : string) : list string :=
  match s with
  | EmptyString => [EmptyString]
  | String a r =>
      if Ascii.eqb a c then EmptyString :: split c r
      else match split c r with
           | h :: t => String a h :: t
           | [] => [String a EmptyString]
           end
  end.

(** [sep.join(parts)] *)
Fixpoint join (sep : string) (parts : list string) : string :=
  match parts with
  | [] => EmptyString
  | [p] => p
  | p :: rest => p ++ sep ++ join sep rest
  end.

(** [s.lstrip(c)], [s.rstrip(c)] and [s.strip(c)] for a single character *)
Fixpoint lstrip (c : ascii) (s : string) : string :=
  match s with
  | EmptyString => EmptyString
  | String a r => if Ascii.eqb a c then lstrip c r else s
  end.

Fixpoint rstrip (c : ascii) (s : string) : string :=
  match s with
  | EmptyString => EmptyString
  | String a r =>
      match rstrip c r with
      | EmptyString => if Ascii.eqb a c then EmptyString else String a EmptyString
      | r' => String a r'
      end
  end.

Definition strip (c : ascii) (s : string) : string := rstrip c (lstrip c s).

(** [s.replace(a, b)] for single characters *)
Fixpoint replace_char (a b : ascii) (s : string) : string :=
  match s with
  | EmptyString => EmptyString
  | String c r => String (if Ascii.eqb c a then b else c) (replace_char a b r)
  end.

(** [s.endswith(t)] *)
Definition endswith (t s : string) : bool :=
  (String.length t <=? String.length s)%nat
  && String.eqb (drop (String.length s - String.length t) s) t.

(** [s.rfind(c)], [None] standing for -1 *)
Fixpoint rfind (c : ascii) (s : string) : option nat :=
  match s with
  | EmptyString => None
  | String a r =>
      match rfind c r with
      | Some i => Some (S i)
      | None => if Ascii.eqb a c then Some 0%nat else None
      end
  end.

(** [l[-1]] with a default for the empty list *)
Definition last_or (d : string) (l : list string) : string := List.last l d.

(** [str(n)] for a non-negative [int] *)
Definition of_nat (n : nat) : string := NilEmpty.string_of_uint (Nat.to_uint n).

(** Python truthiness of a string *)
Definition nonempty (s : string) : bool :=
  match s with EmptyString => false | _ => true end.

End PyStr.

(* ------------------------------------------------------------------ *)
(** ** Python floats *)

(** An IEEE binary64 value; a finite one is its exact rational value. *)
Inductive pyfloat : Type :=
| Finite (q : Q)
| Infinite (negative : bool)
| NaN.

Coercion Finite : Q >-> pyfloat.

(** [x * 2^k] for [k >= 0], [x] otherwise *)
Definition shift (x k : Z) : Z := (x * 2 ^ Z.max k 0)%Z.

(** The integer nearest to [n / d], ties to the even one ([0 <= n], [0 < d]). *)
Definition round_half_even (n d : Z) : Z :=
  let m := (n / d)%Z in
  match (2 * (n mod d) ?= d)%Z with
  | Lt => m
  | Gt => (m + 1)%Z
  | Eq => if Z.even m then m else (m + 1)%Z
  end.

(** Rounding of an exact result to binary64: the nearest [m * 2^e] with
    [m < 2^53] and [e >= -1074], ties to even, an infinity from
    [2^1024 - 2^970] on. *)
Definition round_double (q : Q) : pyfloat :=
  let n := Z.abs (Qnum q) in
  let d := Zpos (Qden q) in
  if (n =? 0)%Z then Finite 0
  else
    let e0 := (Z.log2 n - Z.log2 d)%Z in
    let top := if (shift d e0 <=? shift n (- e0))%Z then e0 else (e0 - 1)%Z in
    let e := Z.max (top - 52) (-1074) in
    let m := round_half_even (shift n (- e)) (shift d e) in
    if (971 <? e)%Z || ((e =? 971)%Z && (2 ^ 53 <=? m)%Z)
    then Infinite (Qnum q <? 0)%Z
    else Finite (Qred (Qmake (Z.sgn (Qnum q) * shift m e) (Z.to_pos (shift 1 (- e))))).

(** [float(z)] for an [int]; [None] stands for [OverflowError]. *)
Definition float_of_int (z : Z) : option pyfloat :=
  match round_double (inject_Z z) with
  | Infinite _ => None
  | f => Some f
  end.

(** [a + b] on floats *)
Definition float_add (a b : pyfloat) : pyfloat :=
  match a, b with
  | NaN, _ => NaN
  | _, NaN => NaN
  | Infinite s, Infinite t => if Bool.eqb s t then Infinite s else NaN
  | Infinite s, Finite _ => Infinite s
  | Finite _, Infinite t => Infinite t
  | Finite x, Finite y => round_double (x + y)
  end.

(** [a < b] and [a <= b] on floats: false as soon as one side is NaN. *)
Definition float_ltb (a b : pyfloat) : bool :=
  match a, b with
  | NaN, _ => false
  | _, NaN => false
  | Infinite s, Infinite t => s && negb t
  | Infinite s, Finite _ => s
  | Finite _, Infinite t => negb t
  | Finite x, Finite y => negb (Qle_bool y x)
  end.

Definition float_leb (a b : pyfloat) : bool :=
  match a, b with
  | NaN, _ => false
  | _, NaN => false
  | Infinite s, Infinite t => s || negb t
  | Infinite s, Finite _ => s
  | Finite _, Infinite t => negb t
  | Finite x, Finite y => Qle_bool x y
  end.

(* ------------------------------------------------------------------ *)
(** ** JSON values and Python dictionaries *)

Inductive json : Type :=
| JNull
| JBool (b : bool)
| JInt (z : Z)
| JFloat (f : pyfloat)
| JStr (s : string)
| JArr (items : list json)
| JObj (fields : list (string * json)).

Definition dict := list (string * json).

(** [d.get(k)] as an option; [dget_or_none] is the Python value, [None]
    included. *)
Fixpoint dget (k : string) (d : dict) : option json :=
  match d with
  | [] => None
  | (k', v) :: r => if String.eqb k' k then Some v else dget k r
  end.

Definition dget_or_none (k : string) (d : dict) : json :=
  match dget k d with Some v => v | None => JNull end.

(** [d[k] = v]: an existing key keeps its position, a new one goes last. *)
Fixpoint dset (k : string) (v : json) (d : dict) : dict :=
  match d with
  | [] => [(k, v)]
  | (k', v') :: r =>
      if String.eqb k' k then (k', v) :: r else (k', v') :: dset k v r
  end.

(** [d.setdefault(k, v)] *)
Definition setdefault (k : string) (v : json) (d : dict) : dict :=
  match dget k d with Some _ => d | None => dset k v d end.

(** Python truthiness ([bool(x)]) of a JSON value *)
Definition truthy (j : json) : bool :=
  match j with
  | JNull => false
  | JBool b => b
  | JInt z => negb (Z.eqb z 0)
  | JFloat (Finite q) => negb (Qeq_bool q 0)
  | JFloat _ => true
  | JStr s => PyStr.nonempty s
  | JArr l => match l with [] => false | _ => true end
  | JObj o => match o with [] => false | _ => true end
  end.

(** Lists and dictionaries are the JSON values Python cannot hash. *)
Definition hashable (j : json) : bool :=
  match j with JArr _ | JObj _ => false | _ => true end.

(** Python numbers: the result of arithmetic on JSON numbers. *)
Inductive number : Type :=
| NInt (z : Z)
| NFloat (f : pyfloat).

(** The value of a number in a comparison: Python compares an [int] with a
    [float] exactly. *)
Definition number_float (n : number) : pyfloat :=
  match n with NInt z => Finite (inject_Z z) | NFloat f => f end.

Definition json_of_number (n : number) : json :=
  match n with NInt z => JInt z | NFloat f => JFloat f end.

(** [a < b] and [a <= b] on numbers *)
Definition number_ltb (a b : number) : bool :=
  float_ltb (number_float a) (number_float b).
Definition number_leb (a b : number) : bool :=
  float_leb (number_float a) (number_float b).

(** [max(a, b)]: Python returns [a] unless [b > a]. *)
Definition py_max (a b : number) : number :=
  if number_ltb a b then b else a.

(* ------------------------------------------------------------------ *)
(** ** Exceptions and results *)

Inductive exn : Type :=
| ValueError
| OverflowError
| FileNotFoundError
| JSONDecodeError
| KeyError
| IndexError
| TypeError
| AttributeError
| IsADirectoryError.

Inductive result (A : Type) : Type :=
| Ok (a : A)
| Raise (e : exn)
| Unmodelled.

Arguments Ok {A} & a.
Arguments Raise {A} e.
Arguments Unmodelled {A}.

Definition bind {A B : Type} (r : result A) (k : A -> result B) : result B :=
  match r with
  | Ok a => k a
  | Raise e => Raise e
  | Unmodelled => Unmodelled
  end.

Notation "x <- r ;; k" := (bind r (fun x => k))
  (at level 61, r at next level, right associativity).

(** [x + d] for an [int] [d]: exact on an [int], and on a [float] the sum
    with [float(d)]. *)
Definition number_add_int (n : number) (d : Z) : result number :=
  match n with
  | NInt z => Ok (NInt (z + d))
  | NFloat f =>
      match float_of_int d with
      | Some fd => Ok (NFloat (float_add f fd))
      | None => Raise OverflowError
      end
  end.

(* ------------------------------------------------------------------ *)
(** ** The store directory *)

Inductive file_text : Type :=
| NotJson
| JsonText (doc : json).

(** The directory listing of [STORE_DIR]: file name and content. *)
Definition store := list (string * file_text).

Inductive node : Type :=
| NoEntry
| Directory
| Regular (t : file_text)
| Outside.

Fixpoint find_file (name : string) (st : store) : option file_text :=
  match st with
  | [] => None
  | (n, t) :: r => if String.eqb n name then Some t else find_file name r
  end.

(** What [STORE_DIR / rel] denotes. *)
Definition lookup_path (st : store) (rel : string) : node :=
  if String.eqb rel EmptyString || String.eqb rel "." || String.eqb rel ".." then Directory
  else if PyStr.contains "/" rel || PyStr.contains "000" rel then Outside
  else match find_file rel st with
       | Some t => Regular t
       | None => NoEntry
       end.

(** [(STORE_DIR / rel).exists()] *)
Definition path_exists (st : store) (rel : string) : result bool :=
  match lookup_path st rel with
  | NoEntry => Ok false
  | Directory | Regular _ => Ok true
  | Outside => Unmodelled
  end.

(** [json.loads((STORE_DIR / rel).read_text())] *)
Definition read_json (st : store) (rel : string) : result json :=
  match lookup_path st rel with
  | Regular (JsonText j) => Ok j
  | Regular NotJson => Raise JSONDecodeError
  | Directory => Raise IsADirectoryError
  | NoEntry => Raise FileNotFoundError
  | Outside => Unmodelled
  end.

Fixpoint put_file (name : string) (t : file_text) (st : store) : store :=
  match st with
  | [] => [(name, t)]
  | (n, t') :: r =>
      if String.eqb n name then (n, t) :: r else (n, t') :: put_file name t r
  end.

(** [_write_watch_file(STORE_DIR / rel, payload)]: the whole file is replaced. *)
Definition _write_watch_file (st : store) (rel : string) (payload : dict)
  : result unit * store :=
  match lookup_path st rel with
  | NoEntry | Regular _ => (Ok tt, put_file rel (JsonText (JObj payload)) st)
  | Directory => (Raise IsADirectoryError, st)
  | Outside => (Unmodelled, st)
  end.

(** [STORE_DIR.glob("*.json")] *)
Definition glob_json (st : store) : store :=
  filter (fun e => PyStr.endswith ".json" (fst e)) st.

(** [Path(s).name] for a POSIX path: the last component that is neither
    empty nor ["."]. *)
Definition path_name (s : string) : string :=
  PyStr.last_or EmptyString
    (filter (fun c => negb (String.eqb c EmptyString) && negb (String.eqb c "."))
            (PyStr.split "/" s)).

(** [Path(name).stem]: the name without its last suffix. *)
Definition path_stem (name : string) : string :=
  match PyStr.rfind "." name with
  | Some i =>
      if (0 <? i)%nat && (i <? String.length name - 1)%nat
      then PyStr.take i name else name
  | None => name
  end.

(* ------------------------------------------------------------------ *)
(** ** Library behaviour taken as given *)

Class Runtime : Type := {
  (** the components of [STORE_DIR.resolve()], an absolute POSIX path *)
  STORE_DIR : list string;
  (** [str(v)] for a JSON value that is not a string *)
  str_of_value : json -> string;
  (** [float(s)] for a string; [None] when it raises [ValueError] *)
  float_of_str : string -> option pyfloat;
  (** whether [urlsplit] accepts a non-empty host part (its bracket and
      normalisation checks) *)
  netloc_ok : string -> bool
}.

Section Engine.

Context {RT : Runtime}.

(** [str(v)] *)
Definition py_str (v : json) : string :=
  match v with JStr s => s | _ => str_of_value v end.

(** [float(v)] *)
Definition py_float (v : json) : result pyfloat :=
  match v with
  | JInt z => match float_of_int z with Some f => Ok f | None => Raise OverflowError end
  | JFloat f => Ok f
  | JBool b => Ok (Finite (if b then 1%Q else 0%Q))
  | JStr s => match float_of_str s with Some f => Ok f | None => Raise ValueError end
  | JNull | JArr _ | JObj _ => Raise TypeError
  end.

(* ------------------------------------------------------------------ *)
(** ** URI encoding *)

(** [_resource_uri(STORE_DIR / file_name)] *)
Definition _resource_uri (file_name : string) : string :=
  let absolute_path := "/" ++ PyStr.join "/" (STORE_DIR ++ [file_name])%list in
  let path_str := PyStr.replace_char "\" "/" absolute_path in
  let path_str :=
    match path_str with
    | String "/" _ => path_str
    | _ => "/" ++ path_str
    end in
  "file://" ++ path_str.

(* ------------------------------------------------------------------ *)
(** ** Identity and slug allocator *)

Definition slug_char (c : ascii) : bool := PyStr.is_lower c || PyStr.is_digit c.

(** [re.sub(r"[^a-z0-9]+", "-", s)]: [in_run] records that the previous
    character already belonged to the run being replaced. *)
Fixpoint sub_non_slug (in_run : bool) (s : string) : string :=
  match s with
  | EmptyString => EmptyString
  | String c r =>
      if slug_char c then String c (sub_non_slug false r)
      else if in_run then sub_non_slug true r
      else String "-" (sub_non_slug true r)
  end.

Definition slug_token (part : string) : string :=
  PyStr.strip "-" (sub_non_slug false (PyStr.lower part)).

Fixpoint slug_tokens (parts : list string) : list string :=
  match parts with
  | [] => []
  | part :: rest =>
      if negb (PyStr.nonempty part) then slug_tokens rest
      else
        let token := slug_token part in
        if PyStr.nonempty token then token :: slug_tokens rest
        else slug_tokens rest
  end.

Definition _slugify (parts : list string) : string :=
  let joined := PyStr.join "-" (slug_tokens parts) in
  if PyStr.nonempty joined then joined else "watch".

(** The [while path.exists()] loop of [_allocate_watch_file]: [stem] is
    [f"{base_slug}-{watch_id[:8]}"], [candidate] and [suffix] are the loop
    variables.  [None] means the fuel ran out. *)
Fixpoint allocate_loop (fuel : nat) (st : store) (stem candidate : string)
  (suffix : nat) : option (result string) :=
  match path_exists st (candidate ++ ".json") with
  | Ok false => Some (Ok candidate)
  | Ok true =>
      match fuel with
      | O => None
      | S fuel' =>
          allocate_loop fuel' st stem (stem ++ "-" ++ PyStr.of_nat suffix) (S suffix)
      end
  | Raise e => Some (Raise e)
  | Unmodelled => Some Unmodelled
  end.

(** [_allocate_watch_file]: the file name and the resource name (the path is
    [STORE_DIR / file_name]).  One more round than the directory has files
    always suffices ([allocate_loop_total]). *)
Definition _allocate_watch_file (st : store)
  (watch_id origin destination departure_date : string)
  : result (string * string) :=
  let base_slug := _slugify [origin; destination; departure_date] in
  let stem := base_slug ++ "-" ++ PyStr.take 8 watch_id in
  match allocate_loop (S (List.length st)) st stem stem 1 with
  | Some (Ok candidate) => Ok (candidate ++ ".json", "flight-watch-" ++ candidate)
  | Some (Raise e) => Raise e
  | Some Unmodelled | None => Unmodelled
  end.

(* ------------------------------------------------------------------ *)
(** ** Record store *)

(** [payload.get("watch_id") == watch_id] for a [str] [watch_id] *)
Definition json_is_str (v : json) (s : string) : bool :=
  match v with JStr s' => String.eqb s' s | _ => false end.

(** The fallback scan of [_locate_watch_file] over [STORE_DIR.glob("*.json")]. *)
Fixpoint scan_for_watch (watch_id : string) (entries : store) : result string :=
  match entries with
  | [] => Raise FileNotFoundError
  | (name, NotJson) :: rest => scan_for_watch watch_id rest
  | (name, JsonText (JObj payload)) :: rest =>
      if json_is_str (dget_or_none "watch_id" payload) watch_id then Ok name
      else scan_for_watch watch_id rest
  | (name, JsonText _) :: rest => Raise AttributeError
  end.

Definition _locate_watch_file (st : store) (watch_id : string) : result string :=
  let legacy_path := watch_id ++ ".json" in
  legacy_exists <- path_exists st legacy_path ;;
  if legacy_exists then Ok legacy_path
  else scan_for_watch watch_id (glob_json st).

Definition _load_watch (st : store) (watch_id : string) : result dict :=
  path <- _locate_watch_file st watch_id ;;
  doc <- read_json st path ;;
  match doc with
  | JObj payload =>
      let payload := setdefault "file_name" (JStr (path_name path)) payload in
      let payload :=
        setdefault "resource_name" (JStr ("flight-watch-" ++ path_stem (path_name path)))
                   payload in
      Ok payload
  | _ => Raise AttributeError
  end.

(** [_save_watch]; the payload is returned as the call leaves it, since the
    fallback branch stores the file name into the caller's dictionary. *)
Definition _save_watch (st : store) (watch_id : string) (payload : dict)
  : result dict * store :=
  let file_name := dget_or_none "file_name" payload in
  if truthy file_name then
    match file_name with
    | JStr name =>
        let (r, st') := _write_watch_file st name payload in
        (_ <- r ;; Ok payload, st')
    | _ => (Raise TypeError, st)
    end
  else
    match _locate_watch_file st watch_id with
    | Ok path =>
        let payload := dset "file_name" (JStr (path_name path)) payload in
        let (r, st') := _write_watch_file st path payload in
        (_ <- r ;; Ok payload, st')
    | Raise e => (Raise e, st)
    | Unmodelled => (Unmodelled, st)
    end.

(* ------------------------------------------------------------------ *)
(** ** URI decoding: [urllib.parse.urlparse] and [unquote] *)

Record ParseResult : Type := {
  scheme : string;
  netloc : string;
  path : string;
  params : string;
  query : string;
  fragment : string
}.

(** [url.lstrip(_WHATWG_C0_CONTROL_OR_SPACE)] *)
Fixpoint lstrip_c0 (url : string) : string :=
  match url with
  | EmptyString => EmptyString
  | String c r => if (PyStr.code c <=? 32)%nat then lstrip_c0 r else url
  end.

(** Removal of [_UNSAFE_URL_BYTES_TO_REMOVE]: tab, carriage return, newline. *)
Fixpoint remove_unsafe (url : string) : string :=
  match url with
  | EmptyString => EmptyString
  | String c r =>
      if (PyStr.code c =? 9)%nat || (PyStr.code c =? 10)%nat || (PyStr.code c =? 13)%nat
      then remove_unsafe r else String c (remove_unsafe r)
  end.

Definition scheme_char (c : ascii) : bool :=
  PyStr.is_alpha c || PyStr.is_digit c
  || Ascii.eqb c "+" || Ascii.eqb c "-" || Ascii.eqb c ".".

Fixpoint all_chars (p : ascii -> bool) (s : string) : bool :=
  match s with
  | EmptyString => true
  | String c r => p c && all_chars p r
  end.

(** The scheme step of [urlsplit]: the scheme found (empty when none) and the
    rest of the URL. *)
Definition split_scheme (url : string) : string * string :=
  match PyStr.find ":" url, url with
  | Some (S i), String c0 _ =>
      if PyStr.is_alpha c0 && all_chars scheme_char (PyStr.take (S i) url)
      then (PyStr.lower (PyStr.take (S i) url), PyStr.drop (S (S i)) url)
      else (EmptyString, url)
  | _, _ => (EmptyString, url)
  end.

(** [_splitnetloc(url, 0)] on the text after the two slashes: the host part
    ends at the first of [/], [?] and [#]. *)
Fixpoint splitnetloc (rest : string) : string * string :=
  match rest with
  | EmptyString => (EmptyString, EmptyString)
  | String c r =>
      if Ascii.eqb c "/" || Ascii.eqb c "?" || Ascii.eqb c "#"
      then (EmptyString, rest)
      else let (h, t) := splitnetloc r in (String c h, t)
  end.

Definition uses_params : list string :=
  [EmptyString; "ftp"; "hdl"; "prospero"; "http"; "imap"; "https"; "shttp";
   "rtsp"; "rtsps"; "rtspu"; "sip"; "sips"; "mms"; "sftp"; "tel"].

(** [_splitparams(url)], called when [url] contains a semicolon *)
Definition _splitparams (url : string) : string * string :=
  match PyStr.rfind "/" url with
  | Some r =>
      match PyStr.find ";" (PyStr.drop r url) with
      | Some k => (PyStr.take (r + k) url, PyStr.drop (S (r + k)) url)
      | None => (url, EmptyString)
      end
  | None =>
      match PyStr.find ";" url with
      | Some i => (PyStr.take i url, PyStr.drop (S i) url)
      | None => (url, EmptyString)
      end
  end.

Definition urlparse (uri_str : string) : result ParseResult :=
  let url := remove_unsafe (lstrip_c0 uri_str) in
  let (scheme, url) := split_scheme url in
  let (netloc, url) :=
    match url with
    | String "/" (String "/" rest) => splitnetloc rest
    | _ => (EmptyString, url)
    end in
  if PyStr.nonempty netloc && negb (netloc_ok netloc) then Raise ValueError
  else
    let (url, fragment) :=
      match PyStr.split_first "#" url with
      | Some (u, f) => (u, f)
      | None => (url, EmptyString)
      end in
    let (url, query) :=
      match PyStr.split_first "?" url with
      | Some (u, q) => (u, q)
      | None => (url, EmptyString)
      end in
    let (url, params) :=
      if existsb (String.eqb scheme) uses_params && PyStr.contains ";" url
      then _splitparams url else (url, EmptyString) in
    Ok {| scheme := scheme; netloc := netloc; path := url;
          params := params; query := query; fragment := fragment |}.

Definition hex_value (c : ascii) : option nat :=
  if PyStr.is_digit c then Some (PyStr.code c - 48)%nat
  else if PyStr.in_range 97 102 c then Some (PyStr.code c - 87)%nat
  else if PyStr.in_range 65 70 c then Some (PyStr.code c - 55)%nat
  else None.

(** [urllib.parse.unquote]: every [%XY] with two hexadecimal digits becomes
    the character with that code, any other [%] stays.  Escapes above 0x7f,
    which Python decodes as UTF-8, are outside the model. *)
Fixpoint unquote (s : string) : result string :=
  match s with
  | EmptyString => Ok EmptyString
  | String c t =>
      let keep := r <- unquote t ;; Ok (String c r) in
      if Ascii.eqb c "%" then
        match t with
        | String a (String b r) =>
            match hex_value a, hex_value b with
            | Some x, Some y =>
                if (16 * x + y <? 128)%nat
                then r' <- unquote r ;; Ok (String (ascii_of_nat (16 * x + y)) r')
                else Unmodelled
            | _, _ => keep
            end
        | _ => keep
        end
      else keep
  end.

(** The first half of [_parse_watch_id]: from the URI to
    [Path(file_path_str).name]. *)
Definition uri_file_name (uri_str : string) : result string :=
  parsed <- urlparse uri_str ;;
  if PyStr.nonempty (scheme parsed) && negb (String.eqb (scheme parsed) "file")
  then Raise ValueError
  else
    file_path_str <- unquote (path parsed) ;;
    let file_path_str :=
      match file_path_str with
      | String "/" (String _ (String ":" _) as tail) => tail
      | _ => file_path_str
      end in
    Ok (path_name file_path_str).

(** [file_path.stem.split("-")[-1]] *)
Definition stem_suffix (file_name : string) : string :=
  PyStr.last_or EmptyString (PyStr.split "-" (path_stem file_name)).

(** [_parse_watch_id(uri)] *)
Definition _parse_watch_id (st : store) (uri_str : string) : result string :=
  file_name <- uri_file_name uri_str ;;
  found <- path_exists st file_name ;;
  if negb found then Raise FileNotFoundError
  else
    match read_json st file_name with
    | Raise JSONDecodeError => Raise ValueError
    | Raise e => Raise e
    | Unmodelled => Unmodelled
    | Ok (JObj payload) =>
        let watch_id := dget_or_none "watch_id" payload in
        let watch_id :=
          if negb (truthy watch_id) then JStr (stem_suffix file_name)
          else watch_id in
        if negb (truthy watch_id) then Raise ValueError
        else Ok (py_str watch_id)
    | Ok _ => Raise AttributeError
    end.

(* ------------------------------------------------------------------ *)
(** ** Watch simulator *)

(** [rng.randint(a, b)] is [a + rng._randbelow(b - a + 1)]; the generator's
    raw output is the parameter [draw]. *)
Definition randint (a b : Z) (draw : Z) : Z := (a + draw mod (b - a + 1))%Z.

(** [payload["history"][-1]["price"]] *)
Definition current_price_of (payload : dict) : result json :=
  match dget "history" payload with
  | None => Raise KeyError
  | Some (JArr history) =>
      match List.last (map Some history) None with
      | None => Raise IndexError
      | Some (JObj entry) =>
          match dget "price" entry with
          | Some v => Ok v
          | None => Raise KeyError
          end
      | Some _ => Raise TypeError
      end
  | Some (JStr s) => if PyStr.nonempty s then Raise TypeError else Raise IndexError
  | Some (JObj _) => Raise KeyError
  | Some _ => Raise TypeError
  end.

(** [current_price + delta] *)
Definition add_delta (current_price : json) (delta : Z) : result number :=
  match current_price with
  | JInt z => number_add_int (NInt z) delta
  | JFloat f => number_add_int (NFloat f) delta
  | JBool b => number_add_int (NInt (if b then 1 else 0)) delta
  | _ => Raise TypeError
  end.

Definition alert_summary (origin destination : json) (new_price : number)
  (target_price : pyfloat) : string :=
  "ðŸŽ‰ PRICE ALERT! Flight " ++ py_str origin ++ " â†’ " ++ py_str destination
  ++ " dropped to $" ++ py_str (json_of_number new_price)
  ++ " (target was $" ++ py_str (JFloat target_price) ++ ")".

(** The [stage] dictionary appended to the history. *)
Definition price_stage (sequence : nat) (new_price : number) : dict :=
  [("sequence", JInt (Z.of_nat sequence));
   ("status", JStr "price_update");
   ("price", json_of_number new_price);
   ("note", JStr "Received new quote from fare service.")].

(** The [if target_price is not None and new_price <= target_price] step. *)
Definition decide_status (target_price : option pyfloat) (new_price : number)
  (origin destination : json) (payload : dict) : dict :=
  match target_price with
  | Some t =>
      if number_leb new_price (NFloat t) then
        dset "summary" (JStr (alert_summary origin destination new_price t))
             (dset "status" (JStr "notified") payload)
      else dset "status" (JStr "watching") payload
  | None => dset "status" (JStr "watching") payload
  end.

Inductive tick_outcome : Type :=
| Stopped
| Updated (payload : dict).

(** One iteration of the [while True] loop of [_simulate_price_updates],
    after the sleep; [draw] feeds [rng.randint(-40, 20)].  The notifications
    sent after the save do not touch the store and their failures are caught,
    so they are left out. *)
Definition tick (st : store) (watch_id : string) (target_price : option pyfloat)
  (draw : Z) : result tick_outcome * store :=
  match _load_watch st watch_id with
  | Raise e => (Raise e, st)
  | Unmodelled => (Unmodelled, st)
  | Ok payload =>
      let status := dget_or_none "status" payload in
      if negb (hashable status) then (Raise TypeError, st)
      else if json_is_str status "notified" || json_is_str status "cancelled"
      then (Ok Stopped, st)
      else
        match current_price_of payload with
        | Raise e => (Raise e, st)
        | Unmodelled => (Unmodelled, st)
        | Ok current_price =>
        let delta := randint (-40) 20 draw in
        match add_delta current_price delta with
        | Raise e => (Raise e, st)
        | Unmodelled => (Unmodelled, st)
        | Ok moved =>
        let new_price := py_max moved (NInt 50) in
        match dget "history" payload with
        | Some (JArr history) =>
            let stage := price_stage (List.length history) new_price in
            let payload := dset "history" (JArr (history ++ [JObj stage])%list) payload in
            match dget "origin" payload, dget "destination" payload with
            | Some origin, Some destination =>
                let payload :=
                  decide_status target_price new_price origin destination payload in
                match _save_watch st watch_id payload with
                | (Ok saved, st') => (Ok (Updated saved), st')
                | (Raise e, st') => (Raise e, st')
                | (Unmodelled, st') => (Unmodelled, st')
                end
            | _, _ => (Raise KeyError, st)
            end
        | _ => (Raise TypeError, st)
        end
        end
        end
  end.

Inductive sim_state : Type :=
| Sleeping
| Finished
| Crashed (e : exn)
| LeftModel.

(** [payload["status"] == "notified"], the test that ends the loop *)
Definition is_notified (payload : dict) : bool :=
  json_is_str (dget_or_none "status" payload) "notified".

(** [_simulate_price_updates]: the loop run for as many iterations as there
    are entries in [draws]; [Sleeping] when they are used up with the loop
    still alive. *)
Fixpoint _simulate_price_updates (st : store) (watch_id : string)
  (target_price : option pyfloat) (draws : list Z) : sim_state * store :=
  match draws with
  | [] => (Sleeping, st)
  | draw :: rest =>
      match tick st watch_id target_price draw with
      | (Ok Stopped, st') => (Finished, st')
      | (Ok (Updated payload), st') =>
          if is_notified payload then (Finished, st')
          else _simulate_price_updates st' watch_id target_price rest
      | (Raise e, st') => (Crashed e, st')
      | (Unmodelled, st') => (LeftModel, st')
      end
  end.

(* ------------------------------------------------------------------ *)
(** ** Resource surface *)

Record ResourceLink : Type := {
  link_name : string;
  link_uri : string;
  link_description : string;
  link_meta : dict
}.

(** The arguments of the [asyncio.create_task] call of [handle_call_tool]. *)
Record SimulatorTask : Type := {
  task_watch_id : string;
  task_uri : string;
  task_target_price : option pyfloat
}.

Record CallResult : Type := {
  confirmation : string;
  resource_link : ResourceLink;
  scheduled : option SimulatorTask
}.

Definition newline : string := String "010" EmptyString.

Definition is_none (v : json) : bool :=
  match v with JNull => true | _ => false end.

Definition confirmation_text (origin_str destination_str departure_date_str : string)
  (initial_price target_price : json) : string :=
  "âœ… Fare watch registered for " ++ origin_str ++ " â†’ " ++ destination_str
  ++ " on " ++ departure_date_str ++ "." ++ newline ++ newline
  ++ "Initial price: $" ++ py_str initial_price ++ newline
  ++ "Target alert price: $"
  ++ (if truthy target_price then py_str target_price else "Not set")
  ++ newline ++ newline
  ++ "I'll monitor this flight and notify you when the price changes. "
  ++ "The tracking data is saved in a persistent resource that you can check anytime. "
  ++ "To ensure you receive notifications, please subscribe to this resource in VS Code.".

(** The record [handle_call_tool] builds before it allocates a file. *)
Definition initial_payload (watch_id origin_str destination_str departure_date_str : string)
  (target_price context_file : json) (price : pyfloat) : dict :=
  [("watch_id", JStr watch_id);
   ("origin", JStr origin_str);
   ("destination", JStr destination_str);
   ("departure_date", JStr departure_date_str);
   ("status", JStr "watching");
   ("target_price", target_price);
   ("context_file", context_file);
   ("history",
    JArr [JObj [("sequence", JInt 0);
                ("status", JStr "snapshot");
                ("price", JFloat price);
                ("note", JStr "Initial fare captured by DeepAgents research step.")]])].

(** [handle_call_tool(name, arguments)].  [session] tells whether the request
    context carries a session, [uuid4_hex] is the draw [uuid.uuid4().hex]. *)
Definition handle_call_tool (st : store) (session : bool) (uuid4_hex : string)
  (name : string) (arguments : option dict) : result CallResult * store :=
  let arguments := match arguments with Some a => a | None => [] end in
  if negb (String.eqb name "track_flight_price") then (Raise ValueError, st)
  else
    let origin := dget_or_none "origin" arguments in
    let destination := dget_or_none "destination" arguments in
    let departure_date := dget_or_none "departure_date" arguments in
    let initial_price := dget_or_none "initial_price" arguments in
    let target_price := dget_or_none "target_price" arguments in
    let context_file := dget_or_none "context_file" arguments in
    let required := [origin; destination; departure_date; initial_price] in
    if negb (forallb hashable required) then (Raise TypeError, st)
    else if existsb is_none required then (Raise ValueError, st)
    else
      let origin_str := py_str origin in
      let destination_str := py_str destination in
      let departure_date_str := py_str departure_date in
      let watch_id := uuid4_hex in
      match py_float initial_price with
      | Raise e => (Raise e, st)
      | Unmodelled => (Unmodelled, st)
      | Ok price =>
      let payload :=
        initial_payload watch_id origin_str destination_str departure_date_str
                        target_price context_file price in
      match _allocate_watch_file st watch_id origin_str destination_str
                                 departure_date_str with
      | Raise e => (Raise e, st)
      | Unmodelled => (Unmodelled, st)
      | Ok (file_name, resource_name) =>
      let payload := dset "file_name" (JStr file_name) payload in
      let payload := dset "resource_name" (JStr resource_name) payload in
      match _write_watch_file st file_name payload with
      | (Raise e, st') => (Raise e, st')
      | (Unmodelled, st') => (Unmodelled, st')
      | (Ok _, st') =>
      let uri := _resource_uri file_name in
      let task : result (option SimulatorTask) :=
        if session then
          target <- (if is_none target_price then Ok None
                     else t <- py_float target_price ;; Ok (Some t)) ;;
          Ok (Some {| task_watch_id := watch_id; task_uri := uri;
                      task_target_price := target |})
        else Ok None in
      match task with
      | Raise e => (Raise e, st')
      | Unmodelled => (Unmodelled, st')
      | Ok scheduled =>
      let link_meta : dict :=
        [("origin", JStr origin_str);
         ("destination", JStr destination_str);
         ("departure_date", JStr departure_date_str);
         ("status", dget_or_none "status" payload);
         ("file_name", JStr file_name);
         ("resource_name", JStr resource_name);
         ("watch_id", JStr watch_id)] in
      (Ok {| confirmation :=
               confirmation_text origin_str destination_str departure_date_str
                                 initial_price target_price;
             resource_link :=
               {| link_name := resource_name;
                  link_uri := uri;
                  link_description :=
                    "Flight watch: " ++ origin_str ++ " â†’ " ++ destination_str
                    ++ " (" ++ departure_date_str ++ ")";
                  link_meta := link_meta |};
             scheduled := scheduled |}, st')
      end
      end
      end
      end.

(** [handle_read_resource(uri)]: the payload that [json.dumps] serialises. *)
Definition handle_read_resource (st : store) (uri : string) : result dict :=
  watch_id <- _parse_watch_id st uri ;;
  _load_watch st watch_id.

(** The arguments of one [Resource(...)] of [handle_list_resources]. *)
Record Resource : Type := {
  res_name : string;
  res_uri : string;
  res_description : string;
  res_mimeType : string
}.

(** [payload.get(k, "?")] *)
Definition dget_or_question (k : string) (payload : dict) : json :=
  match dget k payload with Some v => v | None => JStr "?" end.

(** The body of the loop of [handle_list_resources] for the file [path] with
    the parsed object [payload].  [Path(file_name)] raises [TypeError] on a
    value that is not a string; a name that is not a string is refused by
    the [Resource] model, which is outside this model. *)
Definition list_entry (path : string) (payload : dict) : result Resource :=
  let file_name :=
    if truthy (dget_or_none "file_name" payload)
    then dget_or_none "file_name" payload else JStr (path_name path) in
  resource_name <-
    (if truthy (dget_or_none "resource_name" payload)
     then Ok (dget_or_none "resource_name" payload)
     else match file_name with
          | JStr f => Ok (JStr ("flight-watch-" ++ path_stem (path_name f)))
          | _ => Raise TypeError
          end) ;;
  let description :=
    "Flight watch: " ++ py_str (dget_or_question "origin" payload)
    ++ " â†’ " ++ py_str (dget_or_question "destination" payload) in
  match resource_name with
  | JStr name =>
      Ok {| res_name := name; res_uri := _resource_uri path;
            res_description := description; res_mimeType := "application/json" |}
  | _ => Unmodelled
  end.

(** [sorted(paths)]: a stable insertion sort by file name. *)
Fixpoint insert_by_name (e : string * file_text) (sorted : store) : store :=
  match sorted with
  | [] => [e]
  | e' :: rest =>
      if String.leb (fst e) (fst e') then e :: sorted
      else e' :: insert_by_name e rest
  end.

Definition sorted_by_name (entries : store) : store :=
  fold_right insert_by_name [] entries.

(** The [for path in sorted(STORE_DIR.glob("*.json"))] loop. *)
Fixpoint list_loop (entries : store) : result (list Resource) :=
  match entries with
  | [] => Ok []
  | (path, NotJson) :: rest => list_loop rest
  | (path, JsonText (JObj payload)) :: rest =>
      resource <- list_entry path payload ;;
      resources <- list_loop rest ;;
      Ok (resource :: resources)
  | (path, JsonText _) :: rest => Raise AttributeError
  end.

(** [handle_list_resources()] *)
Definition handle_list_resources (st : store) : result (list Resource) :=
  list_loop (sorted_by_name (glob_json st)).

(** One entry of the [properties] of a tool's input schema. *)
Record SchemaProperty : Type := {
  prop_name : string;
  prop_type : string;
  prop_description : string
}.

Record Tool : Type := {
  tool_name : string;
  tool_description : string;
  schema_properties : list SchemaProperty;
  schema_required : list string
}.

(** [handle_list_tools()] *)
Definition handle_list_tools : list Tool :=
  [{| tool_name := "track_flight_price";
      tool_description :=
        "Persist an itinerary snapshot and obtain a durable resource link "
        ++ "that streams fare updates for out-of-band monitoring.";
      schema_properties :=
        [{| prop_name := "origin"; prop_type := "string";
            prop_description := "IATA code or city for departure (e.g., LHR)." |};
         {| prop_name := "destination"; prop_type := "string";
            prop_description := "IATA code or city for arrival (e.g., LIS)." |};
         {| prop_name := "departure_date"; prop_type := "string";
            prop_description := "ISO date string for the desired travel date." |};
         {| prop_name := "initial_price"; prop_type := "number";
            prop_description := "The latest fare quote captured by the agent." |};
         {| prop_name := "target_price"; prop_type := "number";
            prop_description := "Optional alert threshold for the traveler." |};
         {| prop_name := "context_file"; prop_type := "string";
            prop_description := "Optional DeepAgents virtual file name for provenance." |}];
      schema_required := ["origin"; "destination"; "departure_date"; "initial_price"] |}].

(** [handle_subscribe_resource(uri)] *)
Definition handle_subscribe_resource (st : store) (uri : string) : result unit :=
  watch_id <- _parse_watch_id st uri ;;
  _ <- _load_watch st watch_id ;;
  Ok tt.

End Engine.

(* ------------------------------------------------------------------ *)
(** ** Vocabulary of the claims *)

(** Characters of a slug: lowercase letters, digits and the hyphen. *)
Definition slug_or_dash (c : ascii) : bool := slug_char c || Ascii.eqb c "-".

(** Characters of [uuid.uuid4().hex]. *)
Definition hex_char (c : ascii) : bool := PyStr.is_digit c || PyStr.in_range 97 102 c.

(** Characters that keep a name inside the store directory. *)
Definition plain_char (c : ascii) : bool :=
  negb (Ascii.eqb c "/") && negb (Ascii.eqb c "000").

(** The file name the allocator tries at suffix [k]. *)
Definition candidate_file (stem : string) (k : nat) : string :=
  (stem ++ "-" ++ PyStr.of_nat k) ++ ".json".

(** [f"{base_slug}-{watch_id[:8]}"] *)
Definition allocation_stem (watch_id origin destination departure_date : string) : string :=
  _slugify [origin; destination; departure_date] ++ "-" ++ PyStr.take 8 watch_id.

(** The four arguments [handle_call_tool] requires. *)
Definition required_arguments (arguments : dict) : list json :=
  [dget_or_none "origin" arguments; dget_or_none "destination" arguments;
   dget_or_none "departure_date" arguments; dget_or_none "initial_price" arguments].

(** Characters that [urlparse], [unquote] and [_resource_uri] leave alone. *)
Definition uri_inert (c : ascii) : bool :=
  negb (Ascii.eqb c "#" || Ascii.eqb c "?" || Ascii.eqb c "%" || Ascii.eqb c "\"
        || (PyStr.code c =? 9)%nat || (PyStr.code c =? 10)%nat
        || (PyStr.code c =? 13)%nat).

(** [s] is a POSIX path whose last component is [name]. *)
Definition ends_in (name s : string) : Prop :=
  exists front, PyStr.split "/" s = (front ++ [name])%list.

(** What [_load_watch] adds to a stored object. *)
Definition with_defaults (path : string) (payload : dict) : dict :=
  setdefault "resource_name" (JStr ("flight-watch-" ++ path_stem (path_name path)))
    (setdefault "file_name" (JStr (path_name path)) payload).

(** The value of a JSON number as Python arithmetic and comparisons read
    it: an [int] (or [bool]) exactly, a [float] as it is. *)
Definition numeric_value (v : json) : option pyfloat :=
  match v with
  | JInt z => Some (Finite (inject_Z z))
  | JFloat f => Some f
  | JBool b => Some (Finite (inject_Z (if b then 1 else 0)))
  | _ => None
  end.

(** The order of the extended reals on floats; a NaN is below and above
    nothing. *)
Definition float_le (a b : pyfloat) : Prop :=
  match a, b with
  | NaN, _ => False
  | _, NaN => False
  | Infinite s, Infinite t => s = true \/ t = false
  | Infinite s, Finite _ => s = true
  | Finite _, Infinite t => t = false
  | Finite x, Finite y => x <= y
  end.

(** [max(s, 50)] for a float sum [s]: the [int] 50 when the sum is below
    50, the sum itself otherwise, a NaN included. *)
Definition floored (s : pyfloat) : json :=
  match s with
  | Finite x => if Qle_bool 50 x then JFloat (Finite x) else JInt 50
  | Infinite true => JInt 50
  | Infinite false => JFloat (Infinite false)
  | NaN => JFloat NaN
  end.

(** [new_price] is [max(previous + delta, 50)] in Python's arithmetic: the
    sum is exact on an [int] and is the double nearest to the exact sum on
    a finite [float]. *)
Definition floored_sum (previous : json) (delta : Z) (new_price : json) : Prop :=
  match previous with
  | JInt z => new_price = JInt (Z.max (z + delta) 50)
  | JBool b => new_price = JInt (Z.max ((if b then 1 else 0) + delta) 50)
  | JFloat (Finite x) => new_price = floored (round_double (x + inject_Z delta))
  | JFloat f => new_price = floored f
  | _ => False
  end.

(** [payload.get("status") in {"notified", "cancelled"}] *)
Definition is_terminal (payload : dict) : bool :=
  json_is_str (dget_or_none "status" payload) "notified"
  || json_is_str (dget_or_none "status" payload) "cancelled".

(** [history[i].sequence == i] for every valid index of a record. *)
Definition history_indexed (payload : dict) : Prop :=
  forall history, dget "history" payload = Some (JArr history) ->
  forall i e, nth_error history i = Some e ->
  exists entry, e = JObj entry /\ dget "sequence" entry = Some (JInt (Z.of_nat i)).

Definition store_indexed (st : store) : Prop :=
  forall name payload, In (name, JsonText (JObj payload)) st -> history_indexed payload.

Section EngineSteps.

Context {RT : Runtime}.

(** [_slugify(origin_str, destination_str, departure_date_str)] of a call *)
Definition slug_of_arguments (arguments : dict) : string :=
  _slugify [py_str (dget_or_none "origin" arguments);
            py_str (dget_or_none "destination" arguments);
            py_str (dget_or_none "departure_date" arguments)].

(** The record an iteration writes, from the record it loaded. *)
Definition ticked (target : option pyfloat) (draw_price : number) (origin destination : json)
  (history : list json) (payload : dict) : dict :=
  decide_status target draw_price origin destination
    (dset "history"
       (JArr (history ++ [JObj (price_stage (List.length history) draw_price)])%list)
       payload).

(** The record a successful create call writes. *)
Definition created_payload (uuid4_hex candidate : string) (arguments : dict)
  (price : pyfloat) : dict :=
  dset "resource_name" (JStr ("flight-watch-" ++ candidate))
    (dset "file_name" (JStr (candidate ++ ".json"))
       (initial_payload uuid4_hex
          (py_str (dget_or_none "origin" arguments))
          (py_str (dget_or_none "destination" arguments))
          (py_str (dget_or_none "departure_date" arguments))
          (dget_or_none "target_price" arguments)
          (dget_or_none "context_file" arguments) price)).

(** What C6 says of a create call: [st'] is [st] with one new file whose
    name begins with [slug], holding a record with status [watching] and a
    single history entry of sequence 0 and price [price]. *)
Definition initial_record_persisted (st st' : store) (slug : string) (price : pyfloat)
  : Prop :=
  exists file_name payload,
    lookup_path st file_name = NoEntry
    /\ st' = put_file file_name (JsonText (JObj payload)) st
    /\ lookup_path st' file_name = Regular (JsonText (JObj payload))
    /\ dget "status" payload = Some (JStr "watching")
    /\ dget "history" payload
       = Some (JArr [JObj [("sequence", JInt 0);
                           ("status", JStr "snapshot");
                           ("price", JFloat price);
                           ("note", JStr "Initial fare captured by DeepAgents research step.")]])
    /\ dget "file_name" payload = Some (JStr file_name)
    /\ String.prefix slug file_name = true.

(** A loaded record on which an iteration runs to its end: the status is
    hashable and not terminal, the history is a list whose last entry
    carries a number as its price, origin and destination are there, and
    [file_name] is either a name the directory can hold or is not set. *)
Definition tickable (st : store) (payload : dict) : Prop :=
  hashable (dget_or_none "status" payload) = true
  /\ is_terminal payload = false
  /\ (exists front last current,
         dget "history" payload = Some (JArr (front ++ [JObj last])%list)
         /\ dget "price" last = Some current
         /\ numeric_value current <> None)
  /\ (exists origin, dget "origin" payload = Some origin)
  /\ (exists destination, dget "destination" payload = Some destination)
  /\ ((exists name,
          dget "file_name" payload = Some (JStr name)
          /\ PyStr.nonempty name = true
          /\ lookup_path st name <> Directory
          /\ lookup_path st name <> Outside)
      \/ truthy (dget_or_none "file_name" payload) = false).

(** What C4 says of an iteration that loaded [payload], wrote [saved] and
    left the store [st']: one entry was appended to the history, numbered
    by the length the history had, with the price
    [max(previous + delta, 50)] for the most recent price [previous] and
    the draw [delta] between -40 and 20; that price is at least 50 unless
    [previous] is NaN, and then it is NaN; the record is persisted; its
    status is [notified], with the alert summary, exactly when a target is
    set and the new price is at most the target, and [watching]
    otherwise. *)
Definition tick_postcondition (st st' : store) (payload : dict)
  (target : option pyfloat) (draw : Z) (saved : dict) : Prop :=
  let delta := randint (-40) 20 draw in
  exists front last previous new_price,
    dget "history" payload = Some (JArr (front ++ [JObj last])%list)
    /\ dget "price" last = Some previous
    /\ (-40 <= delta <= 20)%Z
    /\ floored_sum previous delta new_price
    /\ (forall v, numeric_value new_price = Some v -> v <> NaN -> float_le (Finite 50) v)
    /\ (numeric_value new_price = Some NaN <-> previous = JFloat NaN)
    /\ dget "history" saved
       = Some (JArr ((front ++ [JObj last])
                     ++ [JObj [("sequence", JInt (Z.of_nat (List.length front + 1)));
                               ("status", JStr "price_update");
                               ("price", new_price);
                               ("note", JStr "Received new quote from fare service.")]])%list)
    /\ (exists name, st' = put_file name (JsonText (JObj saved)) st
                     /\ lookup_path st' name = Regular (JsonText (JObj saved)))
    /\ (dget "status" saved = Some (JStr "notified")
        <-> exists t v, target = Some t /\ numeric_value new_price = Some v
                        /\ float_le v t)
    /\ (dget "status" saved = Some (JStr "notified") ->
        exists t origin destination,
          target = Some t
          /\ dget "origin" payload = Some origin
          /\ dget "destination" payload = Some destination
          /\ dget "summary" saved
             = Some (JStr ("ðŸŽ‰ PRICE ALERT! Flight " ++ py_str origin ++ " â†’ "
                           ++ py_str destination ++ " dropped to $" ++ py_str new_price
                           ++ " (target was $" ++ py_str (JFloat t) ++ ")")))
    /\ (dget "status" saved <> Some (JStr "notified") ->
        dget "status" saved = Some (JStr "watching")).

(** The operations of the engine that write the store: a create call and an
    iteration of some watch's simulator, with any arguments. *)
Inductive engine_step : store -> store -> Prop :=
| step_create (st : store) (session : bool) (uuid4_hex name : string)
    (arguments : option dict) :
    engine_step st (snd (handle_call_tool st session uuid4_hex name arguments))
| step_tick (st : store) (watch_id : string) (target_price : option pyfloat) (draw : Z) :
    engine_step st (snd (tick st watch_id target_price draw)).

Inductive engine_run : store -> store -> Prop :=
| run_done (st : store) : engine_run st st
| run_step (st st' st'' : store) :
    engine_step st st' -> engine_run st' st'' -> engine_run st st''.

End EngineSteps.

(* ------------------------------------------------------------------ *)
(** ** A concrete scenario *)

(** The library behaviour assumed in the scenario: the store lives in
    [/srv/flight_watch_store]; the one string of the scenario that
    [float()] accepts is [nan]; non-string values print as a placeholder. *)
Definition demo_runtime : Runtime :=
  {| STORE_DIR := ["srv"; "flight_watch_store"];
     str_of_value := fun _ => "<value>";
     float_of_str := fun s => if String.eqb s "nan" then Some NaN else None;
     netloc_ok := fun _ => true |}.

Definition demo_id : string := "0a1b2c3d4e5f60718293a4b5c6d7e8f9".

(** LHR to LIS on 2025-06-01, first quoted at 400, alert at 350. *)
Definition demo_arguments : dict :=
  [("origin", JStr "LHR"); ("destination", JStr "LIS");
   ("departure_date", JStr "2025-06-01");
   ("initial_price", JInt 400); ("target_price", JInt 350)].

(** The store after that create call on an empty directory. *)
Definition demo_store : store :=
  snd (handle_call_tool (RT := demo_runtime) [] true demo_id "track_flight_price"
                        (Some demo_arguments)).

Definition demo_file : string := "lhr-lis-2025-06-01-0a1b2c3d.json".

Definition demo_uri : string :=
  "file:///srv/flight_watch_store/lhr-lis-2025-06-01-0a1b2c3d.json".

(** The record of [demo_file] as the create call wrote it. *)
Definition demo_payload : dict :=
  match find_file demo_file demo_store with
  | Some (JsonText (JObj payload)) => payload
  | _ => []
  end.

(** The alert threshold of the scenario's simulator, [float(350)]. *)
Definition demo_target : option pyfloat := Some (Finite (350 # 1)).

(** The store after one simulator iteration with raw draw 0 (delta -40, new
    price 360, above the target). *)
Definition demo_store_1 : store :=
  snd (tick (RT := demo_runtime) demo_store demo_id demo_target 0).

Definition demo_payload_1 : dict :=
  match find_file demo_file demo_store_1 with
  | Some (JsonText (JObj payload)) => payload
  | _ => []
  end.

(** The store after a second iteration with raw draw 0 (price 320, at or
    below the target: the watch is notified). *)
Definition demo_store_2 : store :=
  snd (tick (RT := demo_runtime) demo_store_1 demo_id demo_target 0).

(** [demo_store] after an external writer set the status to [cancelled]. *)
Definition demo_cancelled_store : store :=
  put_file demo_file (JsonText (JObj (dset "status" (JStr "cancelled") demo_payload)))
           demo_store.

(** A directory with one legacy-named file whose payload carries another id. *)
Definition legacy_store : store :=
  [("abc.json", JsonText (JObj [("watch_id", JStr "zzz"); ("status", JStr "watching")]))].

(** A record without [file_name] and [resource_name]. *)
Definition bare_payload : dict :=
  [("watch_id", JStr "0a1b2c3d4e5f"); ("status", JStr "watching")].

Definition bare_store : store := [("lhr-lis-0a1b2c3d.json", JsonText (JObj bare_payload))].

(** A record whose [watch_id] is the empty string. *)
Definition empty_id_store : store :=
  [("lhr-lis-0a1b2c3d.json", JsonText (JObj [("watch_id", JStr EmptyString)]))].

(** A legacy file [abc.json] whose record carries no [watch_id]. *)
Definition idless_store : store :=
  [("abc.json", JsonText (JObj [("status", JStr "watching")]))].

(** A watch first quoted at 60.1 with the alert at 80.1, both as the
    doubles nearest to them; the raw draw 60 gives the delta +20. *)
Definition cents_price : pyfloat := Finite (8458323050155213 # 140737488355328).

Definition cents_target : pyfloat := Finite (2818268204315443 # 35184372088832).

Definition cents_store : store :=
  snd (handle_call_tool (RT := demo_runtime) [] false demo_id "track_flight_price"
         (Some [("origin", JStr "LHR"); ("destination", JStr "LIS");
                ("departure_date", JStr "2025-06-01");
                ("initial_price", JFloat cents_price);
                ("target_price", JFloat cents_target)])).

(** A watch whose first quote is the text [nan], which [float()] accepts. *)
Definition nan_store : store :=
  snd (handle_call_tool (RT := demo_runtime) [] false demo_id "track_flight_price"
         (Some [("origin", JStr "LHR"); ("destination", JStr "LIS");
                ("departure_date", JStr "2025-06-01");
                ("initial_price", JStr "nan")])).

(** The history of the record stored in [file], and its sequence numbers. *)
Definition history_of (st : store) (file : string) : list json :=
  match find_file file st with
  | Some (JsonText (JObj payload)) =>
      match dget "history" payload with Some (JArr history) => history | _ => [] end
  | _ => []
  end.

Definition sequences_of (st : store) (file : string) : list (option json) :=
  map (fun e => match e with JObj entry => dget "sequence" entry | _ => None end)
      (history_of st file).

Definition prices_of (st : store) (file : string) : list (option json) :=
  map (fun e => match e with JObj entry => dget "price" entry | _ => None end)
      (history_of st file).

(** A file the allocator named after a collision, holding no [watch_id]. *)
Definition collided_store : store :=
  [("lhr-lis-2025-06-01-0a1b2c3d-1.json", JsonText (JObj [("origin", JStr "LHR")]))].

(* ------------------------------------------------------------------ *)
(** ** Vocabulary of the further properties *)

(** A URI scheme as [urlsplit] recognises one: a letter followed by letters,
    digits, [+], [-] and [.]. *)
Definition scheme_text (s : string) : bool :=
  match s with
  | EmptyString => false
  | String c _ => PyStr.is_alpha c && all_chars scheme_char s
  end.

(** An entry the fallback scan of [_locate_watch_file] passes over when it
    looks for [watch_id]: text that is not JSON, or an object with another
    id. *)
Definition passed_over (watch_id : string) (e : string * file_text) : bool :=
  match snd e with
  | NotJson => true
  | JsonText (JObj payload) =>
      negb (json_is_str (dget_or_none "watch_id" payload) watch_id)
  | JsonText _ => false
  end.

(** A file [json.loads] accepts. *)
Definition parseable (e : string * file_text) : bool :=
  match snd e with NotJson => false | JsonText _ => true end.

(** Every record of the directory carries the name of its own file. *)
Definition store_named (st : store) : Prop :=
  forall name payload,
    In (name, JsonText (JObj payload)) st ->
    dget "file_name" payload = Some (JStr name).

(** The fields an iteration of the simulator may write. *)
Definition tick_field (k : string) : bool :=
  String.eqb k "history" || String.eqb k "status" || String.eqb k "summary"
  || String.eqb k "file_name".


(** The order [sorted] puts the files of the directory in. *)
Definition name_le (e e' : string * file_text) : Prop :=
  String.leb (fst e) (fst e') = true.

(** A [*.json] file that [handle_list_resources] turns into a resource. *)
Definition listed (e : string * file_text) : bool :=
  PyStr.endswith ".json" (fst e) && parseable e.

(** No two hyphens in a row; [after_hyphen] tells that the text follows
    one. *)
Fixpoint hyphens_apart (after_hyphen : bool) (s : string) : bool :=
  match s with
  | EmptyString => true
  | String c r =>
      if Ascii.eqb c "-" then negb after_hyphen && hyphens_apart true r
      else hyphens_apart false r
  end.

(** ** More of the scenario *)

Definition other_id : string := "ffeeddccbbaa99887766554433221100".

(** JFK to CDG on 2025-07-14, first quoted at 620, no alert. *)
Definition other_arguments : dict :=
  [("origin", JStr "JFK"); ("destination", JStr "CDG");
   ("departure_date", JStr "2025-07-14"); ("initial_price", JInt 620)].

Definition other_file : string := "jfk-cdg-2025-07-14-ffeeddcc.json".

(** [demo_store] after a second create call, made without a session. *)
Definition pair_store : store :=
  snd (handle_call_tool (RT := demo_runtime) demo_store false other_id
                        "track_flight_price" (Some other_arguments)).

(** [demo_store] in a directory that also holds a truncated file and a
    file that is not a record. *)
Definition cluttered_store : store :=
  ("broken.json", NotJson) :: ("notes.txt", NotJson) :: demo_store.

(** [demo_store] next to a file holding a JSON array. *)
Definition array_store : store := ("list.json", JsonText (JArr [])) :: demo_store.

(** What the listing of [demo_store] returns. *)
Definition demo_listing : list Resource :=
  match handle_list_resources (RT := demo_runtime) demo_store with
  | Ok resources => resources
  | _ => []
  end.

Definition pair_listing : list Resource :=
  match handle_list_resources (RT := demo_runtime) pair_store with
  | Ok resources => resources
  | _ => []
  end.

(** Two directory entries with the same name that the listing cannot tell
    apart. *)
Definition listed_alike {RT : Runtime} (e e' : string * file_text) : Prop :=
  fst e = fst e' /\ list_loop [e] = list_loop [e'].

(* ------------------------------------------------------------------ *)
(** ** Facts about strings *)

Lemma append_assoc (a b c : string) : (a ++ b) ++ c = a ++ b ++ c.
Proof. induction a as [|x a IH]; simpl; [reflexivity | now rewrite IH]. Qed.

Lemma append_nil_r (a : string) : a ++ EmptyString = a.
Proof. induction a as [|x a IH]; simpl; [reflexivity | now rewrite IH]. Qed.

Lemma length_append (a b : string) :
  String.length (a ++ b) = (String.length a + String.length b)%nat.
Proof. induction a as [|x a IH]; simpl; [reflexivity | now rewrite IH]. Qed.

Lemma append_inv_head (a b c : string) : a ++ b = a ++ c -> b = c.
Proof.
  induction a as [|x a IH]; simpl; intros H; [exact H | ].
  injection H as H. auto.
Qed.

Lemma append_inv_tail (a b c : string) : a ++ c = b ++ c -> a = b.
Proof.
  revert b. induction a as [|x a IH]; intros [|y b] H; simpl in H.
  - reflexivity.
  - apply (f_equal String.length) in H. simpl in H.
    rewrite length_append in H. lia.
  - apply (f_equal String.length) in H. simpl in H.
    rewrite length_append in H. lia.
  - injection H as -> H. f_equal. auto.
Qed.

Lemma contains_append (c : ascii) (a b : string) :
  PyStr.contains c (a ++ b) = PyStr.contains c a || PyStr.contains c b.
Proof.
  induction a as [|x a IH]; simpl; [reflexivity | ].
  rewrite IH. now rewrite orb_assoc.
Qed.

Lemma all_chars_append (p : ascii -> bool) (a b : string) :
  all_chars p (a ++ b) = all_chars p a && all_chars p b.
Proof.
  induction a as [|x a IH]; simpl; [reflexivity | ].
  rewrite IH. now rewrite andb_assoc.
Qed.

Lemma all_chars_not_contains (p : ascii -> bool) (c : ascii) (s : string) :
  p c = false -> all_chars p s = true -> PyStr.contains c s = false.
Proof.
  intros Hc. induction s as [|x s IH]; simpl; [reflexivity | ].
  intros H. apply andb_prop in H as [Hx Hs].
  rewrite (IH Hs), orb_false_r.
  destruct (Ascii.eqb_spec x c) as [->|]; [congruence | reflexivity].
Qed.

Lemma all_chars_weaken (p q : ascii -> bool) (s : string) :
  (forall c, p c = true -> q c = true) -> all_chars p s = true -> all_chars q s = true.
Proof.
  intros Hpq. induction s as [|x s IH]; simpl; [reflexivity | ].
  intros H. apply andb_prop in H as [Hx Hs].
  now rewrite (Hpq _ Hx), (IH Hs).
Qed.

(** Decimal numerals *)

Lemma string_of_uint_digits (d : Decimal.uint) :
  all_chars PyStr.is_digit (NilEmpty.string_of_uint d) = true.
Proof. induction d; simpl; auto. Qed.

Lemma to_lu_not_nil (n : nat) : Unsigned.to_lu n <> Decimal.Nil.
Proof.
  induction n as [|n IH].
  - discriminate.
  - rewrite Unsigned.to_lu_succ. destruct (Unsigned.to_lu n); simpl; discriminate.
Qed.

Lemma of_nat_digits (n : nat) : all_chars PyStr.is_digit (PyStr.of_nat n) = true.
Proof. apply string_of_uint_digits. Qed.

Lemma of_nat_nonempty (n : nat) : PyStr.nonempty (PyStr.of_nat n) = true.
Proof.
  unfold PyStr.of_nat. rewrite Unsigned.to_uint_alt.
  destruct (Decimal.rev (Unsigned.to_lu n)) eqn:E; simpl; try reflexivity.
  apply rev_nil_inv in E. now apply to_lu_not_nil in E.
Qed.

Lemma of_nat_inj (m n : nat) : PyStr.of_nat m = PyStr.of_nat n -> m = n.
Proof.
  unfold PyStr.of_nat. intros H.
  apply Unsigned.to_uint_inj.
  apply (f_equal NilEmpty.uint_of_string) in H.
  rewrite !NilEmpty.usu in H. congruence.
Qed.

Lemma of_nat_no_char (c : ascii) (n : nat) :
  PyStr.is_digit c = false -> PyStr.contains c (PyStr.of_nat n) = false.
Proof. intros H. eapply all_chars_not_contains; [exact H | apply of_nat_digits]. Qed.

(* ------------------------------------------------------------------ *)
(** ** The allocator *)

Section AllocatorFacts.

Context {RT : Runtime}.

Lemma sub_non_slug_chars (b : bool) (s : string) :
  all_chars slug_or_dash (sub_non_slug b s) = true.
Proof.
  revert b. induction s as [|c s IH]; intros b; simpl; [reflexivity | ].
  destruct (slug_char c) eqn:Hc; simpl.
  - unfold slug_or_dash at 1. now rewrite Hc, IH.
  - destruct b; simpl; now rewrite ?IH.
Qed.

Lemma lstrip_chars (p : ascii -> bool) (c : ascii) (s : string) :
  all_chars p s = true -> all_chars p (PyStr.lstrip c s) = true.
Proof.
  induction s as [|x s IH]; simpl; [auto | ].
  intros H. destruct (Ascii.eqb x c); [ | exact H].
  apply andb_prop in H as [_ H]. auto.
Qed.

Lemma rstrip_chars (p : ascii -> bool) (c : ascii) (s : string) :
  all_chars p s = true -> all_chars p (PyStr.rstrip c s) = true.
Proof.
  induction s as [|x s IH]; simpl; [auto | ].
  intros H. apply andb_prop in H as [Hx Hs]. specialize (IH Hs).
  destruct (PyStr.rstrip c s) as [|y r].
  - destruct (Ascii.eqb x c); simpl; [reflexivity | now rewrite Hx].
  - simpl in *. now rewrite Hx, IH.
Qed.

Lemma slug_token_chars (part : string) :
  all_chars slug_or_dash (slug_token part) = true.
Proof.
  unfold slug_token, PyStr.strip.
  apply rstrip_chars, lstrip_chars, sub_non_slug_chars.
Qed.

Lemma slug_tokens_chars (parts : list string) :
  Forall (fun t => all_chars slug_or_dash t = true) (slug_tokens parts).
Proof.
  induction parts as [|p parts IH]; simpl; [constructor | ].
  destruct (PyStr.nonempty p); simpl; [ | exact IH].
  destruct (PyStr.nonempty (slug_token p)); [ | exact IH].
  constructor; [apply slug_token_chars | exact IH].
Qed.

Lemma join_chars (p : ascii -> bool) (sep : string) (parts : list string) :
  all_chars p sep = true ->
  Forall (fun t => all_chars p t = true) parts ->
  all_chars p (PyStr.join sep parts) = true.
Proof.
  intros Hsep H. induction H as [|t ts Ht Hts IH]; simpl; [reflexivity | ].
  destruct ts as [|t' ts']; [exact Ht | ].
  rewrite !all_chars_append, Ht, Hsep. exact IH.
Qed.

(** The slug is made of lowercase letters, digits and hyphens only. *)
Lemma slugify_chars (parts : list string) :
  all_chars slug_or_dash (_slugify parts) = true.
Proof.
  unfold _slugify.
  destruct (PyStr.nonempty (PyStr.join "-" (slug_tokens parts))); [ | reflexivity].
  apply join_chars; [reflexivity | apply slug_tokens_chars].
Qed.

Lemma plain_lookup (st : store) (s : string) :
  all_chars plain_char s = true ->
  (5 <= String.length s)%nat ->
  lookup_path st s =
    match find_file s st with Some t => Regular t | None => NoEntry end.
Proof.
  intros Hp Hl. unfold lookup_path.
  replace (String.eqb s EmptyString || String.eqb s "." || String.eqb s "..") with false.
  2:{ symmetry. destruct s as [|a [|b [|c s]]]; simpl in Hl; try lia.
      destruct (String.eqb_spec (String a (String b (String c s))) "."); [discriminate | ].
      destruct (String.eqb_spec (String a (String b (String c s))) ".."); [discriminate | ].
      reflexivity. }
  rewrite (all_chars_not_contains plain_char "/" s), (all_chars_not_contains plain_char "000" s);
    auto.
Qed.

Lemma find_file_in (name : string) (st : store) (t : file_text) :
  find_file name st = Some t -> In (name, t) st.
Proof.
  induction st as [|[n t'] st IH]; simpl; [discriminate | ].
  destruct (String.eqb_spec n name) as [->|].
  - intros [= ->]. now left.
  - intros H. right. auto.
Qed.

Lemma path_exists_plain (st : store) (s : string) :
  all_chars plain_char s = true ->
  (5 <= String.length s)%nat ->
  (path_exists st s = Ok true /\ In s (map fst st))
  \/ (path_exists st s = Ok false /\ lookup_path st s = NoEntry).
Proof.
  intros Hp Hl. unfold path_exists. rewrite (plain_lookup st s Hp Hl).
  destruct (find_file s st) as [t|] eqn:E.
  - left. split; [reflexivity | ].
    apply find_file_in in E. now apply (in_map fst) in E.
  - right. split; reflexivity.
Qed.

Lemma candidate_file_inj (stem : string) (j k : nat) :
  candidate_file stem j = candidate_file stem k -> j = k.
Proof.
  unfold candidate_file. intros H.
  apply append_inv_tail, append_inv_head, append_inv_head in H.
  now apply of_nat_inj.
Qed.

Lemma slug_or_dash_plain (c : ascii) : slug_or_dash c = true -> plain_char c = true.
Proof.
  unfold slug_or_dash, plain_char. intros H.
  destruct (Ascii.eqb_spec c "/") as [->|]; [discriminate | ].
  destruct (Ascii.eqb_spec c "000") as [->|]; [discriminate | reflexivity].
Qed.

Lemma digit_plain (c : ascii) : PyStr.is_digit c = true -> plain_char c = true.
Proof.
  unfold plain_char. intros H.
  destruct (Ascii.eqb_spec c "/") as [->|]; [discriminate | ].
  destruct (Ascii.eqb_spec c "000") as [->|]; [discriminate | reflexivity].
Qed.

Lemma hex_plain (c : ascii) : hex_char c = true -> plain_char c = true.
Proof.
  unfold plain_char. intros H.
  destruct (Ascii.eqb_spec c "/") as [->|]; [discriminate | ].
  destruct (Ascii.eqb_spec c "000") as [->|]; [discriminate | reflexivity].
Qed.

Lemma all_chars_take (p : ascii -> bool) (n : nat) (s : string) :
  all_chars p s = true -> all_chars p (PyStr.take n s) = true.
Proof.
  revert s. induction n as [|n IH]; intros [|c s]; simpl; try reflexivity.
  intros H. apply andb_prop in H as [Hc Hs]. now rewrite Hc, (IH _ Hs).
Qed.

Lemma hex_prefix_plain (watch_id : string) :
  all_chars hex_char watch_id = true ->
  all_chars plain_char (PyStr.take 8 watch_id) = true.
Proof.
  intros H. apply all_chars_take. exact (all_chars_weaken _ _ _ hex_plain H).
Qed.

Lemma candidate_file_plain (stem : string) (k : nat) :
  all_chars plain_char stem = true ->
  all_chars plain_char (candidate_file stem k) = true
  /\ (5 <= String.length (candidate_file stem k))%nat.
Proof.
  intros H. unfold candidate_file. split.
  - rewrite !all_chars_append, H.
    rewrite (all_chars_weaken _ _ _ digit_plain (of_nat_digits k)). reflexivity.
  - rewrite length_append. simpl. lia.
Qed.

(** When the loop runs out of fuel, every name it tried is taken. *)
Lemma allocate_loop_none (fuel : nat) (st : store) (stem candidate : string) (k : nat) :
  all_chars plain_char stem = true ->
  allocate_loop fuel st stem candidate k = None ->
  forall j, (k <= j < k + fuel)%nat -> In (candidate_file stem j) (map fst st).
Proof.
  intros Hstem. revert candidate k.
  induction fuel as [|fuel IH]; intros candidate k H j Hj; [lia | ].
  cbn [allocate_loop] in H.
  destruct (path_exists st (candidate ++ ".json")) as [[|]| |]; try discriminate.
  destruct (Nat.eq_dec j k) as [->|Hne].
  - destruct (candidate_file_plain stem k Hstem) as [Hp Hl].
    destruct (path_exists_plain st _ Hp Hl) as [[_ Hin]|[Hex _]]; [exact Hin | ].
    exfalso. unfold candidate_file in Hex.
    destruct fuel; cbn [allocate_loop] in H; rewrite Hex in H; discriminate.
  - apply (IH _ _ H). lia.
Qed.

Lemma allocate_loop_total (st : store) (stem candidate : string) (k : nat) :
  all_chars plain_char stem = true ->
  allocate_loop (S (List.length st)) st stem candidate k <> None.
Proof.
  intros Hstem H.
  pose proof (allocate_loop_none _ _ _ _ _ Hstem H) as Hall.
  assert (Hincl : incl (map (candidate_file stem) (seq k (S (List.length st))))
                       (map fst st)).
  { intros x Hx. apply in_map_iff in Hx as [j [<- Hj]].
    apply in_seq in Hj. apply Hall. lia. }
  assert (Hnd : NoDup (map (candidate_file stem) (seq k (S (List.length st))))).
  { apply NoDup_map_NoDup_ForallPairs; [ | apply seq_NoDup].
    intros a b _ _. apply candidate_file_inj. }
  pose proof (NoDup_incl_length Hnd Hincl) as Hlen.
  rewrite !length_map, length_seq in Hlen. lia.
Qed.

(** A name the loop returns is free. *)
Lemma allocate_loop_fresh (fuel : nat) (st : store) (stem candidate : string) (k : nat)
  (found : string) :
  allocate_loop fuel st stem candidate k = Some (Ok found) ->
  path_exists st (found ++ ".json") = Ok false.
Proof.
  revert candidate k. induction fuel as [|fuel IH]; intros candidate k; simpl;
    destruct (path_exists st (candidate ++ ".json")) as [[|]| |] eqn:E;
    try discriminate; try (intros [= <-]; exact E).
  apply IH.
Qed.

(** The loop only returns the stem itself or the stem with a numeric suffix. *)
Lemma allocate_loop_shape (fuel : nat) (st : store) (stem candidate : string) (k : nat)
  (found : string) :
  allocate_loop fuel st stem candidate k = Some (Ok found) ->
  found = candidate \/ exists j, found = stem ++ "-" ++ PyStr.of_nat j.
Proof.
  revert candidate k. induction fuel as [|fuel IH]; intros candidate k; simpl;
    destruct (path_exists st (candidate ++ ".json")) as [[|]| |] eqn:E;
    try discriminate; try (intros [= <-]; now left).
  intros H. apply IH in H as [->|H]; right; [now exists k | exact H].
Qed.

Lemma allocate_loop_no_raise (fuel : nat) (st : store) (stem candidate : string) (k : nat)
  (e : exn) :
  allocate_loop fuel st stem candidate k <> Some (Raise e).
Proof.
  revert candidate k. induction fuel as [|fuel IH]; intros candidate k; simpl;
    destruct (path_exists st (candidate ++ ".json")) as [[|]| |] eqn:E;
    try discriminate; try apply IH.
  all: unfold path_exists in E; destruct (lookup_path st (candidate ++ ".json"));
    discriminate.
Qed.

Lemma allocate_loop_modelled (fuel : nat) (st : store) (stem candidate : string) (k : nat) :
  all_chars plain_char stem = true ->
  all_chars plain_char candidate = true ->
  allocate_loop fuel st stem candidate k <> Some Unmodelled.
Proof.
  intros Hstem. revert candidate k.
  induction fuel as [|fuel IH]; intros candidate k Hc; cbn [allocate_loop].
  all: assert (Hp : all_chars plain_char (candidate ++ ".json") = true)
         by (rewrite all_chars_append, Hc; reflexivity).
  all: assert (Hl : (5 <= String.length (candidate ++ ".json"))%nat)
         by (rewrite length_append; simpl; lia).
  all: destruct (path_exists_plain st _ Hp Hl) as [[-> _]|[-> _]]; try discriminate.
  apply IH. rewrite !all_chars_append, Hstem.
  rewrite (all_chars_weaken _ _ _ digit_plain (of_nat_digits k)). reflexivity.
Qed.

(** [_allocate_watch_file] always returns, and the file it names is free. *)
Lemma allocate_total (st : store) (watch_id origin destination departure_date : string) :
  all_chars plain_char (PyStr.take 8 watch_id) = true ->
  exists candidate,
    _allocate_watch_file st watch_id origin destination departure_date
      = Ok (candidate ++ ".json", "flight-watch-" ++ candidate)
    /\ path_exists st (candidate ++ ".json") = Ok false
    /\ (candidate = allocation_stem watch_id origin destination departure_date
        \/ exists j, candidate
             = allocation_stem watch_id origin destination departure_date
               ++ "-" ++ PyStr.of_nat j).
Proof.
  intros Hid. unfold _allocate_watch_file.
  fold (allocation_stem watch_id origin destination departure_date).
  set (stem := allocation_stem watch_id origin destination departure_date).
  assert (Hstem : all_chars plain_char stem = true).
  { unfold stem, allocation_stem. rewrite !all_chars_append, Hid.
    rewrite (all_chars_weaken _ _ _ slug_or_dash_plain (slugify_chars _)). reflexivity. }
  destruct (allocate_loop (S (List.length st)) st stem stem 1) as [[c|e|]|] eqn:E.
  - exists c. split; [reflexivity | ]. split.
    + eapply allocate_loop_fresh; eauto.
    + eapply allocate_loop_shape; eauto.
  - exfalso. eapply allocate_loop_no_raise; eauto.
  - exfalso. eapply allocate_loop_modelled; eauto.
  - exfalso. eapply allocate_loop_total; eauto.
Qed.

Lemma allocate_fresh (st : store) (watch_id origin destination departure_date : string)
  (file_name resource_name : string) :
  _allocate_watch_file st watch_id origin destination departure_date
    = Ok (file_name, resource_name) ->
  path_exists st file_name = Ok false.
Proof.
  unfold _allocate_watch_file.
  destruct (allocate_loop _ st _ _ 1) as [[c|e|]|] eqn:E; try discriminate.
  intros [= <- <-]. eapply allocate_loop_fresh; eauto.
Qed.

End AllocatorFacts.

(* ------------------------------------------------------------------ *)
(** ** Dictionaries and the directory listing *)

Lemma dget_dset_same (k : string) (v : json) (d : dict) :
  dget k (dset k v d) = Some v.
Proof.
  induction d as [|[k' v'] d IH]; simpl.
  - now rewrite String.eqb_refl.
  - destruct (String.eqb k' k) eqn:E; simpl; rewrite E; [reflexivity | exact IH].
Qed.

Lemma dget_dset_other (k k' : string) (v : json) (d : dict) :
  k <> k' -> dget k (dset k' v d) = dget k d.
Proof.
  intros Hne. induction d as [|[k0 v0] d IH]; simpl.
  - destruct (String.eqb_spec k' k); [congruence | reflexivity].
  - destruct (String.eqb_spec k0 k') as [->|]; simpl.
    + destruct (String.eqb_spec k' k); [congruence | reflexivity].
    + now rewrite IH.
Qed.

Lemma dget_setdefault_other (k k' : string) (v : json) (d : dict) :
  k <> k' -> dget k (setdefault k' v d) = dget k d.
Proof.
  intros Hne. unfold setdefault.
  destruct (dget k' d); [reflexivity | now apply dget_dset_other].
Qed.

Lemma dget_setdefault_keeps (k k' : string) (v w : json) (d : dict) :
  dget k d = Some w -> dget k (setdefault k' v d) = Some w.
Proof.
  intros H. unfold setdefault. destruct (dget k' d) eqn:E; [exact H | ].
  rewrite dget_dset_other; [exact H | congruence].
Qed.

Lemma setdefault_present (k : string) (v w : json) (d : dict) :
  dget k d = Some w -> setdefault k v d = d.
Proof. intros H. unfold setdefault. now rewrite H. Qed.

Lemma find_file_put_same (name : string) (t : file_text) (st : store) :
  find_file name (put_file name t st) = Some t.
Proof.
  induction st as [|[n t'] st IH]; simpl.
  - now rewrite String.eqb_refl.
  - destruct (String.eqb n name) eqn:E; simpl; rewrite E; [reflexivity | exact IH].
Qed.

Lemma find_file_put_other (name name' : string) (t : file_text) (st : store) :
  name <> name' -> find_file name (put_file name' t st) = find_file name st.
Proof.
  intros Hne. induction st as [|[n t'] st IH]; simpl.
  - destruct (String.eqb_spec name' name); [congruence | reflexivity].
  - destruct (String.eqb_spec n name') as [->|]; simpl.
    + destruct (String.eqb_spec name' name); [congruence | reflexivity].
    + now rewrite IH.
Qed.

Lemma in_put_file (name : string) (t : file_text) (st : store) (e : string * file_text) :
  In e (put_file name t st) -> e = (name, t) \/ In e st.
Proof.
  induction st as [|[n t'] st IH]; simpl.
  - intros [<-|[]]. now left.
  - destruct (String.eqb_spec n name) as [->|]; simpl.
    + intros [<-|H]; [now left | right; now right].
    + intros [<-|H]; [right; now left | ].
      destruct (IH H) as [->|H']; [now left | right; now right].
Qed.

(** A file that has just been written is there, with the text written. *)
Lemma lookup_after_write (st st' : store) (rel : string) (payload : dict) :
  _write_watch_file st rel payload = (Ok tt, st') ->
  st' = put_file rel (JsonText (JObj payload)) st
  /\ lookup_path st' rel = Regular (JsonText (JObj payload)).
Proof.
  unfold _write_watch_file.
  destruct (lookup_path st rel) eqn:E; intros [= <-]; (split; [reflexivity | ]).
  all: unfold lookup_path in *.
  all: destruct (String.eqb rel EmptyString || String.eqb rel "." || String.eqb rel "..");
    [discriminate | ].
  all: destruct (PyStr.contains "/" rel || PyStr.contains "000" rel); [discriminate | ].
  all: now rewrite find_file_put_same.
Qed.

Lemma write_absent (st : store) (rel : string) (payload : dict) :
  lookup_path st rel = NoEntry ->
  _write_watch_file st rel payload = (Ok tt, put_file rel (JsonText (JObj payload)) st).
Proof. intros H. unfold _write_watch_file. now rewrite H. Qed.

Lemma path_exists_false (st : store) (rel : string) :
  path_exists st rel = Ok false -> lookup_path st rel = NoEntry.
Proof. unfold path_exists. destruct (lookup_path st rel); now intros [=]. Qed.

Lemma path_exists_regular (st : store) (rel : string) (t : file_text) :
  lookup_path st rel = Regular t -> path_exists st rel = Ok true.
Proof. unfold path_exists. now intros ->. Qed.

Lemma prefix_append (a b : string) : String.prefix a (a ++ b) = true.
Proof.
  induction a as [|x a IH]; simpl; [now destruct b | ].
  destruct (ascii_dec x x); [exact IH | congruence].
Qed.

(* ------------------------------------------------------------------ *)
(** ** Claims about the allocator and [handle_call_tool] *)

Section SurfaceFacts.

Context {RT : Runtime}.

(** C5.  Two allocations issued one after the other never return the same
    file name, whatever their attributes (identical ones included): once the
    file of the first call exists, the second call returns, and returns a
    different name. *)
Theorem sequential_allocations_distinct
  (st : store) (id1 o1 d1 dt1 f1 r1 id2 o2 d2 dt2 : string) (payload : dict) :
  _allocate_watch_file st id1 o1 d1 dt1 = Ok (f1, r1) ->
  all_chars hex_char id2 = true ->
  exists f2 r2,
    _allocate_watch_file (snd (_write_watch_file st f1 payload)) id2 o2 d2 dt2
      = Ok (f2, r2)
    /\ f2 <> f1.
Proof.
  intros Hfirst Hid.
  apply allocate_fresh, path_exists_false in Hfirst.
  rewrite (write_absent _ _ payload Hfirst). cbn [snd].
  set (st1 := put_file f1 (JsonText (JObj payload)) st).
  assert (Hex : path_exists st1 f1 = Ok true).
  { eapply path_exists_regular, (lookup_after_write st), write_absent, Hfirst. }
  destruct (allocate_total st1 id2 o2 d2 dt2 (hex_prefix_plain _ Hid))
    as [c [Hc [Hfree _]]].
  exists (c ++ ".json"), ("flight-watch-" ++ c). split; [exact Hc | ].
  intros Heq. rewrite Heq in Hfree. congruence.
Qed.

(** What a create call with acceptable arguments does to the store. *)
Lemma handle_call_tool_store
  (st : store) (session : bool) (uuid4_hex : string) (arguments : dict) (price : pyfloat) :
  forallb hashable (required_arguments arguments) = true ->
  existsb is_none (required_arguments arguments) = false ->
  py_float (dget_or_none "initial_price" arguments) = Ok price ->
  all_chars plain_char (PyStr.take 8 uuid4_hex) = true ->
  exists candidate,
    lookup_path st (candidate ++ ".json") = NoEntry
    /\ snd (handle_call_tool st session uuid4_hex "track_flight_price" (Some arguments))
       = put_file (candidate ++ ".json")
                  (JsonText (JObj (created_payload uuid4_hex candidate arguments price))) st
    /\ (candidate = slug_of_arguments arguments ++ "-" ++ PyStr.take 8 uuid4_hex
        \/ exists j, candidate
             = (slug_of_arguments arguments ++ "-" ++ PyStr.take 8 uuid4_hex)
               ++ "-" ++ PyStr.of_nat j).
Proof.
  intros Hhash Hnone Hprice Hid.
  set (o := py_str (dget_or_none "origin" arguments)).
  set (d := py_str (dget_or_none "destination" arguments)).
  set (dt := py_str (dget_or_none "departure_date" arguments)).
  destruct (allocate_total st uuid4_hex o d dt Hid) as [c [Hc [Hfree Hshape]]].
  apply path_exists_false in Hfree.
  exists c. split; [exact Hfree | ]. split; [ | exact Hshape].
  unfold handle_call_tool. cbn [String.eqb Ascii.eqb Bool.eqb negb].
  unfold required_arguments in Hhash, Hnone. rewrite Hhash, Hnone. cbn [negb].
  rewrite Hprice. fold o d dt. rewrite Hc.
  rewrite (write_absent _ _ _ Hfree).
  fold (created_payload uuid4_hex c arguments price).
  destruct session; cbn [bind]; [ | reflexivity].
  destruct (is_none (dget_or_none "target_price" arguments)); cbn [bind]; [reflexivity | ].
  destruct (py_float (dget_or_none "target_price" arguments)); reflexivity.
Qed.

(** C6.  A create call whose four required arguments are present (and
    hashable, with a price [float()] accepts) persists a record in a file
    that did not exist before; the record has status [watching] and a history
    of exactly one entry, with sequence 0 and the supplied price, and the
    file name begins with the slug of origin, destination and date. *)
Theorem create_persists_initial_record
  (st : store) (session : bool) (uuid4_hex : string) (arguments : dict) (price : pyfloat) :
  forallb hashable (required_arguments arguments) = true ->
  existsb is_none (required_arguments arguments) = false ->
  py_float (dget_or_none "initial_price" arguments) = Ok price ->
  all_chars hex_char uuid4_hex = true ->
  initial_record_persisted st
    (snd (handle_call_tool st session uuid4_hex "track_flight_price" (Some arguments)))
    (slug_of_arguments arguments) price.
Proof.
  intros Hhash Hnone Hprice Hid.
  destruct (handle_call_tool_store st session uuid4_hex arguments price Hhash Hnone Hprice
              (hex_prefix_plain _ Hid)) as (c & Hfree & Hst & Hshape).
  unfold initial_record_persisted.
  exists (c ++ ".json"), (created_payload uuid4_hex c arguments price).
  rewrite Hst.
  split; [exact Hfree | ]. split; [reflexivity | ].
  split; [apply (lookup_after_write st), write_absent, Hfree | ].
  split; [reflexivity | ]. split; [reflexivity | ]. split; [reflexivity | ].
  destruct Hshape as [->|[j ->]]; rewrite !append_assoc; apply prefix_append.
Qed.

(** C7.  A create call with a required argument missing, or with an initial
    price that [float()] rejects, raises and leaves the store exactly as it
    was; with every supplied argument hashable, a missing one raises
    [ValueError]. *)
Theorem create_rejects_before_persisting
  (st : store) (session : bool) (uuid4_hex name : string) (arguments : option dict) :
  let supplied := match arguments with Some a => a | None => [] end in
  existsb is_none (required_arguments supplied) = true
  \/ (exists e, py_float (dget_or_none "initial_price" supplied) = Raise e) ->
  (exists e, handle_call_tool st session uuid4_hex name arguments = (Raise e, st))
  /\ (name = "track_flight_price" ->
      forallb hashable (required_arguments supplied) = true ->
      existsb is_none (required_arguments supplied) = true ->
      handle_call_tool st session uuid4_hex name arguments = (Raise ValueError, st)).
Proof.
  intros supplied H. unfold handle_call_tool. fold supplied.
  fold (required_arguments supplied). split.
  - destruct (String.eqb name "track_flight_price"); cbn [negb]; [ | now eexists].
    destruct (forallb hashable (required_arguments supplied)); cbn [negb]; [ | now eexists].
    destruct (existsb is_none (required_arguments supplied)) eqn:En; [now eexists | ].
    destruct H as [H|[e He]]; [discriminate | ].
    rewrite He. now eexists.
  - intros -> Hh Hn. rewrite String.eqb_refl, Hh, Hn. reflexivity.
Qed.

End SurfaceFacts.

(** A target price that [float()] rejects is noticed only when the
    simulator is scheduled, after the record has been written. *)
Example malformed_target_is_persisted :
  exists st',
    handle_call_tool (RT := demo_runtime) [] true demo_id "track_flight_price"
      (Some [("origin", JStr "LHR"); ("destination", JStr "LIS");
             ("departure_date", JStr "2025-06-01");
             ("initial_price", JInt 400); ("target_price", JStr "low")])
    = (Raise ValueError, st')
    /\ path_exists st' demo_file = Ok true.
Proof. eexists. split; reflexivity. Qed.

(* ------------------------------------------------------------------ *)
(** ** Splitting, stems and base names *)

Lemma split_nonempty (c : ascii) (s : string) : PyStr.split c s <> [].
Proof.
  induction s as [|a s IH]; simpl; [discriminate | ].
  destruct (Ascii.eqb a c); [discriminate | ].
  destruct (PyStr.split c s); [contradiction | discriminate].
Qed.

Lemma split_absent (c : ascii) (s : string) :
  PyStr.contains c s = false -> PyStr.split c s = [s].
Proof.
  induction s as [|a s IH]; simpl; [reflexivity | ].
  intros H. apply orb_false_elim in H as [Ha Hs].
  rewrite Ha, (IH Hs). reflexivity.
Qed.

Lemma split_append (c : ascii) (a b : string) :
  PyStr.split c (a ++ String c b) = (PyStr.split c a ++ PyStr.split c b)%list.
Proof.
  induction a as [|x a IH]; simpl.
  - now rewrite Ascii.eqb_refl.
  - destruct (Ascii.eqb x c); rewrite IH; [reflexivity | ].
    destruct (PyStr.split c a) as [|h t] eqn:E; [now apply split_nonempty in E | ].
    reflexivity.
Qed.

Lemma split_last (c : ascii) (a b : string) :
  PyStr.contains c b = false ->
  PyStr.last_or EmptyString (PyStr.split c (a ++ String c b)) = b.
Proof.
  intros H. rewrite split_append, (split_absent c b H).
  unfold PyStr.last_or. apply last_last.
Qed.

Lemma rfind_absent (c : ascii) (s : string) :
  PyStr.contains c s = false -> PyStr.rfind c s = None.
Proof.
  induction s as [|a s IH]; simpl; [reflexivity | ].
  intros H. apply orb_false_elim in H as [Ha Hs].
  now rewrite (IH Hs), Ha.
Qed.

Lemma rfind_append (c : ascii) (a b : string) :
  PyStr.contains c b = false ->
  PyStr.rfind c (a ++ String c b) = Some (String.length a).
Proof.
  intros H. induction a as [|x a IH]; simpl.
  - now rewrite (rfind_absent c b H), Ascii.eqb_refl.
  - now rewrite IH.
Qed.

Lemma take_append (a b : string) : PyStr.take (String.length a) (a ++ b) = a.
Proof. induction a as [|x a IH]; simpl; [now destruct b | now rewrite IH]. Qed.

(** The stem of [x.json] is [x]. *)
Lemma path_stem_json (x : string) :
  PyStr.nonempty x = true -> path_stem (x ++ ".json") = x.
Proof.
  intros Hx. unfold path_stem.
  change (x ++ ".json") with (x ++ String "." "json").
  rewrite rfind_append by reflexivity.
  rewrite length_append. cbn [String.length].
  destruct x as [|a x]; [discriminate | ]. cbn [String.length].
  replace ((0 <? S (String.length x))%nat) with true by (symmetry; apply Nat.ltb_lt; lia).
  replace ((S (String.length x) <? S (String.length x) + 5 - 1)%nat) with true
    by (symmetry; apply Nat.ltb_lt; lia).
  apply (take_append (String a x)).
Qed.

(** The trailing token of a name that carries a collision counter is the
    counter. *)
Lemma stem_suffix_counter (stem : string) (n : nat) :
  stem_suffix (stem ++ "-" ++ PyStr.of_nat n ++ ".json") = PyStr.of_nat n.
Proof.
  unfold stem_suffix.
  rewrite <- (append_assoc "-"), <- append_assoc.
  rewrite path_stem_json.
  - change (stem ++ "-" ++ PyStr.of_nat n) with (stem ++ String "-" (PyStr.of_nat n)).
    apply split_last, of_nat_no_char. reflexivity.
  - destruct stem; reflexivity.
Qed.

(** The trailing token of a name is what follows its last hyphen. *)
Lemma stem_suffix_token (stem token : string) :
  PyStr.contains "-" token = false ->
  stem_suffix (stem ++ "-" ++ token ++ ".json") = token.
Proof.
  intros H. unfold stem_suffix.
  rewrite <- (append_assoc "-"), <- append_assoc.
  rewrite path_stem_json.
  - change (stem ++ "-" ++ token) with (stem ++ String "-" token).
    now apply split_last.
  - destruct stem; reflexivity.
Qed.

(* ------------------------------------------------------------------ *)
(** ** Locating, loading and decoding *)

Section CodecFacts.

Context {RT : Runtime}.

Lemma read_json_regular (st : store) (rel : string) (j : json) :
  lookup_path st rel = Regular (JsonText j) -> read_json st rel = Ok j.
Proof. unfold read_json. now intros ->. Qed.

Lemma locate_legacy (st : store) (watch_id : string) (t : file_text) :
  lookup_path st (watch_id ++ ".json") = Regular t ->
  _locate_watch_file st watch_id = Ok (watch_id ++ ".json").
Proof.
  intros H. unfold _locate_watch_file.
  now rewrite (path_exists_regular _ _ _ H).
Qed.

Lemma load_located (st : store) (watch_id path : string) (payload : dict) :
  _locate_watch_file st watch_id = Ok path ->
  read_json st path = Ok (JObj payload) ->
  _load_watch st watch_id = Ok (with_defaults path payload).
Proof. intros H1 H2. unfold _load_watch. rewrite H1. cbn [bind]. now rewrite H2. Qed.

Lemma with_defaults_keeps (path : string) (payload : dict) (k : string) (v : json) :
  dget k payload = Some v -> dget k (with_defaults path payload) = Some v.
Proof. intros H. unfold with_defaults. now do 2 apply dget_setdefault_keeps. Qed.

Lemma with_defaults_other (path : string) (payload : dict) (k : string) :
  k <> "file_name" -> k <> "resource_name" ->
  dget k (with_defaults path payload) = dget k payload.
Proof.
  intros H1 H2. unfold with_defaults. now rewrite !dget_setdefault_other.
Qed.

Lemma with_defaults_complete (path : string) (payload : dict) (f r : json) :
  dget "file_name" payload = Some f -> dget "resource_name" payload = Some r ->
  with_defaults path payload = payload.
Proof.
  intros Hf Hr. unfold with_defaults.
  rewrite (setdefault_present _ _ _ _ Hf). now rewrite (setdefault_present _ _ _ _ Hr).
Qed.

Lemma scan_matches (watch_id : string) (entries : store) (path : string) :
  scan_for_watch watch_id entries = Ok path ->
  exists payload,
    In (path, JsonText (JObj payload)) entries
    /\ dget "watch_id" payload = Some (JStr watch_id).
Proof.
  induction entries as [|[name [|doc]] entries IH]; cbn [scan_for_watch];
    [discriminate | | ].
  - intros H. destruct (IH H) as (payload & Hin & Hid). exists payload.
    split; [now right | exact Hid].
  - destruct doc as [| | | | | |payload]; try discriminate.
    destruct (json_is_str (dget_or_none "watch_id" payload) watch_id) eqn:E.
    + intros [= <-]. exists payload. split; [now left | ].
      unfold dget_or_none, json_is_str in E.
      destruct (dget "watch_id" payload) as [[| | | |s| |]|]; try discriminate.
      apply String.eqb_eq in E. now subst.
    + intros H. destruct (IH H) as (payload' & Hin & Hid). exists payload'.
      split; [now right | exact Hid].
Qed.

(** C10.  When a file named [<id>.json] exists, whatever its content,
    [_locate_watch_file] returns it at once, and loading the id returns the
    object stored there, whose [watch_id] field is never compared with the
    requested id.  Only when no such file exists is a file chosen by its
    embedded [watch_id]. *)
Theorem legacy_path_is_not_validated (st : store) (watch_id : string) :
  (forall t,
      lookup_path st (watch_id ++ ".json") = Regular t ->
      _locate_watch_file st watch_id = Ok (watch_id ++ ".json")
      /\ (forall payload, t = JsonText (JObj payload) ->
          exists loaded,
            _load_watch st watch_id = Ok loaded
            /\ dget "watch_id" loaded = dget "watch_id" payload))
  /\ (lookup_path st (watch_id ++ ".json") = NoEntry ->
      forall path, _locate_watch_file st watch_id = Ok path ->
      exists payload,
        In (path, JsonText (JObj payload)) st
        /\ dget "watch_id" payload = Some (JStr watch_id)).
Proof.
  split.
  - intros t H. pose proof (locate_legacy _ _ _ H) as Hloc.
    split; [exact Hloc | ]. intros payload ->.
    exists (with_defaults (watch_id ++ ".json") payload). split.
    + apply load_located; [exact Hloc | now apply read_json_regular].
    + apply with_defaults_other; discriminate.
  - intros H path. unfold _locate_watch_file, path_exists. rewrite H. cbn [bind].
    intros Hscan. apply scan_matches in Hscan as (payload & Hin & Hid).
    exists payload. split; [ | exact Hid].
    unfold glob_json in Hin. now apply filter_In in Hin as [Hin _].
Qed.

Lemma parse_of_file_name (st : store) (uri file_name : string) (payload : dict) :
  uri_file_name uri = Ok file_name ->
  lookup_path st file_name = Regular (JsonText (JObj payload)) ->
  _parse_watch_id st uri =
    let watch_id := dget_or_none "watch_id" payload in
    let watch_id :=
      if negb (truthy watch_id) then JStr (stem_suffix file_name) else watch_id in
    if negb (truthy watch_id) then Raise ValueError else Ok (py_str watch_id).
Proof.
  intros Hname Hfile. unfold _parse_watch_id. rewrite Hname. cbn [bind].
  rewrite (path_exists_regular _ _ _ Hfile). cbn [bind negb].
  now rewrite (read_json_regular _ _ _ Hfile).
Qed.

(** C9 as the code has it.  When the file a URI names holds an object with
    no [watch_id] field, the identifier is the last hyphen-separated token of
    the file's stem (an empty token raises [ValueError]); for a name that
    ends in a collision counter, [<stem>-<n>.json], that token is the
    counter [n]. *)
Theorem fallback_takes_last_stem_token
  (st : store) (uri file_name : string) (payload : dict) :
  uri_file_name uri = Ok file_name ->
  lookup_path st file_name = Regular (JsonText (JObj payload)) ->
  dget "watch_id" payload = None ->
  _parse_watch_id st uri
    = (if PyStr.nonempty (stem_suffix file_name)
       then Ok (stem_suffix file_name) else Raise ValueError)
  /\ (forall stem n,
        file_name = stem ++ "-" ++ PyStr.of_nat n ++ ".json" ->
        _parse_watch_id st uri = Ok (PyStr.of_nat n)).
Proof.
  intros Hname Hfile Hid.
  assert (H : _parse_watch_id st uri
              = (if PyStr.nonempty (stem_suffix file_name)
                 then Ok (stem_suffix file_name) else Raise ValueError)).
  { rewrite (parse_of_file_name _ _ _ _ Hname Hfile).
    unfold dget_or_none. rewrite Hid. cbn.
    now destruct (PyStr.nonempty (stem_suffix file_name)). }
  split; [exact H | ].
  intros stem n ->. rewrite H, stem_suffix_counter.
  now rewrite of_nat_nonempty.
Qed.

End CodecFacts.

(* ------------------------------------------------------------------ *)
(** ** The URI round trip *)

Lemma uri_inert_inv (c : ascii) :
  uri_inert c = true ->
  Ascii.eqb c "#" = false /\ Ascii.eqb c "?" = false /\ Ascii.eqb c "%" = false
  /\ Ascii.eqb c "\" = false
  /\ ((PyStr.code c =? 9)%nat || (PyStr.code c =? 10)%nat || (PyStr.code c =? 13)%nat) = false.
Proof.
  unfold uri_inert. intros H. apply negb_true_iff in H.
  repeat (apply orb_false_elim in H as [H ?]).
  repeat split; try assumption.
  repeat (apply orb_false_intro; try assumption).
Qed.

Lemma remove_unsafe_inert (s : string) :
  all_chars uri_inert s = true -> remove_unsafe s = s.
Proof.
  induction s as [|c s IH]; simpl; [reflexivity | ].
  intros H. apply andb_prop in H as [Hc Hs].
  apply uri_inert_inv in Hc as (_ & _ & _ & _ & Hc).
  now rewrite Hc, (IH Hs).
Qed.

Lemma replace_char_inert (s : string) :
  all_chars uri_inert s = true -> PyStr.replace_char "\" "/" s = s.
Proof.
  induction s as [|c s IH]; simpl; [reflexivity | ].
  intros H. apply andb_prop in H as [Hc Hs].
  apply uri_inert_inv in Hc as (_ & _ & _ & Hc & _).
  now rewrite Hc, (IH Hs).
Qed.

Lemma split_first_absent (c : ascii) (s : string) :
  PyStr.contains c s = false -> PyStr.split_first c s = None.
Proof.
  induction s as [|a s IH]; simpl; [reflexivity | ].
  intros H. apply orb_false_elim in H as [Ha Hs].
  now rewrite Ha, (IH Hs).
Qed.

Section UnquoteFacts.

Context {RT : Runtime}.

Lemma unquote_inert (s : string) :
  PyStr.contains "%" s = false -> unquote s = Ok s.
Proof.
  induction s as [|c s IH]; [reflexivity | ].
  intros H. cbn [PyStr.contains] in H. apply orb_false_elim in H as [Hc Hs].
  cbn [unquote]. rewrite Hc, (IH Hs). reflexivity.
Qed.

End UnquoteFacts.

Lemma inert_no_char (c : ascii) (s : string) :
  uri_inert c = false -> all_chars uri_inert s = true -> PyStr.contains c s = false.
Proof. apply all_chars_not_contains. Qed.

Lemma join_snoc (sep : string) (parts : list string) (x : string) :
  parts <> [] ->
  PyStr.join sep (parts ++ [x])%list = PyStr.join sep parts ++ sep ++ x.
Proof.
  induction parts as [|p parts IH]; [contradiction | ]. intros _.
  destruct parts as [|q parts]; [reflexivity | ].
  change (PyStr.join sep ((p :: q :: parts) ++ [x])%list)
    with (p ++ sep ++ PyStr.join sep ((q :: parts) ++ [x])%list).
  rewrite IH by discriminate.
  change (PyStr.join sep (p :: q :: parts)) with (p ++ sep ++ PyStr.join sep (q :: parts)).
  now rewrite !append_assoc.
Qed.

Lemma ends_in_self (name : string) :
  PyStr.contains "/" name = false -> ends_in name name.
Proof. intros H. exists []. now apply split_absent. Qed.

Lemma ends_in_append (name a : string) :
  PyStr.contains "/" name = false -> ends_in name (a ++ "/" ++ name).
Proof.
  intros H. exists (PyStr.split "/" a).
  change (a ++ "/" ++ name) with (a ++ String "/" name).
  now rewrite split_append, (split_absent _ _ H).
Qed.

Lemma ends_in_join (name : string) (dir : list string) :
  PyStr.contains "/" name = false ->
  ends_in name (PyStr.join "/" (dir ++ [name])%list).
Proof.
  intros H. destruct dir as [|d dir].
  - now apply ends_in_self.
  - rewrite join_snoc by discriminate. now apply ends_in_append.
Qed.

Lemma ends_in_slash (name s : string) : ends_in name s -> ends_in name (String "/" s).
Proof.
  intros [front H]. exists (EmptyString :: front). simpl. now rewrite H.
Qed.

Lemma path_name_ends_in (name s : string) :
  name <> EmptyString -> name <> "." -> ends_in name s -> path_name s = name.
Proof.
  intros H1 H2 [front H]. unfold path_name. rewrite H, filter_app. simpl.
  destruct (String.eqb_spec name EmptyString); [contradiction | ].
  destruct (String.eqb_spec name "."); [contradiction | ].
  simpl. unfold PyStr.last_or. apply last_last.
Qed.

(** A name under which the directory holds a regular file is a single path
    component. *)
Lemma regular_is_component (st : store) (name : string) (t : file_text) :
  lookup_path st name = Regular t ->
  name <> EmptyString /\ name <> "." /\ name <> ".."
  /\ PyStr.contains "/" name = false /\ find_file name st = Some t.
Proof.
  unfold lookup_path.
  destruct (String.eqb_spec name EmptyString); [discriminate | ].
  destruct (String.eqb_spec name "."); [discriminate | ].
  destruct (String.eqb_spec name ".."); [discriminate | ].
  cbn [orb].
  destruct (PyStr.contains "/" name); [discriminate | ].
  destruct (PyStr.contains "000" name); [discriminate | ]. cbn [orb].
  destruct (find_file name st); [ | discriminate].
  intros [= ->]. auto.
Qed.

Section RoundTrip.

Context {RT : Runtime}.

Lemma urlparse_file_uri (rest : string) :
  all_chars uri_inert rest = true ->
  urlparse ("file://" ++ String "/" rest)
    = Ok {| scheme := "file"; netloc := EmptyString; path := String "/" rest;
            params := EmptyString; query := EmptyString; fragment := EmptyString |}.
Proof.
  intros H. unfold urlparse.
  cbn [append lstrip_c0 PyStr.code nat_of_ascii N_of_ascii N_of_digits N.to_nat
       Nat.leb].
  simpl. rewrite (remove_unsafe_inert _ H).
  rewrite (split_first_absent "#" rest)
    by (apply inert_no_char; [reflexivity | exact H]).
  simpl.
  rewrite (split_first_absent "?" rest)
    by (apply inert_no_char; [reflexivity | exact H]).
  reflexivity.
Qed.

Lemma resource_uri_shape (name : string) :
  Forall (fun c => all_chars uri_inert c = true) STORE_DIR ->
  all_chars uri_inert name = true ->
  _resource_uri name = "file://" ++ String "/" (PyStr.join "/" (STORE_DIR ++ [name])%list)
  /\ all_chars uri_inert (PyStr.join "/" (STORE_DIR ++ [name])%list) = true.
Proof.
  intros Hdir Hname.
  assert (Hj : all_chars uri_inert (PyStr.join "/" (STORE_DIR ++ [name])%list) = true).
  { apply join_chars; [reflexivity | ].
    apply Forall_app. split; [exact Hdir | now constructor]. }
  split; [ | exact Hj].
  unfold _resource_uri. cbn [append PyStr.replace_char Ascii.eqb Bool.eqb].
  now rewrite (replace_char_inert _ Hj).
Qed.

Lemma uri_file_name_resource_uri (name : string) :
  Forall (fun c => all_chars uri_inert c = true) STORE_DIR ->
  all_chars uri_inert name = true ->
  PyStr.contains "/" name = false ->
  name <> EmptyString -> name <> "." ->
  uri_file_name (_resource_uri name) = Ok name.
Proof.
  intros Hdir Hname Hslash Hne Hdot.
  destruct (resource_uri_shape name Hdir Hname) as [-> Hj].
  unfold uri_file_name. rewrite (urlparse_file_uri _ Hj).
  cbn [bind scheme path PyStr.nonempty String.eqb Ascii.eqb Bool.eqb negb andb].
  rewrite unquote_inert.
  2:{ cbn [PyStr.contains Ascii.eqb Bool.eqb orb].
      apply inert_no_char; [reflexivity | exact Hj]. }
  cbn [bind]. f_equal.
  pose proof (ends_in_join name STORE_DIR Hslash) as Hend.
  destruct (PyStr.join "/" (STORE_DIR ++ [name])%list) as [|x [|y tail]] eqn:E.
  - apply path_name_ends_in; auto. now apply ends_in_slash.
  - apply path_name_ends_in; auto. now apply ends_in_slash.
  - destruct (Ascii.eqb_spec y ":") as [->|Hy].
    + apply path_name_ends_in; auto.
    + replace (match String "/" (String x (String y tail)) with
               | String "/" (String _ (String ":" _) as t) => t
               | _ => String "/" (String x (String y tail))
               end) with (String "/" (String x (String y tail))).
      * apply path_name_ends_in; auto. now apply ends_in_slash.
      * destruct y as [[] [] [] [] [] [] [] []]; try reflexivity. now contradiction Hy.
Qed.

End RoundTrip.

Lemma replace_char_append (a b : ascii) (s t : string) :
  PyStr.replace_char a b (s ++ t) = PyStr.replace_char a b s ++ PyStr.replace_char a b t.
Proof. induction s as [|c s IH]; simpl; [reflexivity | now rewrite IH]. Qed.

Lemma contains_replace_char (c : ascii) (s : string) :
  Ascii.eqb c "/" = false -> Ascii.eqb c "\" = false ->
  PyStr.contains c (PyStr.replace_char "\" "/" s) = PyStr.contains c s.
Proof.
  intros H1 H2. induction s as [|x s IH]; [reflexivity | ].
  cbn [PyStr.replace_char PyStr.contains]. rewrite IH. f_equal.
  destruct (Ascii.eqb_spec x "\") as [->|Hx].
  - rewrite (Ascii.eqb_sym "/" c), H1. now rewrite (Ascii.eqb_sym "\" c), H2.
  - reflexivity.
Qed.

Lemma remove_unsafe_append (a b : string) :
  remove_unsafe (a ++ b) = remove_unsafe a ++ remove_unsafe b.
Proof.
  induction a as [|c a IH]; [reflexivity | ]. cbn [append remove_unsafe].
  destruct ((PyStr.code c =? 9)%nat || (PyStr.code c =? 10)%nat || (PyStr.code c =? 13)%nat);
    [exact IH | cbn [append]; now rewrite IH].
Qed.

Lemma contains_remove_unsafe (c : ascii) (s : string) :
  PyStr.contains c s = false -> PyStr.contains c (remove_unsafe s) = false.
Proof.
  induction s as [|x s IH]; [reflexivity | ]. cbn [PyStr.contains remove_unsafe].
  intros H. apply orb_false_elim in H as [Hx Hs].
  destruct ((PyStr.code x =? 9)%nat || (PyStr.code x =? 10)%nat || (PyStr.code x =? 13)%nat);
    [now apply IH | ].
  cbn [PyStr.contains]. now rewrite Hx, (IH Hs).
Qed.

Lemma contains_join (c : ascii) (parts : list string) :
  Ascii.eqb "/" c = false ->
  Forall (fun p => PyStr.contains c p = false) parts ->
  PyStr.contains c (PyStr.join "/" parts) = false.
Proof.
  intros Hc H. induction H as [|p parts Hp _ IH]; [reflexivity | ].
  destruct parts as [|q parts]; [exact Hp | ].
  change (PyStr.join "/" (p :: q :: parts))
    with (p ++ String "/" (PyStr.join "/" (q :: parts))).
  rewrite contains_append, Hp. cbn [PyStr.contains orb]. now rewrite Hc, IH.
Qed.

Section RoundTripGeneral.

Context {RT : Runtime}.

(** [unquote] never raises. *)
Lemma unquote_no_raise (s : string) (e : exn) : unquote s <> Raise e.
Proof.
  assert (H : forall n s, (String.length s <= n)%nat -> unquote s <> Raise e).
  { clear s. induction n as [|n IH]; intros s Hn.
    - destruct s; [discriminate | cbn in Hn; lia].
    - destruct s as [|c t]; [discriminate | ]. cbn [String.length] in Hn.
      assert (Hkeep : (r <- unquote t ;; Ok (String c r)) <> Raise e).
      { pose proof (IH t ltac:(lia)) as Ht.
        destruct (unquote t); cbn [bind]; congruence. }
      cbn [unquote]. destruct (Ascii.eqb c "%"); [ | exact Hkeep].
      destruct t as [|a [|b r]]; try exact Hkeep.
      destruct (hex_value a) as [x|]; [ | exact Hkeep].
      destruct (hex_value b) as [y|]; [ | exact Hkeep].
      destruct (16 * x + y <? 128)%nat; [ | discriminate].
      cbn [String.length] in Hn. pose proof (IH r ltac:(lia)) as Hr.
      destruct (unquote r); cbn [bind]; congruence. }
  now apply (H (String.length s)).
Qed.

(** Percent-decoding of a path leaves alone a last component that holds no
    percent sign. *)
Lemma unquote_before_name (dir name : string) :
  PyStr.contains "%" name = false ->
  unquote (dir ++ String "/" name) = (d <- unquote dir ;; Ok (d ++ String "/" name)).
Proof.
  intros Hname.
  assert (Hbase : unquote (String "/" name) = Ok (String "/" name)).
  { apply unquote_inert. cbn [PyStr.contains]. now rewrite Hname. }
  assert (H : forall n dir, (String.length dir <= n)%nat ->
              unquote (dir ++ String "/" name)
              = (d <- unquote dir ;; Ok (d ++ String "/" name))).
  { clear dir. induction n as [|n IH]; intros dir Hn.
    - destruct dir; [exact Hbase | cbn in Hn; lia].
    - destruct dir as [|c t]; [exact Hbase | ]. cbn [String.length] in Hn.
      assert (Hkeep : (r <- unquote (t ++ String "/" name) ;; Ok (String c r))
                      = (d <- (r <- unquote t ;; Ok (String c r)) ;;
                         Ok (d ++ String "/" name))).
      { rewrite (IH t) by lia. now destruct (unquote t). }
      cbn [append unquote]. destruct (Ascii.eqb c "%"); [ | exact Hkeep].
      destruct t as [|a [|b r]].
      + cbn [append]. destruct name as [|x name']; [exact Hkeep | ].
        cbn [hex_value PyStr.is_digit PyStr.in_range PyStr.code]. exact Hkeep.
      + cbn [append]. destruct (hex_value a); exact Hkeep.
      + cbn [append]. destruct (hex_value a) as [x|]; [ | exact Hkeep].
        destruct (hex_value b) as [y|]; [ | exact Hkeep].
        destruct (16 * x + y <? 128)%nat; [ | reflexivity].
        cbn [String.length] in Hn. rewrite (IH r) by lia. now destruct (unquote r). }
  now apply (H (String.length dir)).
Qed.

Lemma urlparse_file_path (rest : string) :
  PyStr.contains "#" rest = false -> PyStr.contains "?" rest = false ->
  urlparse ("file://" ++ String "/" rest)
    = Ok {| scheme := "file"; netloc := EmptyString;
            path := String "/" (remove_unsafe rest);
            params := EmptyString; query := EmptyString; fragment := EmptyString |}.
Proof.
  intros H1 H2. unfold urlparse.
  cbn [append lstrip_c0 PyStr.code nat_of_ascii N_of_ascii N_of_digits N.to_nat
       Nat.leb].
  simpl.
  rewrite (split_first_absent "#" (remove_unsafe rest))
    by now apply contains_remove_unsafe.
  simpl.
  rewrite (split_first_absent "?" (remove_unsafe rest))
    by now apply contains_remove_unsafe.
  reflexivity.
Qed.

(** The base name of a decoded path, after the drive-letter step. *)
Lemma path_name_decoded (w name : string) :
  ends_in name w -> name <> EmptyString -> name <> "." ->
  path_name match String "/" w with
            | String "/" (String _ (String ":" _) as tail) => tail
            | _ => String "/" w
            end = name.
Proof.
  intros Hend Hne Hdot.
  destruct w as [|x [|y tail]].
  - apply path_name_ends_in; auto. now apply ends_in_slash.
  - apply path_name_ends_in; auto. now apply ends_in_slash.
  - destruct (Ascii.eqb_spec y ":") as [->|Hy].
    + apply path_name_ends_in; auto.
    + replace (match String "/" (String x (String y tail)) with
               | String "/" (String _ (String ":" _) as t) => t
               | _ => String "/" (String x (String y tail))
               end) with (String "/" (String x (String y tail))).
      * apply path_name_ends_in; auto. now apply ends_in_slash.
      * destruct y as [[] [] [] [] [] [] [] []]; try reflexivity. now contradiction Hy.
Qed.

(** The directory part of the path [_resource_uri] encodes. *)
Lemma store_dir_front :
  exists front,
    (forall n, PyStr.join "/" (STORE_DIR ++ [n])%list = front ++ n)
    /\ (front = EmptyString \/ exists above, front = above ++ "/")
    /\ (Forall (fun c => PyStr.contains "#" c = false /\ PyStr.contains "?" c = false)
               STORE_DIR ->
        PyStr.contains "#" front = false /\ PyStr.contains "?" front = false).
Proof.
  destruct STORE_DIR as [|d dir] eqn:E.
  - exists EmptyString. split; [reflexivity | ]. split; [now left | now split].
  - exists (PyStr.join "/" (d :: dir) ++ "/"). split; [ | split].
    + intros n. rewrite join_snoc by discriminate. now rewrite append_assoc.
    + right. now eexists.
    + intros H. rewrite !contains_append. cbn [PyStr.contains Ascii.eqb Bool.eqb orb].
      rewrite !orb_false_r. split; apply contains_join; try reflexivity.
      * eapply Forall_impl; [ | exact H]. now intros a [Ha _].
      * eapply Forall_impl; [ | exact H]. now intros a [_ Ha].
Qed.

(** Decoding the URI of a file gives its name back, whatever the store
    directory is called, as long as its path holds no [#] and no [?]. *)
Lemma uri_file_name_of_resource (name : string) :
  all_chars uri_inert name = true ->
  PyStr.contains "/" name = false ->
  name <> EmptyString -> name <> "." ->
  Forall (fun c => PyStr.contains "#" c = false /\ PyStr.contains "?" c = false)
         STORE_DIR ->
  uri_file_name (_resource_uri name) <> Unmodelled ->
  uri_file_name (_resource_uri name) = Ok name.
Proof.
  intros Hname Hslash Hne Hdot Hdir.
  destruct store_dir_front as (front & Hjoin & Hshape & Hfront).
  destruct (Hfront Hdir) as [Hhash Hquery].
  assert (Hpercent : PyStr.contains "%" name = false)
    by (apply inert_no_char; [reflexivity | exact Hname]).
  change (_resource_uri name)
    with ("file://" ++ String "/" (PyStr.replace_char "\" "/"
                                     (PyStr.join "/" (STORE_DIR ++ [name])%list))).
  rewrite Hjoin, replace_char_append, (replace_char_inert _ Hname).
  unfold uri_file_name. rewrite urlparse_file_path.
  2:{ rewrite contains_append, contains_replace_char, Hhash by reflexivity.
      apply inert_no_char; [reflexivity | exact Hname]. }
  2:{ rewrite contains_append, contains_replace_char, Hquery by reflexivity.
      apply inert_no_char; [reflexivity | exact Hname]. }
  cbn [bind scheme path PyStr.nonempty String.eqb Ascii.eqb Bool.eqb negb andb].
  rewrite remove_unsafe_append, (remove_unsafe_inert _ Hname).
  destruct Hshape as [->|[above ->]].
  - cbn [PyStr.replace_char remove_unsafe append]. intros _.
    rewrite unquote_inert by (cbn [PyStr.contains]; now rewrite Hpercent).
    cbn [bind]. f_equal. apply path_name_decoded; auto. now apply ends_in_self.
  - rewrite replace_char_append, remove_unsafe_append.
    change (PyStr.replace_char "\" "/" "/") with "/".
    change (remove_unsafe "/") with "/".
    set (v := remove_unsafe (PyStr.replace_char "\" "/" above)).
    rewrite append_assoc. change ("/" ++ name) with (String "/" name).
    change (String "/" (v ++ String "/" name)) with (String "/" v ++ String "/" name).
    rewrite (unquote_before_name _ _ Hpercent).
    cbn [unquote Ascii.eqb Bool.eqb].
    destruct (unquote v) as [d| |] eqn:Ev; cbn [bind].
    + intros _. f_equal. apply path_name_decoded; auto.
      apply (ends_in_append name d Hslash).
    + now contradiction (unquote_no_raise v e).
    + intros H. now contradiction H.
Qed.

(** C1 as the code has it.  For a record stored under a name free of the
    characters a URI treats specially, in a directory whose path holds no
    [#] and no [?], decoding the encoded path gives the text of the
    record's [watch_id] when that is truthy, the id itself when it is a
    string; when the [watch_id] is absent, empty, null or otherwise falsy,
    decoding gives the last hyphen-separated token of the file's stem, and
    raises [ValueError] when that token is empty. *)
Theorem decode_encode_roundtrip (st : store) (name : string) (payload : dict) :
  lookup_path st name = Regular (JsonText (JObj payload)) ->
  all_chars uri_inert name = true ->
  Forall (fun c => PyStr.contains "#" c = false /\ PyStr.contains "?" c = false)
         STORE_DIR ->
  uri_file_name (_resource_uri name) <> Unmodelled ->
  (truthy (dget_or_none "watch_id" payload) = true ->
   _parse_watch_id st (_resource_uri name)
   = Ok (py_str (dget_or_none "watch_id" payload)))
  /\ (forall id, dget "watch_id" payload = Some (JStr id) -> id <> EmptyString ->
      _parse_watch_id st (_resource_uri name) = Ok id)
  /\ (truthy (dget_or_none "watch_id" payload) = false ->
      _parse_watch_id st (_resource_uri name)
      = (if PyStr.nonempty (stem_suffix name)
         then Ok (stem_suffix name) else Raise ValueError))
  /\ (truthy (dget_or_none "watch_id" payload) = false ->
      forall stem token,
        name = stem ++ "-" ++ token ++ ".json" ->
        PyStr.contains "-" token = false -> token <> EmptyString ->
        _parse_watch_id st (_resource_uri name) = Ok token).
Proof.
  intros Hfile Hname Hdir Hmodel.
  destruct (regular_is_component _ _ _ Hfile) as (Hne & Hdot & _ & Hslash & _).
  pose proof (uri_file_name_of_resource name Hname Hslash Hne Hdot Hdir Hmodel) as Hfn.
  pose proof (parse_of_file_name _ _ _ _ Hfn Hfile) as H. cbv zeta in H.
  assert (Htruthy : truthy (dget_or_none "watch_id" payload) = true ->
                    _parse_watch_id st (_resource_uri name)
                    = Ok (py_str (dget_or_none "watch_id" payload))).
  { intros Hid. rewrite H, Hid. cbn [negb]. now rewrite Hid. }
  assert (Hfalsy : truthy (dget_or_none "watch_id" payload) = false ->
                   _parse_watch_id st (_resource_uri name)
                   = (if PyStr.nonempty (stem_suffix name)
                      then Ok (stem_suffix name) else Raise ValueError)).
  { intros Hid. rewrite H, Hid. cbn [negb truthy].
    now destruct (PyStr.nonempty (stem_suffix name)). }
  split; [exact Htruthy | ]. split; [ | split; [exact Hfalsy | ]].
  - intros id Hget Hid. unfold dget_or_none in Htruthy. rewrite Hget in Htruthy.
    apply Htruthy. now destruct id.
  - intros Hid stem token -> Htoken Hnz. rewrite (Hfalsy Hid), (stem_suffix_token _ _ Htoken).
    now destruct token.
Qed.

End RoundTripGeneral.

Section RoundTripCreated.

Context {RT : Runtime}.

Lemma slug_or_dash_inert (c : ascii) : slug_or_dash c = true -> uri_inert c = true.
Proof.
  unfold uri_inert. intros H.
  destruct (Ascii.eqb_spec c "#") as [->|]; [discriminate | ].
  destruct (Ascii.eqb_spec c "?") as [->|]; [discriminate | ].
  destruct (Ascii.eqb_spec c "%") as [->|]; [discriminate | ].
  destruct (Ascii.eqb_spec c "\") as [->|]; [discriminate | ].
  cbn [orb negb].
  destruct (Nat.eqb_spec (PyStr.code c) 9) as [E|_].
  { apply (f_equal ascii_of_nat) in E. unfold PyStr.code in E.
    rewrite ascii_nat_embedding in E. subst. discriminate. }
  destruct (Nat.eqb_spec (PyStr.code c) 10) as [E|_].
  { apply (f_equal ascii_of_nat) in E. unfold PyStr.code in E.
    rewrite ascii_nat_embedding in E. subst. discriminate. }
  destruct (Nat.eqb_spec (PyStr.code c) 13) as [E|_].
  { apply (f_equal ascii_of_nat) in E. unfold PyStr.code in E.
    rewrite ascii_nat_embedding in E. subst. discriminate. }
  reflexivity.
Qed.

Lemma hex_slug_or_dash (c : ascii) : hex_char c = true -> slug_or_dash c = true.
Proof.
  unfold hex_char, slug_or_dash, slug_char, PyStr.is_lower, PyStr.in_range.
  intros H. apply orb_true_iff in H as [H|H].
  - now rewrite H, orb_true_r.
  - apply andb_prop in H as [H1 H2].
    apply Nat.leb_le in H1. apply Nat.leb_le in H2.
    replace ((97 <=? PyStr.code c)%nat) with true by (symmetry; now apply Nat.leb_le).
    replace ((PyStr.code c <=? 122)%nat) with true by (symmetry; apply Nat.leb_le; lia).
    reflexivity.
Qed.

Lemma digit_slug_or_dash (c : ascii) : PyStr.is_digit c = true -> slug_or_dash c = true.
Proof. unfold slug_or_dash, slug_char. intros ->. now rewrite orb_true_r. Qed.

(** Every file name the allocator can return is free of URI-special
    characters. *)
Lemma allocated_name_inert (slug watch_id candidate : string) :
  all_chars slug_or_dash slug = true ->
  all_chars hex_char watch_id = true ->
  candidate = slug ++ "-" ++ PyStr.take 8 watch_id
  \/ (exists j, candidate = (slug ++ "-" ++ PyStr.take 8 watch_id) ++ "-" ++ PyStr.of_nat j) ->
  all_chars uri_inert (candidate ++ ".json") = true.
Proof.
  intros Hslug Hid Hshape.
  rewrite all_chars_append. apply andb_true_intro. split; [ | reflexivity].
  apply (all_chars_weaken slug_or_dash); [apply slug_or_dash_inert | ].
  pose proof (all_chars_take _ 8 _ (all_chars_weaken _ _ _ hex_slug_or_dash Hid)) as Hp.
  set (p := PyStr.take 8 watch_id) in *.
  assert (Hpre : all_chars slug_or_dash (slug ++ "-" ++ p) = true)
    by (rewrite !all_chars_append, Hslug, Hp; reflexivity).
  destruct Hshape as [->|[j ->]]; [exact Hpre | ].
  rewrite all_chars_append, Hpre, all_chars_append.
  rewrite (all_chars_weaken _ _ _ digit_slug_or_dash (of_nat_digits j)). reflexivity.
Qed.


(** The record a create call writes is found again through its own URI,
    with its own id. *)
Lemma created_record_decodes
  (st : store) (session : bool) (uuid4_hex : string) (arguments : dict) (price : pyfloat) :
  Forall (fun c => all_chars uri_inert c = true) STORE_DIR ->
  forallb hashable (required_arguments arguments) = true ->
  existsb is_none (required_arguments arguments) = false ->
  py_float (dget_or_none "initial_price" arguments) = Ok price ->
  all_chars hex_char uuid4_hex = true ->
  PyStr.nonempty uuid4_hex = true ->
  exists file_name payload,
    lookup_path (snd (handle_call_tool st session uuid4_hex "track_flight_price"
                                       (Some arguments))) file_name
    = Regular (JsonText (JObj payload))
    /\ dget "watch_id" payload = Some (JStr uuid4_hex)
    /\ _parse_watch_id (snd (handle_call_tool st session uuid4_hex "track_flight_price"
                                              (Some arguments)))
                       (_resource_uri file_name)
       = Ok uuid4_hex.
Proof.
  intros Hdir Hhash Hnone Hprice Hid Hne.
  destruct (handle_call_tool_store st session uuid4_hex arguments price Hhash Hnone Hprice
              (hex_prefix_plain _ Hid)) as (c & Hfree & -> & Hshape).
  set (payload := created_payload uuid4_hex c arguments price).
  pose proof (proj2 (lookup_after_write st _ _ _ (write_absent _ _ payload Hfree)))
    as Hfile.
  exists (c ++ ".json"), payload.
  split; [exact Hfile | ]. split; [reflexivity | ].
  assert (Hinert : all_chars uri_inert (c ++ ".json") = true).
  { apply (allocated_name_inert (slug_of_arguments arguments) uuid4_hex);
      [apply slugify_chars | exact Hid | exact Hshape]. }
  destruct (regular_is_component _ _ _ Hfile) as (Hnz & Hdot & _ & Hslash & _).
  rewrite (parse_of_file_name _ _ _ _
             (uri_file_name_resource_uri _ Hdir Hinert Hslash Hnz Hdot) Hfile).
  cbv zeta. change (dget_or_none "watch_id" payload) with (JStr uuid4_hex).
  cbn [truthy]. rewrite Hne. cbn [negb truthy]. now rewrite Hne.
Qed.

End RoundTripCreated.

(* ------------------------------------------------------------------ *)
(** ** The simulator *)

Lemma randint_bounds (a b draw : Z) :
  (a <= b)%Z -> (a <= randint a b draw <= b)%Z.
Proof.
  intros H. unfold randint.
  pose proof (Z.mod_pos_bound draw (b - a + 1)). lia.
Qed.

Lemma Qle_bool_inject (a b : Z) : Qle_bool (inject_Z a) (inject_Z b) = (a <=? b)%Z.
Proof.
  destruct (Z.leb_spec a b) as [H|H].
  - apply Qle_bool_iff. now rewrite <- Zle_Qle.
  - destruct (Qle_bool (inject_Z a) (inject_Z b)) eqn:E; [ | reflexivity].
    apply Qle_bool_iff in E. rewrite <- Zle_Qle in E. lia.
Qed.

Lemma float_leb_le (a b : pyfloat) : float_leb a b = true <-> float_le a b.
Proof.
  destruct a as [x|[]|], b as [y|[]|]; cbn; try tauto; try (split; [discriminate | tauto]);
    try (split; [discriminate | intros []; discriminate]);
    try (split; auto; fail).
  apply Qle_bool_iff.
Qed.

Lemma round_double_not_nan (q : Q) : round_double q <> NaN.
Proof.
  unfold round_double. destruct (Z.abs (Qnum q) =? 0)%Z; [discriminate | ]. cbv zeta.
  match goal with |- (if ?c then _ else _) <> _ => destruct c end; discriminate.
Qed.

(** [float(d)] is exact on the draws of the simulator. *)
Lemma float_of_small_int (d : Z) :
  (-40 <= d <= 20)%Z -> float_of_int d = Some (Finite (inject_Z d)).
Proof.
  intros H.
  assert (Hall : forallb (fun k =>
                            match float_of_int (Z.of_nat k - 40) with
                            | Some (Finite q) =>
                                (Qnum q =? Z.of_nat k - 40)%Z && (Qden q =? 1)%positive
                            | _ => false
                            end) (seq 0 61) = true) by (vm_compute; reflexivity).
  rewrite forallb_forall in Hall.
  specialize (Hall (Z.to_nat (d + 40))).
  replace (Z.of_nat (Z.to_nat (d + 40)) - 40)%Z with d in Hall by lia.
  destruct (float_of_int d) as [[[n m]| |]|].
  - f_equal. f_equal.
    assert (Hin : In (Z.to_nat (d + 40)) (seq 0 61)) by (apply in_seq; lia).
    apply Hall in Hin. cbn [Qnum Qden] in Hin. apply andb_prop in Hin as [Hn Hm].
    apply Z.eqb_eq in Hn. apply Pos.eqb_eq in Hm. now subst.
  - exfalso. assert (Hin : In (Z.to_nat (d + 40)) (seq 0 61)) by (apply in_seq; lia).
    now apply Hall in Hin.
  - exfalso. assert (Hin : In (Z.to_nat (d + 40)) (seq 0 61)) by (apply in_seq; lia).
    now apply Hall in Hin.
  - exfalso. assert (Hin : In (Z.to_nat (d + 40)) (seq 0 61)) by (apply in_seq; lia).
    now apply Hall in Hin.
Qed.

Lemma numeric_of_number (n : number) :
  numeric_value (json_of_number n) = Some (number_float n).
Proof. now destruct n. Qed.

Lemma py_max_int (x : Z) : json_of_number (py_max (NInt x) (NInt 50)) = JInt (Z.max x 50).
Proof.
  unfold py_max, number_ltb. cbn [number_float float_ltb].
  rewrite (Qle_bool_inject 50 x).
  destruct (Z.leb_spec 50 x); cbn [negb json_of_number]; f_equal; lia.
Qed.

Lemma py_max_float (s : pyfloat) : json_of_number (py_max (NFloat s) (NInt 50)) = floored s.
Proof.
  unfold py_max, number_ltb. cbn [number_float].
  destruct s as [x|[]|]; cbn [float_ltb floored json_of_number]; try reflexivity.
  change (inject_Z 50) with 50%Q. now destruct (Qle_bool 50 x).
Qed.

(** The sum and the floor of an iteration, for a draw of the simulator. *)
Lemma add_delta_floored (current : json) (delta : Z) (moved : number) :
  (-40 <= delta <= 20)%Z ->
  add_delta current delta = Ok moved ->
  floored_sum current delta (json_of_number (py_max moved (NInt 50))).
Proof.
  intros Hd. destruct current as [|b|z|[x|s|]| | |]; cbn [add_delta number_add_int];
    try discriminate; rewrite ?(float_of_small_int _ Hd); intros [= <-];
    cbn [floored_sum float_add].
  - apply py_max_int.
  - apply py_max_int.
  - apply py_max_float.
  - apply py_max_float.
  - apply py_max_float.
Qed.

Lemma add_delta_numeric (current : json) (delta : Z) :
  (-40 <= delta <= 20)%Z -> numeric_value current <> None ->
  exists moved, add_delta current delta = Ok moved.
Proof.
  intros Hd. destruct current as [|b|z|f| | |]; cbn [numeric_value]; try contradiction;
    intros _; cbn [add_delta number_add_int]; rewrite ?(float_of_small_int _ Hd);
    now eexists.
Qed.

(** A floored price is at least 50, unless the price before it was NaN. *)
Lemma floored_sum_floor (previous : json) (delta : Z) (new_price : json) :
  floored_sum previous delta new_price ->
  (forall v, numeric_value new_price = Some v -> v <> NaN -> float_le (Finite 50) v)
  /\ (numeric_value new_price = Some NaN <-> previous = JFloat NaN).
Proof.
  assert (Hint : forall m v, numeric_value (JInt (Z.max m 50)) = Some v ->
                             float_le (Finite 50) v).
  { intros m v [= <-]. cbn [float_le]. change 50%Q with (inject_Z 50).
    rewrite <- Zle_Qle. lia. }
  assert (Hfl : forall s v, s <> NaN -> numeric_value (floored s) = Some v ->
                            v <> NaN /\ float_le (Finite 50) v).
  { intros [x|[]|] v Hs; cbn [floored]; try contradiction.
    - destruct (Qle_bool 50 x) eqn:E; intros [= <-]; (split; [discriminate | ]).
      + now apply Qle_bool_iff.
      + cbn. apply Qle_refl.
    - intros [= <-]. split; [discriminate | ]. cbn. apply Qle_refl.
    - intros [= <-]. split; [discriminate | reflexivity]. }
  destruct previous as [|b|z|[x|s|]| | |]; cbn [floored_sum]; try contradiction;
    intros ->.
  - split; [intros v Hv _; eapply Hint; eauto | split; discriminate].
  - split; [intros v Hv _; eapply Hint; eauto | split; discriminate].
  - pose proof (round_double_not_nan (x + inject_Z delta)) as Hn. split.
    + intros v Hv _. now apply (Hfl _ _ Hn).
    + split; [ | discriminate]. intros Hv. now destruct (Hfl _ _ Hn Hv).
  - assert (Hn : Infinite s <> NaN) by discriminate. split.
    + intros v Hv _. now apply (Hfl _ _ Hn).
    + split; [ | discriminate]. intros Hv. now destruct (Hfl _ _ Hn Hv).
  - split; [intros v [= <-] Hv; contradiction | split; reflexivity].
Qed.

Lemma write_store (st st' : store) (rel : string) (payload : dict) (r : result unit) :
  _write_watch_file st rel payload = (r, st') ->
  (r = Ok tt /\ st' = put_file rel (JsonText (JObj payload)) st
   /\ lookup_path st' rel = Regular (JsonText (JObj payload)))
  \/ ((forall u, r <> Ok u) /\ st' = st).
Proof.
  intros H. destruct r as [[]| |].
  - left. destruct (lookup_after_write _ _ _ _ H). auto.
  - right. unfold _write_watch_file in H.
    destruct (lookup_path st rel); inversion H; split; auto; discriminate.
  - right. unfold _write_watch_file in H.
    destruct (lookup_path st rel); inversion H; split; auto; discriminate.
Qed.

Lemma read_json_in (st : store) (rel : string) (j : json) :
  read_json st rel = Ok j -> In (rel, JsonText j) st.
Proof.
  unfold read_json. destruct (lookup_path st rel) as [| |[|j']|] eqn:E; try discriminate.
  intros [= ->]. apply regular_is_component in E as (_ & _ & _ & _ & E).
  now apply find_file_in.
Qed.

Section SimulatorFacts.

Context {RT : Runtime}.

Lemma save_store (st st' : store) (watch_id : string) (payload : dict) (r : result dict) :
  _save_watch st watch_id payload = (r, st') ->
  ((forall saved, r <> Ok saved) /\ st' = st)
  \/ exists name saved,
       r = Ok saved
       /\ st' = put_file name (JsonText (JObj saved)) st
       /\ lookup_path st' name = Regular (JsonText (JObj saved))
       /\ (saved = payload \/ exists v, saved = dset "file_name" v payload).
Proof.
  unfold _save_watch.
  destruct (truthy (dget_or_none "file_name" payload)).
  - destruct (dget_or_none "file_name" payload) as [| | | |name| |];
      try (intros [= <- <-]; left; split; [discriminate | reflexivity]).
    destruct (_write_watch_file st name payload) as [w st1] eqn:E.
    intros [= <- <-]. apply write_store in E as [(-> & -> & Hl)|[Hw ->]].
    + right. exists name, payload. cbn [bind]. auto.
    + left. split; [ | reflexivity]. destruct w as [[]| |]; cbn [bind]; try discriminate.
      now contradiction (Hw tt).
  - destruct (_locate_watch_file st watch_id) as [path| |];
      try (intros [= <- <-]; left; split; [discriminate | reflexivity]).
    destruct (_write_watch_file st path _) as [w st1] eqn:E.
    intros [= <- <-]. apply write_store in E as [(-> & -> & Hl)|[Hw ->]].
    + right. do 2 eexists. cbn [bind]. split; [reflexivity | ].
      split; [reflexivity | ]. split; [exact Hl | ]. right. now eexists.
    + left. split; [ | reflexivity]. destruct w as [[]| |]; cbn [bind]; try discriminate.
      now contradiction (Hw tt).
Qed.

Lemma decide_status_other (target : option pyfloat) (new_price : number)
  (origin destination : json) (payload : dict) (k : string) :
  k <> "status" -> k <> "summary" ->
  dget k (decide_status target new_price origin destination payload) = dget k payload.
Proof.
  intros H1 H2. unfold decide_status.
  destruct target as [t|]; [destruct (number_leb new_price (NFloat t)) | ];
    now rewrite ?dget_dset_other.
Qed.

Lemma decide_status_status (target : option pyfloat) (new_price : number)
  (origin destination : json) (payload : dict) :
  let alert := match target with
               | Some t => number_leb new_price (NFloat t)
               | None => false
               end in
  dget "status" (decide_status target new_price origin destination payload)
    = Some (JStr (if alert then "notified" else "watching")).
Proof.
  unfold decide_status.
  destruct target as [t|]; [destruct (number_leb new_price (NFloat t)) | ]; cbv zeta.
  - rewrite dget_dset_other by discriminate. apply dget_dset_same.
  - apply dget_dset_same.
  - apply dget_dset_same.
Qed.

Lemma decide_status_summary (t : pyfloat) (new_price : number)
  (origin destination : json) (payload : dict) :
  number_leb new_price (NFloat t) = true ->
  dget "summary" (decide_status (Some t) new_price origin destination payload)
    = Some (JStr (alert_summary origin destination new_price t)).
Proof. intros H. unfold decide_status. rewrite H. apply dget_dset_same. Qed.

Lemma tick_updated_inv (st st' : store) (watch_id : string) (target : option pyfloat)
  (draw : Z) (saved : dict) :
  tick st watch_id target draw = (Ok (Updated saved), st') ->
  exists payload history current moved origin destination,
    _load_watch st watch_id = Ok payload
    /\ is_terminal payload = false
    /\ dget "history" payload = Some (JArr history)
    /\ current_price_of payload = Ok current
    /\ add_delta current (randint (-40) 20 draw) = Ok moved
    /\ _save_watch st watch_id
         (ticked target (py_max moved (NInt 50)) origin destination history payload)
       = (Ok saved, st').
Proof.
  unfold tick.
  destruct (_load_watch st watch_id) as [payload| |] eqn:Hl; try discriminate.
  destruct (negb (hashable (dget_or_none "status" payload))); try discriminate.
  fold (is_terminal payload).
  destruct (is_terminal payload) eqn:Ht; try discriminate.
  destruct (current_price_of payload) as [current| |] eqn:Hc; try discriminate.
  cbv zeta.
  destruct (add_delta current (randint (-40) 20 draw)) as [moved| |] eqn:Ha;
    try discriminate.
  destruct (dget "history" payload) as [[| | | | |history|]|] eqn:Hh; try discriminate.
  destruct (dget "origin" _) as [origin|] eqn:Ho; try discriminate.
  destruct (dget "destination" _) as [destination|] eqn:Hd; try discriminate.
  destruct (_save_watch st watch_id _) as [[s| |] st1] eqn:Hs; try discriminate.
  intros [= <- <-].
  exists payload, history, current, moved, origin, destination.
  repeat (split; [reflexivity || assumption | ]). exact Hs.
Qed.

(** Every iteration either leaves the store alone or replaces one file by
    the record it loaded with one entry appended. *)
Lemma tick_store (st : store) (watch_id : string) (target : option pyfloat) (draw : Z) :
  snd (tick st watch_id target draw) = st
  \/ exists name payload history new_price saved,
       _load_watch st watch_id = Ok payload
       /\ dget "history" payload = Some (JArr history)
       /\ dget "history" saved
          = Some (JArr (history ++ [JObj (price_stage (List.length history) new_price)])%list)
       /\ snd (tick st watch_id target draw) = put_file name (JsonText (JObj saved)) st.
Proof.
  unfold tick.
  destruct (_load_watch st watch_id) as [payload| |] eqn:Hl; try (now left).
  destruct (negb (hashable (dget_or_none "status" payload))); try (now left).
  destruct (json_is_str _ "notified" || json_is_str _ "cancelled"); try (now left).
  destruct (current_price_of payload) as [current| |]; try (now left).
  cbv zeta.
  destruct (add_delta current (randint (-40) 20 draw)) as [moved| |]; try (now left).
  destruct (dget "history" payload) as [[| | | | |history|]|] eqn:Hh; try (now left).
  destruct (dget "origin" _) as [origin|]; try (now left).
  destruct (dget "destination" _) as [destination|]; try (now left).
  fold (ticked target (py_max moved (NInt 50)) origin destination history payload).
  destruct (_save_watch st watch_id _) as [r st1] eqn:Hs.
  assert (Hsnd : snd (match r with
                      | Ok saved => (Ok (Updated saved), st1)
                      | Raise e => (Raise e, st1)
                      | Unmodelled => (Unmodelled, st1)
                      end) = st1) by now destruct r.
  rewrite Hsnd.
  apply save_store in Hs as [[_ ->]|(name & saved & -> & -> & _ & Hsaved)]; [now left | ].
  right. exists name, payload, history, (py_max moved (NInt 50)), saved.
  split; [reflexivity | ]. split; [exact Hh | ]. split; [ | reflexivity].
  assert (Hh' : dget "history"
                  (ticked target (py_max moved (NInt 50)) origin destination history payload)
                = Some (JArr (history
                     ++ [JObj (price_stage (List.length history) (py_max moved (NInt 50)))])%list)).
  { unfold ticked. rewrite decide_status_other by discriminate. apply dget_dset_same. }
  destruct Hsaved as [->|[v ->]]; [exact Hh' | ].
  rewrite dget_dset_other by discriminate. exact Hh'.
Qed.

Lemma load_in (st : store) (watch_id : string) (payload : dict) :
  _load_watch st watch_id = Ok payload ->
  exists path stored,
    In (path, JsonText (JObj stored)) st /\ payload = with_defaults path stored.
Proof.
  unfold _load_watch.
  destruct (_locate_watch_file st watch_id) as [path| |]; try discriminate. cbn [bind].
  destruct (read_json st path) as [[| | | | | |stored]| |] eqn:E; try discriminate.
  cbn [bind]. intros [= <-]. exists path, stored. split; [ | reflexivity].
  now apply read_json_in.
Qed.

Lemma history_indexed_append (payload saved : dict) (history : list json)
  (new_price : number) :
  history_indexed payload ->
  dget "history" payload = Some (JArr history) ->
  dget "history" saved
    = Some (JArr (history ++ [JObj (price_stage (List.length history) new_price)])%list) ->
  history_indexed saved.
Proof.
  intros Hok Hh Hs history' Hh' i e Hi.
  rewrite Hs in Hh'. injection Hh' as <-.
  destruct (Nat.lt_ge_cases i (List.length history)) as [Hlt|Hge].
  - rewrite nth_error_app1 in Hi by exact Hlt. exact (Hok _ Hh _ _ Hi).
  - rewrite nth_error_app2 in Hi by exact Hge.
    destruct (i - List.length history)%nat as [|k] eqn:Ek; cbn in Hi.
    + injection Hi as <-. eexists. split; [reflexivity | ].
      cbn. do 3 f_equal. lia.
    + destruct k; discriminate.
Qed.

Lemma store_indexed_put (st : store) (name : string) (payload : dict) :
  store_indexed st -> history_indexed payload ->
  store_indexed (put_file name (JsonText (JObj payload)) st).
Proof.
  intros Hst Hp n p Hin. apply in_put_file in Hin as [[= <- <-]|Hin]; [exact Hp | ].
  exact (Hst _ _ Hin).
Qed.

Lemma tick_keeps_indexed (st : store) (watch_id : string) (target : option pyfloat) (draw : Z) :
  store_indexed st -> store_indexed (snd (tick st watch_id target draw)).
Proof.
  intros Hst.
  destruct (tick_store st watch_id target draw)
    as [->|(name & payload & history & np & saved & Hl & Hh & Hs & ->)]; [exact Hst | ].
  apply store_indexed_put; [exact Hst | ].
  apply load_in in Hl as (path & stored & Hin & ->).
  apply (history_indexed_append (with_defaults path stored) saved history np); auto.
  intros h Hh'. rewrite with_defaults_other in Hh' by discriminate.
  exact (Hst _ _ Hin h Hh').
Qed.

Lemma initial_payload_indexed (watch_id o d dt file_name resource_name : string)
  (target context : json) (price : pyfloat) :
  history_indexed
    (dset "resource_name" (JStr resource_name)
       (dset "file_name" (JStr file_name)
          (initial_payload watch_id o d dt target context price))).
Proof.
  intros history H. cbn in H. injection H as <-.
  intros [|[|i]] e Hi; cbn in Hi; try discriminate.
  injection Hi as <-. eexists. split; reflexivity.
Qed.

Lemma create_keeps_indexed (st : store) (session : bool) (uuid4_hex name : string)
  (arguments : option dict) :
  store_indexed st ->
  store_indexed (snd (handle_call_tool st session uuid4_hex name arguments)).
Proof.
  intros Hst. unfold handle_call_tool.
  destruct (negb (String.eqb name "track_flight_price")); [exact Hst | ].
  destruct (negb (forallb hashable _)); [exact Hst | ].
  destruct (existsb is_none _); [exact Hst | ].
  destruct (py_float _) as [price| |]; try exact Hst.
  destruct (_allocate_watch_file st _ _ _ _) as [[file_name resource_name]| |];
    try exact Hst.
  destruct (_write_watch_file st file_name _) as [w st1] eqn:E.
  assert (Hst1 : store_indexed st1).
  { apply write_store in E as [(_ & -> & _)|[_ ->]]; [ | exact Hst].
    apply store_indexed_put; [exact Hst | apply initial_payload_indexed]. }
  destruct w as [[]| |]; try exact Hst1.
  destruct session; cbn [bind]; try exact Hst1.
  destruct (is_none _); cbn [bind]; try exact Hst1.
  destruct (py_float _); exact Hst1.
Qed.

(** The indexing invariant is kept by every run of the engine. *)
Lemma run_keeps_indexed (st0 st : store) :
  store_indexed st0 -> engine_run st0 st -> store_indexed st.
Proof.
  intros H0 Hrun. induction Hrun as [st|st st' st'' Hstep _ IH]; [exact H0 | ].
  apply IH. destruct Hstep.
  - now apply create_keeps_indexed.
  - now apply tick_keeps_indexed.
Qed.

End SimulatorFacts.

Section SimulatorClaims.

Context {RT : Runtime}.

Lemma terminal_is_hashable (payload : dict) :
  is_terminal payload = true -> hashable (dget_or_none "status" payload) = true.
Proof.
  unfold is_terminal. destruct (dget_or_none "status" payload); try reflexivity;
    discriminate.
Qed.

Lemma tick_terminal (st : store) (watch_id : string) (target : option pyfloat) (draw : Z)
  (payload : dict) :
  _load_watch st watch_id = Ok payload ->
  is_terminal payload = true ->
  tick st watch_id target draw = (Ok Stopped, st).
Proof.
  intros Hl Ht. unfold tick. rewrite Hl, (terminal_is_hashable _ Ht). cbn [negb].
  unfold is_terminal in Ht. now rewrite Ht.
Qed.

Lemma notified_status (payload : dict) :
  dget "status" payload = Some (JStr "notified") -> is_notified payload = true.
Proof. intros H. unfold is_notified, dget_or_none. now rewrite H. Qed.

(** C3.  An iteration that loads a record whose status is [notified] or
    [cancelled] stops the simulator and leaves the store untouched; an
    iteration that sets the status to [notified] stops the simulator right
    after its record is persisted; and an iteration that did append had
    loaded a record that was not terminal. *)
Theorem terminal_status_stops_simulator
  (st : store) (watch_id : string) (target : option pyfloat) (draw : Z) (rest : list Z) :
  (forall payload,
      _load_watch st watch_id = Ok payload -> is_terminal payload = true ->
      tick st watch_id target draw = (Ok Stopped, st)
      /\ _simulate_price_updates st watch_id target (draw :: rest) = (Finished, st))
  /\ (forall saved st',
         tick st watch_id target draw = (Ok (Updated saved), st') ->
         dget "status" saved = Some (JStr "notified") ->
         _simulate_price_updates st watch_id target (draw :: rest) = (Finished, st')
         /\ exists name, lookup_path st' name = Regular (JsonText (JObj saved)))
  /\ (forall saved st',
         tick st watch_id target draw = (Ok (Updated saved), st') ->
         exists payload,
           _load_watch st watch_id = Ok payload /\ is_terminal payload = false).
Proof.
  split; [ | split].
  - intros payload Hl Ht. pose proof (tick_terminal st watch_id target draw _ Hl Ht) as H.
    split; [exact H | ]. cbn [_simulate_price_updates]. now rewrite H.
  - intros saved st' Htick Hs. split.
    + cbn [_simulate_price_updates]. now rewrite Htick, (notified_status _ Hs).
    + apply tick_updated_inv in Htick
        as (payload & history & current & moved & o & d & _ & _ & _ & _ & _ & Hsave).
      apply save_store in Hsave as [[Hno _]|(name & saved' & [= <-] & _ & Hl & _)].
      * now contradiction (Hno saved).
      * now exists name.
  - intros saved st' Htick.
    apply tick_updated_inv in Htick
      as (payload & history & current & moved & o & d & Hl & Ht & _).
    now exists payload.
Qed.

Lemma last_some_inv {A : Type} (l : list A) (x : A) :
  List.last (map Some l) None = Some x -> exists front, l = (front ++ [x])%list.
Proof.
  destruct l as [|a l]; [discriminate | ].
  destruct (exists_last (l := a :: l)) as (front & y & E); [discriminate | ].
  rewrite E, map_app. cbn [map]. rewrite last_last. intros [= ->]. now exists front.
Qed.

Lemma current_price_inv (payload : dict) (current : json) :
  current_price_of payload = Ok current ->
  exists front last,
    dget "history" payload = Some (JArr (front ++ [JObj last])%list)
    /\ dget "price" last = Some current.
Proof.
  unfold current_price_of.
  destruct (dget "history" payload) as [[| | | |s|history|]|]; try discriminate.
  - now destruct (PyStr.nonempty s).
  - destruct (List.last (map Some history) None) as [[| | | | | |entry]|] eqn:E;
      try discriminate.
    destruct (dget "price" entry) as [v|] eqn:Ev; [ | discriminate].
    intros [= <-]. apply last_some_inv in E as [front ->]. now exists front, entry.
Qed.

Lemma current_price_last (payload : dict) (front : list json) (last : dict)
  (current : json) :
  dget "history" payload = Some (JArr (front ++ [JObj last])%list) ->
  dget "price" last = Some current ->
  current_price_of payload = Ok current.
Proof.
  intros Hh Hp. unfold current_price_of. rewrite Hh, map_app. cbn [map].
  rewrite last_last. now rewrite Hp.
Qed.

Lemma tick_updated_fields (st st' : store) (watch_id : string) (target : option pyfloat)
  (draw : Z) (saved : dict) :
  tick st watch_id target draw = (Ok (Updated saved), st') ->
  exists payload history current moved origin destination,
    _load_watch st watch_id = Ok payload
    /\ dget "history" payload = Some (JArr history)
    /\ current_price_of payload = Ok current
    /\ add_delta current (randint (-40) 20 draw) = Ok moved
    /\ dget "origin" payload = Some origin
    /\ dget "destination" payload = Some destination
    /\ _save_watch st watch_id
         (ticked target (py_max moved (NInt 50)) origin destination history payload)
       = (Ok saved, st').
Proof.
  unfold tick.
  destruct (_load_watch st watch_id) as [payload| |] eqn:Hl; try discriminate.
  destruct (negb (hashable (dget_or_none "status" payload))); try discriminate.
  destruct (json_is_str _ "notified" || json_is_str _ "cancelled"); try discriminate.
  destruct (current_price_of payload) as [current| |] eqn:Hc; try discriminate.
  cbv zeta.
  destruct (add_delta current (randint (-40) 20 draw)) as [moved| |] eqn:Ha;
    try discriminate.
  destruct (dget "history" payload) as [[| | | | |history|]|] eqn:Hh; try discriminate.
  destruct (dget "origin" _) as [origin|] eqn:Ho; try discriminate.
  destruct (dget "destination" _) as [destination|] eqn:Hd; try discriminate.
  rewrite dget_dset_other in Ho, Hd by discriminate.
  destruct (_save_watch st watch_id _) as [[s| |] st1] eqn:Hs; try discriminate.
  intros [= <- <-].
  exists payload, history, current, moved, origin, destination.
  repeat (split; [reflexivity || assumption | ]). exact Hs.
Qed.

(** What every iteration that reports an update has done. *)
Lemma tick_postcondition_holds
  (st st' : store) (watch_id : string) (payload : dict) (target : option pyfloat)
  (draw : Z) (saved : dict) :
  _load_watch st watch_id = Ok payload ->
  tick st watch_id target draw = (Ok (Updated saved), st') ->
  tick_postcondition st st' payload target draw saved.
Proof.
  intros Hload Htick. unfold tick_postcondition.
  apply tick_updated_fields in Htick
    as (payload' & history & current & moved & o & d & Hl & Hh & Hc & Ha & Ho & Hdest
        & Hsave).
  rewrite Hload in Hl. injection Hl as <-.
  destruct (current_price_inv _ _ Hc) as (front & last & Hfront & Hprice).
  assert (Hhist : history = (front ++ [JObj last])%list) by congruence. subst history.
  assert (Hd : (-40 <= randint (-40) 20 draw <= 20)%Z) by (apply randint_bounds; lia).
  set (new_price := py_max moved (NInt 50)) in *.
  pose proof (add_delta_floored _ _ _ Hd Ha) as Hsum. fold new_price in Hsum.
  destruct (floored_sum_floor _ _ _ Hsum) as [Hfloor Hnan].
  exists front, last, current, (json_of_number new_price).
  split; [exact Hfront | ]. split; [exact Hprice | ]. split; [exact Hd | ].
  split; [exact Hsum | ]. split; [exact Hfloor | ]. split; [exact Hnan | ].
  set (written := ticked target new_price o d (front ++ [JObj last])%list payload) in *.
  assert (Hkeep : forall k, k <> "file_name" -> dget k saved = dget k written).
  { intros k Hk.
    apply save_store in Hsave as [[Hno _]|(name & saved' & [= <-] & _ & _ & [->|[v ->]])].
    - now contradiction (Hno saved).
    - reflexivity.
    - now apply dget_dset_other. }
  assert (Hstatus : dget "status" saved
                    = Some (JStr (if match target with
                                     | Some t => number_leb new_price (NFloat t)
                                     | None => false
                                     end then "notified" else "watching"))).
  { rewrite Hkeep by discriminate. apply decide_status_status. }
  split.
  { rewrite Hkeep by discriminate. unfold written, ticked.
    rewrite decide_status_other by discriminate. rewrite dget_dset_same.
    unfold price_stage. rewrite length_app. reflexivity. }
  split.
  { apply save_store in Hsave as [[Hno _]|(name & saved' & [= <-] & -> & Hlk & _)].
    - now contradiction (Hno saved).
    - exists name. split; [reflexivity | exact Hlk]. }
  split; [ | split].
  - rewrite Hstatus, numeric_of_number. destruct target as [t|].
    + unfold number_leb. cbn [number_float].
      destruct (float_leb (number_float new_price) t) eqn:E.
      * split; [ | reflexivity]. intros _. exists t, (number_float new_price).
        split; [reflexivity | ]. split; [reflexivity | ]. now apply float_leb_le.
      * split; [discriminate | ]. intros (t' & v & [= <-] & [= <-] & Hle).
        apply float_leb_le in Hle. congruence.
    + split; [discriminate | ]. now intros (t & v & [=] & _).
  - rewrite Hstatus. destruct target as [t|]; [ | discriminate].
    destruct (number_leb new_price (NFloat t)) eqn:E; [ | discriminate].
    intros _. exists t, o, d. split; [reflexivity | ].
    split; [exact Ho | ]. split; [exact Hdest | ].
    rewrite Hkeep by discriminate. unfold written, ticked.
    now rewrite (decide_status_summary _ _ _ _ _ E).
  - rewrite Hstatus.
    destruct (match target with Some t => number_leb new_price (NFloat t) | None => false end);
      [intros H; now contradiction H | reflexivity].
Qed.

Lemma write_in_directory (st : store) (rel : string) (payload : dict) :
  lookup_path st rel <> Directory -> lookup_path st rel <> Outside ->
  _write_watch_file st rel payload = (Ok tt, put_file rel (JsonText (JObj payload)) st).
Proof.
  intros H1 H2. unfold _write_watch_file.
  destruct (lookup_path st rel); try reflexivity; contradiction.
Qed.

(** An iteration on a tickable record runs to its end. *)
Lemma tick_progress (st : store) (watch_id : string) (target : option pyfloat) (draw : Z)
  (payload : dict) :
  _load_watch st watch_id = Ok payload -> tickable st payload ->
  exists saved st', tick st watch_id target draw = (Ok (Updated saved), st').
Proof.
  intros Hl (Hh & Ht & (front & last & current & Hhist & Hprice & Hnum) & (o & Ho)
            & (d & Hd) & Hfile).
  pose proof (current_price_last _ _ _ _ Hhist Hprice) as Hc.
  assert (Hdelta : (-40 <= randint (-40) 20 draw <= 20)%Z) by (apply randint_bounds; lia).
  destruct (add_delta_numeric current _ Hdelta Hnum) as [moved Ha].
  unfold tick. rewrite Hl, Hh. cbn [negb].
  unfold is_terminal in Ht. rewrite Ht, Hc. cbv zeta. rewrite Ha, Hhist.
  rewrite !dget_dset_other by discriminate. rewrite Ho, Hd.
  fold (ticked target (py_max moved (NInt 50)) o d (front ++ [JObj last])%list payload).
  set (written := ticked target (py_max moved (NInt 50)) o d (front ++ [JObj last])%list
                         payload).
  assert (Hsame : dget "file_name" written = dget "file_name" payload).
  { unfold written, ticked. rewrite decide_status_other by discriminate.
    now rewrite dget_dset_other by discriminate. }
  unfold _save_watch, dget_or_none. rewrite Hsame.
  destruct Hfile as [(name & Hf & Hne & Hdir & Hout)|Hfalsy].
  - rewrite Hf. cbn [truthy]. rewrite Hne.
    rewrite (write_in_directory _ _ _ Hdir Hout). cbn [bind]. now do 2 eexists.
  - unfold dget_or_none in Hfalsy. rewrite Hfalsy.
    unfold _load_watch in Hl.
    destruct (_locate_watch_file st watch_id) as [path| |]; try discriminate.
    cbn [bind] in Hl.
    destruct (read_json st path) as [[| | | | | |stored]| |] eqn:Hread; try discriminate.
    assert (Hreg : lookup_path st path = Regular (JsonText (JObj stored))).
    { unfold read_json in Hread.
      destruct (lookup_path st path) as [| |[|j]|]; try discriminate.
      now injection Hread as ->. }
    unfold _write_watch_file. rewrite Hreg. cbn [bind]. now do 2 eexists.
Qed.

(** C4 as the code has it.  An iteration on a record that is not terminal
    (and is well formed: [tickable]) runs to its end and appends exactly one
    entry, numbered by the length of the history; its price is
    [max(previous price + delta, 50)] in Python's arithmetic for the draw
    [-40 <= delta <= 20] (the sum exact on an [int], rounded to the nearest
    double on a [float]), so at least 50 unless the previous price is NaN,
    which gives NaN; the record is persisted with status [notified], and
    the alert summary, exactly when a target price is set and the new price
    does not exceed it, and with status [watching] otherwise. *)
Theorem tick_appends_floored_price
  (st : store) (watch_id : string) (target : option pyfloat) (draw : Z) (payload : dict) :
  _load_watch st watch_id = Ok payload ->
  tickable st payload ->
  exists saved st',
    tick st watch_id target draw = (Ok (Updated saved), st')
    /\ tick_postcondition st st' payload target draw saved.
Proof.
  intros Hl Hok.
  destruct (tick_progress st watch_id target draw payload Hl Hok) as (saved & st' & H).
  exists saved, st'. split; [exact H | now apply (tick_postcondition_holds _ _ watch_id)].
Qed.

(** C2.  Every record is numbered by position.  A create call with
    acceptable arguments writes a record whose history is a single entry
    with sequence 0; an iteration on a well-formed record that is not
    terminal appends exactly one entry, whose sequence is the length the
    history had, and persists it; so the invariant [history[i].sequence == i]
    of every record of the directory is kept by every create call and every
    iteration, and holds after every run of the engine that starts from the
    empty directory. *)
Theorem sequence_equals_index :
  (forall (st : store) (session : bool) (uuid4_hex : string) (arguments : dict)
          (price : pyfloat),
      forallb hashable (required_arguments arguments) = true ->
      existsb is_none (required_arguments arguments) = false ->
      py_float (dget_or_none "initial_price" arguments) = Ok price ->
      all_chars hex_char uuid4_hex = true ->
      exists file_name payload entry,
        lookup_path st file_name = NoEntry
        /\ snd (handle_call_tool st session uuid4_hex "track_flight_price" (Some arguments))
           = put_file file_name (JsonText (JObj payload)) st
        /\ dget "history" payload = Some (JArr [JObj entry])
        /\ dget "sequence" entry = Some (JInt 0))
  /\ (forall (st : store) (watch_id : string) (target : option pyfloat) (draw : Z)
             (payload : dict),
        _load_watch st watch_id = Ok payload ->
        tickable st payload ->
        exists saved st' name history entry,
          tick st watch_id target draw = (Ok (Updated saved), st')
          /\ st' = put_file name (JsonText (JObj saved)) st
          /\ dget "history" payload = Some (JArr history)
          /\ dget "history" saved = Some (JArr (history ++ [JObj entry])%list)
          /\ dget "sequence" entry = Some (JInt (Z.of_nat (List.length history))))
  /\ (forall st0 st : store, store_indexed st0 -> engine_run st0 st -> store_indexed st)
  /\ (forall st : store, engine_run [] st -> store_indexed st).
Proof.
  split; [ | split; [ | split]].
  - intros st session uuid4_hex arguments price Hhash Hnone Hprice Hid.
    destruct (handle_call_tool_store st session uuid4_hex arguments price Hhash Hnone
                Hprice (hex_prefix_plain _ Hid)) as (c & Hfree & Hst & _).
    exists (c ++ ".json"), (created_payload uuid4_hex c arguments price).
    eexists. split; [exact Hfree | ]. split; [exact Hst | ].
    split; reflexivity.
  - intros st watch_id target draw payload Hl Hok.
    destruct (tick_progress st watch_id target draw payload Hl Hok) as (saved & st' & H).
    destruct (tick_postcondition_holds _ _ _ _ _ _ _ Hl H)
      as (front & last & previous & new_price & Hh & _ & _ & _ & _ & _ & Hs
          & (name & Hst & _) & _).
    exists saved, st', name, (front ++ [JObj last])%list. eexists.
    split; [exact H | ]. split; [exact Hst | ]. split; [exact Hh | ].
    split; [exact Hs | ]. cbn [dget String.eqb Ascii.eqb Bool.eqb].
    now rewrite length_app.
  - intros st0 st. apply run_keeps_indexed.
  - intros st. apply run_keeps_indexed. intros name payload [].
Qed.

(** C8 as the code has it.  When a URI decodes to an id that the store
    resolves to a file holding an object, reading the URI returns that
    object with [file_name] and [resource_name] filled in from the name of
    the file when they are absent: every stored field keeps its value, no
    other field is added, and an object that has both fields comes back
    verbatim. *)
Theorem read_returns_record_with_defaults
  (st : store) (uri watch_id path : string) (payload : dict) :
  _parse_watch_id st uri = Ok watch_id ->
  _locate_watch_file st watch_id = Ok path ->
  read_json st path = Ok (JObj payload) ->
  handle_read_resource st uri = Ok (with_defaults path payload)
  /\ (forall k v, dget k payload = Some v ->
                  dget k (with_defaults path payload) = Some v)
  /\ (forall k, k <> "file_name" -> k <> "resource_name" ->
                dget k (with_defaults path payload) = dget k payload)
  /\ (dget "file_name" payload = None ->
      dget "file_name" (with_defaults path payload) = Some (JStr path))
  /\ (dget "resource_name" payload = None ->
      dget "resource_name" (with_defaults path payload)
      = Some (JStr ("flight-watch-" ++ path_stem path)))
  /\ (forall f r, dget "file_name" payload = Some f ->
                  dget "resource_name" payload = Some r ->
                  handle_read_resource st uri = Ok payload).
Proof.
  intros Hid Hloc Hread.
  assert (H : handle_read_resource st uri = Ok (with_defaults path payload)).
  { unfold handle_read_resource. rewrite Hid. cbn [bind].
    now apply load_located. }
  assert (Hname : path_name path = path).
  { unfold read_json in Hread.
    destruct (lookup_path st path) as [| |[|j]|] eqn:E; try discriminate.
    destruct (regular_is_component _ _ _ E) as (Hne & Hdot & _ & Hslash & _).
    apply path_name_ends_in; auto. now apply ends_in_self. }
  split; [exact H | ]. split; [ | split; [ | split; [ | split]]].
  - intros k v. apply with_defaults_keeps.
  - intros k. apply with_defaults_other.
  - intros Hf. unfold with_defaults. rewrite dget_setdefault_other by discriminate.
    unfold setdefault. rewrite Hf, Hname. apply dget_dset_same.
  - intros Hr. unfold with_defaults, setdefault at 1.
    rewrite dget_setdefault_other by discriminate. rewrite Hr, Hname.
    apply dget_dset_same.
  - intros f r Hf Hr. rewrite H. f_equal. eapply with_defaults_complete; eauto.
Qed.

End SimulatorClaims.

(* ------------------------------------------------------------------ *)
(** ** Further properties: slugs and URIs *)

Lemma lstrip_idem (c : ascii) (s : string) :
  PyStr.lstrip c (PyStr.lstrip c s) = PyStr.lstrip c s.
Proof.
  induction s as [|a s IH]; simpl; [reflexivity | ].
  destruct (Ascii.eqb a c) eqn:E; [exact IH | ]. simpl. now rewrite E.
Qed.

Lemma rstrip_idem (c : ascii) (s : string) :
  PyStr.rstrip c (PyStr.rstrip c s) = PyStr.rstrip c s.
Proof.
  induction s as [|a s IH]; simpl; [reflexivity | ].
  destruct (PyStr.rstrip c s) as [|b r] eqn:E.
  - destruct (Ascii.eqb a c) eqn:Ea; simpl; [reflexivity | now rewrite Ea].
  - cbn [PyStr.rstrip]. cbn [PyStr.rstrip] in IH. now rewrite IH.
Qed.

Lemma lstrip_length (c : ascii) (s : string) :
  (String.length (PyStr.lstrip c s) <= String.length s)%nat.
Proof.
  induction s as [|a s IH]; simpl; [lia | ].
  destruct (Ascii.eqb a c); simpl; lia.
Qed.

Lemma lstrip_fixed_head (c a : ascii) (s : string) :
  PyStr.lstrip c (String a s) = String a s -> Ascii.eqb a c = false.
Proof.
  simpl. destruct (Ascii.eqb a c); [ | reflexivity].
  intros H. pose proof (lstrip_length c s) as Hl. rewrite H in Hl. simpl in Hl. lia.
Qed.

Lemma lstrip_rstrip (c : ascii) (s : string) :
  PyStr.lstrip c s = s -> PyStr.lstrip c (PyStr.rstrip c s) = PyStr.rstrip c s.
Proof.
  destruct s as [|a s]; [reflexivity | ]. intros H.
  apply lstrip_fixed_head in H. cbn [PyStr.rstrip].
  destruct (PyStr.rstrip c s); rewrite ?H; simpl; now rewrite H.
Qed.

Lemma lstrip_append (c : ascii) (a b : string) :
  PyStr.nonempty a = true -> PyStr.lstrip c a = a -> PyStr.lstrip c (a ++ b) = a ++ b.
Proof.
  destruct a as [|x a]; [discriminate | ]. intros _ H.
  apply lstrip_fixed_head in H. simpl. now rewrite H.
Qed.

Lemma rstrip_append (c : ascii) (a b : string) :
  PyStr.nonempty b = true -> PyStr.rstrip c b = b -> PyStr.rstrip c (a ++ b) = a ++ b.
Proof.
  intros Hb H. induction a as [|x a IH]; [exact H | ].
  cbn [append PyStr.rstrip]. rewrite IH.
  destruct (a ++ b) eqn:E; [ | reflexivity].
  destruct a; simpl in E; [subst; discriminate | discriminate].
Qed.

Lemma nonempty_append_r (a b : string) :
  PyStr.nonempty b = true -> PyStr.nonempty (a ++ b) = true.
Proof. destruct a; simpl; auto. Qed.

(** A token is trimmed on both sides. *)
Lemma slug_token_trimmed (part : string) :
  PyStr.lstrip "-" (slug_token part) = slug_token part
  /\ PyStr.rstrip "-" (slug_token part) = slug_token part.
Proof.
  unfold slug_token, PyStr.strip. split.
  - apply lstrip_rstrip, lstrip_idem.
  - apply rstrip_idem.
Qed.

Lemma slug_tokens_trimmed (parts : list string) :
  Forall (fun t => PyStr.nonempty t = true
                   /\ PyStr.lstrip "-" t = t /\ PyStr.rstrip "-" t = t)
         (slug_tokens parts).
Proof.
  induction parts as [|p parts IH]; simpl; [constructor | ].
  destruct (PyStr.nonempty p); simpl; [ | exact IH].
  destruct (PyStr.nonempty (slug_token p)) eqn:E; [ | exact IH].
  constructor; [ | exact IH]. split; [exact E | apply slug_token_trimmed].
Qed.

Lemma join_trimmed (tokens : list string) :
  Forall (fun t => PyStr.nonempty t = true
                   /\ PyStr.lstrip "-" t = t /\ PyStr.rstrip "-" t = t) tokens ->
  tokens <> [] ->
  PyStr.nonempty (PyStr.join "-" tokens) = true
  /\ PyStr.lstrip "-" (PyStr.join "-" tokens) = PyStr.join "-" tokens
  /\ PyStr.rstrip "-" (PyStr.join "-" tokens) = PyStr.join "-" tokens.
Proof.
  intros H. induction H as [|t ts (Hne & Hl & Hr) Hts IH]; [contradiction | ].
  intros _. destruct ts as [|t' ts'].
  - simpl. auto.
  - destruct IH as (IHn & _ & IHr); [discriminate | ].
    change (PyStr.join "-" (t :: t' :: ts'))
      with (t ++ "-" ++ PyStr.join "-" (t' :: ts')).
    split; [ | split].
    + destruct t; [discriminate | reflexivity].
    + now apply lstrip_append.
    + apply rstrip_append.
      * reflexivity.
      * apply (rstrip_append "-" "-"); assumption.
Qed.

(** X1.  A slug is never empty, consists of lowercase letters, digits and
    hyphens only, and neither begins nor ends with a hyphen. *)
Theorem slugify_shape (parts : list string) :
  PyStr.nonempty (_slugify parts) = true
  /\ all_chars slug_or_dash (_slugify parts) = true
  /\ PyStr.strip "-" (_slugify parts) = _slugify parts.
Proof.
  split; [ | split; [apply slugify_chars | ]].
  - unfold _slugify.
    destruct (PyStr.nonempty (PyStr.join "-" (slug_tokens parts))) eqn:E;
      [exact E | reflexivity].
  - unfold _slugify, PyStr.strip.
    destruct (PyStr.nonempty (PyStr.join "-" (slug_tokens parts))) eqn:E;
      [ | reflexivity].
    destruct (slug_tokens parts) as [|t ts] eqn:Et; [discriminate | ].
    destruct (join_trimmed (t :: ts)) as (_ & Hl & Hr).
    + rewrite <- Et. apply slug_tokens_trimmed.
    + discriminate.
    + now rewrite Hl, Hr.
Qed.

Lemma lower_char_idem (c : ascii) : PyStr.lower_char (PyStr.lower_char c) = PyStr.lower_char c.
Proof.
  unfold PyStr.lower_char at 2 3.
  destruct (PyStr.is_upper c) eqn:E; [ | unfold PyStr.lower_char; now rewrite E].
  unfold PyStr.lower_char, PyStr.is_upper, PyStr.in_range, PyStr.code in *.
  apply andb_prop in E as [E1 E2]. apply Nat.leb_le in E1. apply Nat.leb_le in E2.
  rewrite nat_ascii_embedding by lia.
  replace ((nat_of_ascii c + 32 <=? 90)%nat) with false
    by (symmetry; apply Nat.leb_gt; lia).
  now rewrite andb_false_r.
Qed.

Lemma lower_idem (s : string) : PyStr.lower (PyStr.lower s) = PyStr.lower s.
Proof.
  induction s as [|c s IH]; simpl; [reflexivity | ].
  now rewrite lower_char_idem, IH.
Qed.

(** X2.  The slug does not depend on the case of its parts. *)
Theorem slugify_ignores_case (parts : list string) :
  _slugify (map PyStr.lower parts) = _slugify parts.
Proof.
  unfold _slugify.
  replace (slug_tokens (map PyStr.lower parts)) with (slug_tokens parts); [reflexivity | ].
  induction parts as [|p parts IH]; simpl; [reflexivity | ].
  replace (PyStr.nonempty (PyStr.lower p)) with (PyStr.nonempty p) by now destruct p.
  unfold slug_token. rewrite lower_idem. now rewrite IH.
Qed.

(* ------------------------------------------------------------------ *)
(** ** Further properties: a slug of a slug *)

Lemma slug_char_not_hyphen (c : ascii) : slug_char c = true -> Ascii.eqb c "-" = false.
Proof. intros H. destruct (Ascii.eqb_spec c "-") as [->|]; [discriminate | reflexivity]. Qed.

Lemma sub_non_slug_apart (in_run : bool) (s : string) :
  hyphens_apart in_run (sub_non_slug in_run s) = true.
Proof.
  revert in_run. induction s as [|c s IH]; intros in_run; [reflexivity | ].
  cbn [sub_non_slug]. destruct (slug_char c) eqn:E.
  - cbn [hyphens_apart]. rewrite (slug_char_not_hyphen _ E). apply IH.
  - destruct in_run; [apply IH | ]. cbn [hyphens_apart Ascii.eqb Bool.eqb negb andb].
    apply IH.
Qed.

Lemma hyphens_apart_weaken (b : bool) (s : string) :
  hyphens_apart b s = true -> hyphens_apart false s = true.
Proof.
  destruct s as [|c s]; [reflexivity | ]. cbn [hyphens_apart].
  destruct (Ascii.eqb c "-"); [ | auto]. destruct b; [discriminate | auto].
Qed.

Lemma lstrip_apart (s : string) :
  hyphens_apart false s = true -> hyphens_apart false (PyStr.lstrip "-" s) = true.
Proof.
  induction s as [|c s IH]; [reflexivity | ]. intros H. cbn [PyStr.lstrip].
  destruct (Ascii.eqb c "-") eqn:E; [ | exact H].
  cbn [hyphens_apart] in H. rewrite E in H. cbn [negb andb] in H.
  apply IH, (hyphens_apart_weaken true), H.
Qed.

Lemma rstrip_apart (b : bool) (s : string) :
  hyphens_apart b s = true -> hyphens_apart b (PyStr.rstrip "-" s) = true.
Proof.
  revert b. induction s as [|c s IH]; intros b; [reflexivity | ].
  cbn [PyStr.rstrip hyphens_apart].
  destruct (Ascii.eqb c "-") eqn:E.
  - intros H. apply andb_prop in H as [Hb H]. apply IH in H.
    destruct (PyStr.rstrip "-" s); [reflexivity | ].
    cbn [hyphens_apart] in *. now rewrite E, Hb, H.
  - intros H. apply IH in H.
    destruct (PyStr.rstrip "-" s); cbn [hyphens_apart] in *; now rewrite E.
Qed.

Lemma hyphens_apart_fresh (s : string) :
  PyStr.lstrip "-" s = s -> hyphens_apart true s = hyphens_apart false s.
Proof.
  destruct s as [|c s]; [reflexivity | ]. intros H.
  apply lstrip_fixed_head in H. cbn [hyphens_apart]. now rewrite H.
Qed.

Lemma rstrip_fixed_tail (c x : ascii) (s : string) :
  PyStr.rstrip c (String x s) = String x s -> s <> EmptyString ->
  PyStr.rstrip c s = s.
Proof.
  cbn [PyStr.rstrip]. destruct (PyStr.rstrip c s) eqn:E.
  - destruct (Ascii.eqb x c); [discriminate | ]. intros [= <-]. contradiction.
  - now intros [= <-].
Qed.

Lemma hyphens_apart_append (b : bool) (a t : string) :
  PyStr.nonempty a = true -> PyStr.rstrip "-" a = a -> hyphens_apart b a = true ->
  PyStr.lstrip "-" t = t -> hyphens_apart false t = true ->
  hyphens_apart b (a ++ String "-" t) = true.
Proof.
  intros Hne Hr Ha Hl Ht. revert b Hne Hr Ha.
  induction a as [|x a IH]; intros b Hne Hr Ha; [discriminate | ].
  destruct a as [|y a].
  - cbn [PyStr.rstrip] in Hr. destruct (Ascii.eqb x "-") eqn:E; [discriminate | ].
    cbn [append hyphens_apart Ascii.eqb Bool.eqb negb andb]. rewrite E.
    now rewrite (hyphens_apart_fresh _ Hl).
  - apply rstrip_fixed_tail in Hr; [ | discriminate].
    cbn [append hyphens_apart] in *.
    destruct (Ascii.eqb x "-").
    + apply andb_prop in Ha as [Hb Ha]. rewrite Hb. cbn [andb].
      now apply (IH true).
    + now apply (IH false).
Qed.

Lemma join_apart (tokens : list string) :
  Forall (fun t => PyStr.nonempty t = true
                   /\ PyStr.lstrip "-" t = t /\ PyStr.rstrip "-" t = t) tokens ->
  Forall (fun t => hyphens_apart false t = true) tokens ->
  hyphens_apart false (PyStr.join "-" tokens) = true.
Proof.
  intros H. induction H as [|t ts (Hne & Hl & Hr) Hts IH]; [reflexivity | ].
  intros Hall. inversion Hall as [|? ? Ht Hrest]; subst.
  destruct ts as [|t' ts']; [exact Ht | ].
  change (PyStr.join "-" (t :: t' :: ts'))
    with (t ++ String "-" (PyStr.join "-" (t' :: ts'))).
  apply hyphens_apart_append; auto.
  destruct (join_trimmed (t' :: ts') Hts) as (_ & Hjl & _); [discriminate | exact Hjl].
Qed.

Lemma slug_tokens_apart (parts : list string) :
  Forall (fun t => hyphens_apart false t = true) (slug_tokens parts).
Proof.
  induction parts as [|p parts IH]; cbn [slug_tokens]; [constructor | ].
  destruct (negb (PyStr.nonempty p)); [exact IH | ]. cbv zeta.
  destruct (PyStr.nonempty (slug_token p)); [ | exact IH].
  constructor; [ | exact IH].
  unfold slug_token, PyStr.strip. apply rstrip_apart, lstrip_apart, sub_non_slug_apart.
Qed.

Lemma slugify_apart (parts : list string) : hyphens_apart false (_slugify parts) = true.
Proof.
  unfold _slugify. cbv zeta.
  destruct (PyStr.nonempty (PyStr.join "-" (slug_tokens parts))); [ | reflexivity].
  apply join_apart; [apply slug_tokens_trimmed | apply slug_tokens_apart].
Qed.

Lemma lower_slug (s : string) : all_chars slug_or_dash s = true -> PyStr.lower s = s.
Proof.
  induction s as [|c s IH]; [reflexivity | ]. cbn [all_chars PyStr.lower].
  intros H. apply andb_prop in H as [Hc Hs]. rewrite (IH Hs). f_equal.
  unfold PyStr.lower_char. destruct (PyStr.is_upper c) eqn:E; [ | reflexivity].
  exfalso. unfold slug_or_dash, slug_char, PyStr.is_lower, PyStr.is_digit, PyStr.is_upper,
    PyStr.in_range in *.
  apply andb_prop in E as [E1 E2]. apply Nat.leb_le in E1. apply Nat.leb_le in E2.
  repeat (apply orb_true_iff in Hc as [Hc|Hc]).
  - apply andb_prop in Hc as [H1 _]. apply Nat.leb_le in H1. lia.
  - apply andb_prop in Hc as [_ H2]. apply Nat.leb_le in H2. lia.
  - apply Ascii.eqb_eq in Hc. subst c. cbv in E1. lia.
Qed.

Lemma sub_non_slug_fixed (in_run : bool) (s : string) :
  all_chars slug_or_dash s = true -> hyphens_apart in_run s = true ->
  sub_non_slug in_run s = s.
Proof.
  revert in_run. induction s as [|c s IH]; intros in_run; [reflexivity | ].
  cbn [all_chars hyphens_apart sub_non_slug]. intros H Ha.
  apply andb_prop in H as [Hc Hs].
  destruct (slug_char c) eqn:E.
  - rewrite (slug_char_not_hyphen _ E) in Ha. now rewrite IH.
  - unfold slug_or_dash in Hc. rewrite E in Hc. cbn [orb] in Hc. rewrite Hc in Ha.
    apply andb_prop in Ha as [Hb Ha]. destruct in_run; [discriminate | ].
    apply Ascii.eqb_eq in Hc. subst c. now rewrite IH.
Qed.

Lemma slugify_trimmed (parts : list string) :
  PyStr.nonempty (_slugify parts) = true
  /\ PyStr.strip "-" (_slugify parts) = _slugify parts.
Proof.
  unfold _slugify, PyStr.strip. cbv zeta.
  destruct (PyStr.nonempty (PyStr.join "-" (slug_tokens parts))) eqn:E;
    [ | split; reflexivity].
  split; [exact E | ].
  destruct (slug_tokens parts) as [|t ts] eqn:Et; [discriminate | ].
  destruct (join_trimmed (t :: ts)) as (_ & Hl & Hr);
    [rewrite <- Et; apply slug_tokens_trimmed | discriminate | ].
  now rewrite Hl, Hr.
Qed.

(** X25.  A slug has no two hyphens in a row, and slugging a slug gives
    it back: [_slugify] is idempotent. *)
Theorem slugify_idempotent (parts : list string) :
  hyphens_apart false (_slugify parts) = true
  /\ _slugify [_slugify parts] = _slugify parts.
Proof.
  split; [apply slugify_apart | ].
  destruct (slugify_trimmed parts) as (Hne & Hstrip).
  pose proof (slugify_chars parts) as Hchars.
  pose proof (slugify_apart parts) as Hap.
  set (s := _slugify parts) in *.
  unfold _slugify at 1. cbn [slug_tokens]. rewrite Hne. cbn [negb]. cbv zeta.
  unfold slug_token. rewrite (lower_slug _ Hchars), (sub_non_slug_fixed _ _ Hchars Hap).
  rewrite Hstrip, Hne. cbn [PyStr.join]. now rewrite Hne.
Qed.

(* ------------------------------------------------------------------ *)
(** ** Further properties: allocation and creation *)

Section AllocationMore.

Context {RT : Runtime}.

Lemma allocate_loop_least (fuel : nat) (st : store) (stem candidate : string) (k : nat)
  (found : string) :
  allocate_loop fuel st stem candidate k = Some (Ok found) ->
  (found = candidate /\ path_exists st (candidate ++ ".json") = Ok false)
  \/ exists j,
       (k <= j)%nat
       /\ found = stem ++ "-" ++ PyStr.of_nat j
       /\ path_exists st (candidate ++ ".json") = Ok true
       /\ (forall i, (k <= i < j)%nat -> path_exists st (candidate_file stem i) = Ok true)
       /\ path_exists st (candidate_file stem j) = Ok false.
Proof.
  revert candidate k. induction fuel as [|fuel IH]; intros candidate k;
    cbn [allocate_loop];
    destruct (path_exists st (candidate ++ ".json")) as [[|]| |] eqn:E;
    try discriminate; try (intros [= <-]; left; now split).
  intros H. right. apply IH in H as [[-> Hfree]|(j & Hj & -> & Hk & Hbelow & Hfree)].
  - exists k. split; [lia | ]. split; [reflexivity | ]. split; [reflexivity | ].
    split; [intros i Hi; lia | exact Hfree].
  - exists j. split; [lia | ]. split; [reflexivity | ]. split; [reflexivity | ].
    split; [ | exact Hfree].
    intros i Hi. destruct (Nat.eq_dec i k) as [->|Hne]; [exact Hk | apply Hbelow; lia].
Qed.

(** X3.  The allocator returns the plain name [<slug>-<id8>.json] when it
    is free; otherwise it returns the name with the least counter [k >= 1]
    that is free, every smaller candidate being taken.  The resource name is
    the file name with [.json] replaced by the prefix [flight-watch-]. *)
Theorem allocation_takes_first_free_name
  (st : store) (watch_id origin destination departure_date file_name resource_name : string) :
  _allocate_watch_file st watch_id origin destination departure_date
    = Ok (file_name, resource_name) ->
  let stem := allocation_stem watch_id origin destination departure_date in
  path_exists st file_name = Ok false
  /\ ((file_name = stem ++ ".json" /\ resource_name = "flight-watch-" ++ stem)
      \/ exists k,
           (1 <= k)%nat
           /\ file_name = candidate_file stem k
           /\ resource_name = "flight-watch-" ++ stem ++ "-" ++ PyStr.of_nat k
           /\ path_exists st (stem ++ ".json") = Ok true
           /\ forall i, (1 <= i < k)%nat -> path_exists st (candidate_file stem i) = Ok true).
Proof.
  intros H stem. pose proof (allocate_fresh _ _ _ _ _ _ _ H) as Hfree.
  split; [exact Hfree | ].
  unfold _allocate_watch_file in H. fold (allocation_stem watch_id origin destination
                                            departure_date) in H. fold stem in H.
  destruct (allocate_loop _ st stem stem 1) as [[c|e|]|] eqn:E; try discriminate.
  injection H as <- <-.
  apply allocate_loop_least in E as [[-> _]|(j & Hj & -> & Hk & Hbelow & _)].
  - left. now split.
  - right. exists j. repeat split; auto.
Qed.

Lemma lookup_absent_find (st : store) (rel : string) :
  lookup_path st rel = NoEntry -> find_file rel st = None.
Proof.
  unfold lookup_path.
  destruct (String.eqb rel EmptyString || String.eqb rel "." || String.eqb rel "..");
    [discriminate | ].
  destruct (PyStr.contains "/" rel || PyStr.contains "000" rel); [discriminate | ].
  now destruct (find_file rel st).
Qed.

Lemma put_file_absent (st : store) (name : string) (t : file_text) :
  find_file name st = None -> put_file name t st = (st ++ [(name, t)])%list.
Proof.
  induction st as [|[n t'] st IH]; simpl; [reflexivity | ].
  destruct (String.eqb n name); [discriminate | ]. intros H. now rewrite IH.
Qed.

(** What any create call does to the directory: nothing, or one new file. *)
Lemma handle_call_tool_writes (st : store) (session : bool) (uuid4_hex name : string)
  (arguments : option dict) :
  snd (handle_call_tool st session uuid4_hex name arguments) = st
  \/ exists file_name payload,
       find_file file_name st = None
       /\ snd (handle_call_tool st session uuid4_hex name arguments)
          = (st ++ [(file_name, JsonText (JObj payload))])%list.
Proof.
  unfold handle_call_tool.
  destruct (negb (String.eqb name "track_flight_price")); [now left | ].
  destruct (negb (forallb hashable _)); [now left | ].
  destruct (existsb is_none _); [now left | ].
  destruct (py_float _) as [price| |]; try (now left).
  destruct (_allocate_watch_file st _ _ _ _) as [[file_name resource_name]| |] eqn:Ea;
    try (now left).
  apply allocate_fresh, path_exists_false in Ea.
  rewrite (write_absent _ _ _ Ea).
  set (payload := dset "resource_name" _ _).
  right. exists file_name, payload. split; [apply lookup_absent_find, Ea | ].
  rewrite <- (put_file_absent st file_name _ (lookup_absent_find _ _ Ea)).
  destruct session; cbn [bind]; try reflexivity.
  destruct (is_none _); cbn [bind]; try reflexivity.
  destruct (py_float _); reflexivity.
Qed.

Lemma find_file_app (name : string) (a b : store) :
  find_file name (a ++ b)%list
  = match find_file name a with Some t => Some t | None => find_file name b end.
Proof.
  induction a as [|[n t] a IH]; simpl; [reflexivity | ].
  destruct (String.eqb n name); [reflexivity | exact IH].
Qed.

(** X4.  A create call never overwrites or removes a file: every file of
    the directory is still there afterwards with the same text, whatever the
    arguments and whether or not the call raises, and the directory grows by
    at most one file. *)
Theorem create_leaves_existing_files
  (st : store) (session : bool) (uuid4_hex name : string) (arguments : option dict) :
  (forall file, find_file file st <> None ->
     find_file file (snd (handle_call_tool st session uuid4_hex name arguments))
     = find_file file st)
  /\ (List.length (snd (handle_call_tool st session uuid4_hex name arguments))
      <= S (List.length st))%nat.
Proof.
  destruct (handle_call_tool_writes st session uuid4_hex name arguments)
    as [->|(f & p & Hf & ->)].
  - split; [reflexivity | lia].
  - split.
    + intros file Hfile. rewrite find_file_app.
      destruct (find_file file st); [reflexivity | contradiction].
    + rewrite length_app. simpl. lia.
Qed.

End AllocationMore.

Lemma drop_append (a b : string) : PyStr.drop (String.length a) (a ++ b) = b.
Proof. induction a as [|x a IH]; simpl; [now destruct b | exact IH]. Qed.

Lemma endswith_append (a t : string) : PyStr.endswith t (a ++ t) = true.
Proof.
  unfold PyStr.endswith. rewrite length_append.
  replace (String.length a + String.length t - String.length t)%nat
    with (String.length a) by lia.
  rewrite drop_append, String.eqb_refl.
  replace ((String.length t <=? String.length a + String.length t)%nat) with true
    by (symmetry; apply Nat.leb_le; lia).
  reflexivity.
Qed.

Lemma lookup_put_other (st : store) (name rel : string) (t : file_text) :
  rel <> name -> lookup_path (put_file name t st) rel = lookup_path st rel.
Proof. intros H. unfold lookup_path. now rewrite find_file_put_other. Qed.

Lemma scan_passes (watch_id : string) (before rest : store) :
  forallb (passed_over watch_id) before = true ->
  scan_for_watch watch_id (before ++ rest)%list = scan_for_watch watch_id rest.
Proof.
  induction before as [|[n t] before IH]; [reflexivity | ].
  cbn [forallb app]. intros H. apply andb_prop in H as [He Hb].
  unfold passed_over in He. cbn [snd] in He. cbn [scan_for_watch].
  destruct t as [|[| | | | | |payload]]; try discriminate; [now apply IH | ].
  apply negb_true_iff in He. rewrite He. now apply IH.
Qed.

Section CreateThenRead.

Context {RT : Runtime}.

Lemma hex_no_hyphen (watch_id : string) :
  all_chars hex_char watch_id = true -> PyStr.contains "-" watch_id = false.
Proof. apply all_chars_not_contains. reflexivity. Qed.

Lemma glob_after_create (st : store) (candidate : string) (t : file_text) :
  find_file (candidate ++ ".json") st = None ->
  glob_json (put_file (candidate ++ ".json") t st)
  = (glob_json st ++ [((candidate ++ ".json")%string, t)])%list.
Proof.
  intros H. rewrite (put_file_absent _ _ _ H). unfold glob_json.
  rewrite filter_app. cbn [filter fst]. now rewrite endswith_append.
Qed.

(** X5.  Create, then read: after a create call with acceptable arguments
    whose id is not yet used in the directory, the call returns a link whose
    URI is the encoding of the new file and whose name and meta data agree
    with the stored record; reading that URI returns the stored record
    verbatim, and subscribing to it succeeds.  A simulator is scheduled
    exactly when the request has a session. *)
Theorem created_record_is_readable
  (st : store) (session : bool) (uuid4_hex : string) (arguments : dict) (price : pyfloat) :
  Forall (fun c => all_chars uri_inert c = true) STORE_DIR ->
  forallb hashable (required_arguments arguments) = true ->
  existsb is_none (required_arguments arguments) = false ->
  py_float (dget_or_none "initial_price" arguments) = Ok price ->
  (session = false \/ dget_or_none "target_price" arguments = JNull
   \/ exists t, py_float (dget_or_none "target_price" arguments) = Ok t) ->
  all_chars hex_char uuid4_hex = true ->
  PyStr.nonempty uuid4_hex = true ->
  lookup_path st (uuid4_hex ++ ".json") = NoEntry ->
  forallb (passed_over uuid4_hex) (glob_json st) = true ->
  exists result st' file_name payload,
    handle_call_tool st session uuid4_hex "track_flight_price" (Some arguments)
    = (Ok result, st')
    /\ lookup_path st' file_name = Regular (JsonText (JObj payload))
    /\ link_uri (resource_link result) = _resource_uri file_name
    /\ dget "watch_id" payload = Some (JStr uuid4_hex)
    /\ dget "watch_id" (link_meta (resource_link result)) = Some (JStr uuid4_hex)
    /\ dget "file_name" (link_meta (resource_link result)) = Some (JStr file_name)
    /\ dget "resource_name" payload = Some (JStr (link_name (resource_link result)))
    /\ (scheduled result = None <-> session = false)
    /\ handle_read_resource st' (link_uri (resource_link result)) = Ok payload
    /\ handle_subscribe_resource st' (link_uri (resource_link result)) = Ok tt.
Proof.
  intros Hdir Hhash Hnone Hprice Htarget Hid Hne Hlegacy Hscan.
  set (o := py_str (dget_or_none "origin" arguments)).
  set (d := py_str (dget_or_none "destination" arguments)).
  set (dt := py_str (dget_or_none "departure_date" arguments)).
  destruct (allocate_total st uuid4_hex o d dt (hex_prefix_plain _ Hid))
    as [c [Hc [Hfree Hshape]]].
  apply path_exists_false in Hfree.
  set (payload := created_payload uuid4_hex c arguments price).
  set (st' := put_file (c ++ ".json") (JsonText (JObj payload)) st).
  assert (Hfile : lookup_path st' (c ++ ".json") = Regular (JsonText (JObj payload)))
    by (apply (lookup_after_write st), write_absent, Hfree).
  (* the link decodes to the id *)
  assert (Hinert : all_chars uri_inert (c ++ ".json") = true).
  { apply (allocated_name_inert (_slugify [o; d; dt]) uuid4_hex);
      [apply slugify_chars | exact Hid | exact Hshape]. }
  destruct (regular_is_component _ _ _ Hfile) as (Hnz & Hdot & _ & Hslash & _).
  assert (Hparse : _parse_watch_id st' (_resource_uri (c ++ ".json")) = Ok uuid4_hex).
  { rewrite (parse_of_file_name _ _ _ _
               (uri_file_name_resource_uri _ Hdir Hinert Hslash Hnz Hdot) Hfile).
    cbv zeta. change (dget_or_none "watch_id" payload) with (JStr uuid4_hex).
    cbn [truthy]. rewrite Hne. cbn [negb truthy]. now rewrite Hne. }
  (* the id is located in the new file *)
  assert (Hdiff : uuid4_hex ++ ".json" <> c ++ ".json").
  { intros Heq. apply append_inv_tail in Heq. subst c.
    pose proof (hex_no_hyphen _ Hid) as Hh.
    destruct Hshape as [E|[j E]]; rewrite E in Hh; unfold allocation_stem in Hh;
      rewrite ?append_assoc in Hh; rewrite contains_append in Hh;
      change ("-" ++ ?x) with (String "-" x) in Hh; cbn [PyStr.contains] in Hh;
      rewrite Ascii.eqb_refl in Hh; cbn [orb] in Hh;
      rewrite orb_true_r in Hh; discriminate. }
  assert (Hloc : _locate_watch_file st' uuid4_hex = Ok (c ++ ".json")).
  { unfold _locate_watch_file, path_exists.
    unfold st' at 1. rewrite (lookup_put_other _ _ _ _ Hdiff), Hlegacy. cbn [bind].
    unfold st'. rewrite (glob_after_create _ _ _ (lookup_absent_find _ _ Hfree)).
    rewrite (scan_passes _ _ _ Hscan). cbn [scan_for_watch].
    change (dget_or_none "watch_id" payload) with (JStr uuid4_hex).
    cbn [json_is_str]. now rewrite String.eqb_refl. }
  assert (Hload : _load_watch st' uuid4_hex = Ok payload).
  { rewrite (load_located _ _ _ _ Hloc (read_json_regular _ _ _ Hfile)).
    reflexivity. }
  (* the call itself *)
  assert (Hcall : exists result,
             handle_call_tool st session uuid4_hex "track_flight_price" (Some arguments)
             = (Ok result, st')
             /\ link_uri (resource_link result) = _resource_uri (c ++ ".json")
             /\ link_name (resource_link result) = "flight-watch-" ++ c
             /\ dget "watch_id" (link_meta (resource_link result)) = Some (JStr uuid4_hex)
             /\ dget "file_name" (link_meta (resource_link result))
                = Some (JStr (c ++ ".json"))
             /\ (scheduled result = None <-> session = false)).
  { unfold handle_call_tool. cbn [String.eqb Ascii.eqb Bool.eqb negb].
    unfold required_arguments in Hhash, Hnone. rewrite Hhash, Hnone. cbn [negb].
    rewrite Hprice. fold o d dt. rewrite Hc.
    rewrite (write_absent _ _ _ Hfree).
    fold (created_payload uuid4_hex c arguments price). fold payload. fold st'.
    destruct session.
    - destruct Htarget as [Hs|[Hn|[t Ht]]]; [discriminate | | ].
      + replace (is_none (dget_or_none "target_price" arguments)) with true
          by (rewrite Hn; reflexivity).
        cbn [bind]. eexists. split; [reflexivity | ].
        cbn. repeat split; try reflexivity; discriminate.
      + destruct (is_none (dget_or_none "target_price" arguments)); cbn [bind];
          rewrite ?Ht; cbn [bind]; (eexists; split; [reflexivity | ]);
          cbn; repeat split; try reflexivity; discriminate.
    - cbn [bind]. eexists. split; [reflexivity | ].
      cbn. repeat split; reflexivity. }
  destruct Hcall as (result & Hres & Huri & Hname & Hmid & Hmfile & Hsched).
  exists result, st', (c ++ ".json"), payload.
  split; [exact Hres | ]. split; [exact Hfile | ]. split; [exact Huri | ].
  split; [reflexivity | ]. split; [exact Hmid | ]. split; [exact Hmfile | ].
  split; [rewrite Hname; reflexivity | ]. split; [exact Hsched | ].
  rewrite Huri. unfold handle_read_resource, handle_subscribe_resource.
  rewrite Hparse. cbn [bind]. rewrite Hload. split; reflexivity.
Qed.

End CreateThenRead.

(* ------------------------------------------------------------------ *)
(** ** Further properties: the URI codec *)

Lemma replace_char_removes (a b : ascii) (s : string) :
  Ascii.eqb b a = false -> PyStr.contains a (PyStr.replace_char a b s) = false.
Proof.
  intros Hab. induction s as [|c s IH]; simpl; [reflexivity | ].
  rewrite IH, orb_false_r. destruct (Ascii.eqb c a) eqn:E; [exact Hab | exact E].
Qed.

Lemma replace_backslash_inj (s t : string) :
  PyStr.contains "/" s = false -> PyStr.contains "/" t = false ->
  PyStr.replace_char "\" "/" s = PyStr.replace_char "\" "/" t -> s = t.
Proof.
  revert t. induction s as [|c s IH]; intros [|d t]; simpl; try discriminate;
    [reflexivity | ].
  intros Hs Ht H. apply orb_false_elim in Hs as [Hc Hs].
  apply orb_false_elim in Ht as [Hd Ht]. injection H as Hcd H.
  f_equal; [ | now apply IH].
  destruct (Ascii.eqb c "\") eqn:Ec; destruct (Ascii.eqb d "\") eqn:Ed.
  - apply Ascii.eqb_eq in Ec, Ed. congruence.
  - subst d. discriminate.
  - subst c. discriminate.
  - exact Hcd.
Qed.

Section CodecMore.

Context {RT : Runtime}.

(** The absolute path [_resource_uri] starts from is the directory path
    followed by the file name. *)
Lemma join_store_dir (name : string) :
  exists front, forall n, PyStr.join "/" (STORE_DIR ++ [n])%list = front ++ n.
Proof.
  destruct STORE_DIR as [|d dir] eqn:E.
  - exists EmptyString. reflexivity.
  - exists (PyStr.join "/" (d :: dir) ++ "/"). intros n.
    rewrite join_snoc by discriminate. now rewrite append_assoc.
Qed.

Lemma resource_uri_unfold (name : string) :
  _resource_uri name
  = "file://" ++ String "/" (PyStr.replace_char "\" "/"
                               (PyStr.join "/" (STORE_DIR ++ [name])%list)).
Proof. reflexivity. Qed.

(** X6.  Encoding is injective on file names: two different files of the
    directory never get the same URI. *)
Theorem resource_uri_injective (name1 name2 : string) :
  PyStr.contains "/" name1 = false ->
  PyStr.contains "/" name2 = false ->
  _resource_uri name1 = _resource_uri name2 ->
  name1 = name2.
Proof.
  intros H1 H2 H. rewrite !resource_uri_unfold in H.
  apply append_inv_head in H. injection H as H.
  destruct (join_store_dir name1) as [front Hfront].
  rewrite !Hfront, !replace_char_append in H.
  apply append_inv_head in H. now apply replace_backslash_inj.
Qed.

(** X7.  Every URI the encoder produces starts with [file:///] and holds no
    backslash. *)
Theorem resource_uri_shape_always (name : string) :
  String.prefix "file:///" (_resource_uri name) = true
  /\ PyStr.contains "\" (_resource_uri name) = false.
Proof.
  rewrite resource_uri_unfold. split.
  - apply (prefix_append "file:///").
  - cbn [append PyStr.contains Ascii.eqb Bool.eqb orb].
    now apply replace_char_removes.
Qed.

(** The base name of a [file://] URI with an absolute path, whatever the
    directory part. *)
Lemma uri_file_name_any_directory (dir name : string) :
  all_chars uri_inert dir = true ->
  all_chars uri_inert name = true ->
  PyStr.contains "/" name = false ->
  name <> EmptyString -> name <> "." ->
  uri_file_name ("file://" ++ String "/" (dir ++ "/" ++ name)) = Ok name.
Proof.
  intros Hdir Hname Hslash Hne Hdot.
  assert (Hrest : all_chars uri_inert (dir ++ "/" ++ name) = true)
    by (rewrite !all_chars_append, Hdir, Hname; reflexivity).
  unfold uri_file_name. rewrite (urlparse_file_uri _ Hrest).
  cbn [bind scheme path PyStr.nonempty String.eqb Ascii.eqb Bool.eqb negb andb].
  rewrite unquote_inert.
  2:{ cbn [PyStr.contains Ascii.eqb Bool.eqb orb].
      apply inert_no_char; [reflexivity | exact Hrest]. }
  cbn [bind]. f_equal.
  pose proof (ends_in_append name dir Hslash) as Hend.
  destruct (dir ++ "/" ++ name) as [|x [|y tail]] eqn:E.
  - apply path_name_ends_in; auto. now apply ends_in_slash.
  - apply path_name_ends_in; auto. now apply ends_in_slash.
  - destruct (Ascii.eqb_spec y ":") as [->|Hy].
    + apply path_name_ends_in; auto.
    + replace (match String "/" (String x (String y tail)) with
               | String "/" (String _ (String ":" _) as t) => t
               | _ => String "/" (String x (String y tail))
               end) with (String "/" (String x (String y tail))).
      * apply path_name_ends_in; auto. now apply ends_in_slash.
      * destruct y as [[] [] [] [] [] [] [] []]; try reflexivity. now contradiction Hy.
Qed.

(** X8.  Decoding trusts only the base name of a URI: two [file://] URIs
    with the same base name and different directories decode alike on every
    store, a drive-letter prefix included. *)
Theorem decoding_ignores_directory (st : store) (dir1 dir2 name : string) :
  all_chars uri_inert dir1 = true ->
  all_chars uri_inert dir2 = true ->
  all_chars uri_inert name = true ->
  PyStr.contains "/" name = false ->
  name <> EmptyString -> name <> "." ->
  _parse_watch_id st ("file://" ++ String "/" (dir1 ++ "/" ++ name))
  = _parse_watch_id st ("file://" ++ String "/" (dir2 ++ "/" ++ name)).
Proof.
  intros H1 H2 Hname Hslash Hne Hdot. unfold _parse_watch_id.
  now rewrite !uri_file_name_any_directory.
Qed.

(** X10.  Reading or subscribing to a [file://] URI whose base name is not
    a file of the directory raises [FileNotFoundError], whatever directory
    the URI names; when the file is there but is not JSON, both raise
    [ValueError]. *)
Theorem unknown_base_name_is_not_found (st : store) (dir name : string) :
  all_chars uri_inert dir = true ->
  all_chars uri_inert name = true ->
  PyStr.contains "/" name = false ->
  name <> EmptyString -> name <> "." ->
  let uri := "file://" ++ String "/" (dir ++ "/" ++ name) in
  (lookup_path st name = NoEntry ->
   handle_read_resource st uri = Raise FileNotFoundError
   /\ handle_subscribe_resource st uri = Raise FileNotFoundError)
  /\ (lookup_path st name = Regular NotJson ->
      handle_read_resource st uri = Raise ValueError
      /\ handle_subscribe_resource st uri = Raise ValueError).
Proof.
  intros Hdir Hname Hslash Hne Hdot uri.
  pose proof (uri_file_name_any_directory dir name Hdir Hname Hslash Hne Hdot) as Hfn.
  fold uri in Hfn.
  unfold handle_read_resource, handle_subscribe_resource, _parse_watch_id.
  rewrite Hfn. cbn [bind]. unfold path_exists, read_json.
  split; intros ->; cbn [bind negb]; split; reflexivity.
Qed.

Lemma scheme_char_code (c : ascii) : scheme_char c = true -> (43 <= PyStr.code c)%nat.
Proof.
  unfold scheme_char, PyStr.is_alpha, PyStr.is_lower, PyStr.is_upper, PyStr.is_digit,
    PyStr.in_range.
  intros H. repeat (apply orb_true_iff in H as [H|H]).
  - apply andb_prop in H as [H _]. apply Nat.leb_le in H. lia.
  - apply andb_prop in H as [H _]. apply Nat.leb_le in H. lia.
  - apply andb_prop in H as [H _]. apply Nat.leb_le in H. lia.
  - apply Ascii.eqb_eq in H. subst. cbv. lia.
  - apply Ascii.eqb_eq in H. subst. cbv. lia.
  - apply Ascii.eqb_eq in H. subst. cbv. lia.
Qed.

Lemma scheme_char_not_colon (c : ascii) : scheme_char c = true -> Ascii.eqb c ":" = false.
Proof. intros H. destruct (Ascii.eqb_spec c ":") as [->|]; [discriminate | reflexivity]. Qed.

Lemma remove_unsafe_scheme (s rest : string) :
  all_chars scheme_char s = true ->
  remove_unsafe (s ++ rest) = s ++ remove_unsafe rest.
Proof.
  induction s as [|c s IH]; [reflexivity | ]. cbn [all_chars append remove_unsafe].
  intros H. apply andb_prop in H as [Hc Hs]. apply scheme_char_code in Hc.
  replace ((PyStr.code c =? 9)%nat) with false by (symmetry; apply Nat.eqb_neq; lia).
  replace ((PyStr.code c =? 10)%nat) with false by (symmetry; apply Nat.eqb_neq; lia).
  replace ((PyStr.code c =? 13)%nat) with false by (symmetry; apply Nat.eqb_neq; lia).
  cbn [orb]. now rewrite IH.
Qed.

Lemma find_colon_scheme (s rest : string) :
  all_chars scheme_char s = true ->
  PyStr.find ":" (s ++ String ":" rest) = Some (String.length s).
Proof.
  induction s as [|c s IH]; [reflexivity | ]. cbn [all_chars append PyStr.find String.length].
  intros H. apply andb_prop in H as [Hc Hs].
  now rewrite (scheme_char_not_colon _ Hc), (IH Hs).
Qed.

Lemma drop_past_colon (s rest : string) :
  PyStr.drop (S (String.length s)) (s ++ String ":" rest) = rest.
Proof. induction s as [|c s IH]; [now destruct rest | exact IH]. Qed.

Lemma split_scheme_found (s rest : string) :
  scheme_text s = true ->
  split_scheme (s ++ String ":" rest) = (PyStr.lower s, rest).
Proof.
  destruct s as [|c s]; [discriminate | ]. cbn [scheme_text].
  intros H. apply andb_prop in H as [Ha Hs]. unfold split_scheme.
  rewrite (find_colon_scheme _ _ Hs). cbn [String.length append].
  change (String c (s ++ String ":" rest)) with (String c s ++ String ":" rest).
  rewrite (take_append (String c s)), Ha, Hs. cbn [andb].
  now rewrite (drop_past_colon (String c s)).
Qed.

Lemma urlparse_scheme (s rest : string) :
  scheme_text s = true ->
  urlparse (s ++ ":" ++ rest) = Raise ValueError
  \/ exists parsed, urlparse (s ++ ":" ++ rest) = Ok parsed
                    /\ scheme parsed = PyStr.lower s.
Proof.
  intros Hs. unfold urlparse.
  assert (Hstrip : lstrip_c0 (s ++ ":" ++ rest) = s ++ ":" ++ rest).
  { destruct s as [|c s]; [discriminate | ]. cbn [scheme_text] in Hs.
    apply andb_prop in Hs as [_ Hs]. cbn [all_chars] in Hs.
    apply andb_prop in Hs as [Hc _]. apply scheme_char_code in Hc.
    cbn [append lstrip_c0].
    replace ((PyStr.code c <=? 32)%nat) with false by (symmetry; apply Nat.leb_gt; lia).
    reflexivity. }
  rewrite Hstrip.
  assert (Hall : all_chars scheme_char s = true).
  { destruct s; [discriminate | ]. cbn [scheme_text] in Hs.
    now apply andb_prop in Hs as [_ Hs]. }
  rewrite (remove_unsafe_scheme _ _ Hall).
  change (remove_unsafe (":" ++ rest)) with (String ":" (remove_unsafe rest)).
  rewrite (split_scheme_found _ _ Hs).
  destruct (match remove_unsafe rest with
            | String "/" (String "/" r) => splitnetloc r
            | _ => (EmptyString, remove_unsafe rest)
            end) as [nl url].
  destruct (PyStr.nonempty nl && negb (netloc_ok nl)); [now left | ].
  right.
  destruct (match PyStr.split_first "#" url with
            | Some (u, f) => (u, f) | None => (url, EmptyString) end) as [url1 fr].
  destruct (match PyStr.split_first "?" url1 with
            | Some (u, q) => (u, q) | None => (url1, EmptyString) end) as [url2 qu].
  destruct (if existsb (String.eqb (PyStr.lower s)) uses_params && PyStr.contains ";" url2
            then _splitparams url2 else (url2, EmptyString)) as [url3 pa].
  eexists. split; reflexivity.
Qed.

(** X9.  A URI whose scheme is anything but [file] (in any letter case) is
    refused with [ValueError] by decoding, reading and subscribing, without
    the store being consulted. *)
Theorem foreign_scheme_is_rejected (st : store) (s rest : string) :
  scheme_text s = true ->
  PyStr.lower s <> "file" ->
  _parse_watch_id st (s ++ ":" ++ rest) = Raise ValueError
  /\ handle_read_resource st (s ++ ":" ++ rest) = Raise ValueError
  /\ handle_subscribe_resource st (s ++ ":" ++ rest) = Raise ValueError.
Proof.
  intros Hs Hfile.
  assert (H : _parse_watch_id st (s ++ ":" ++ rest) = Raise ValueError).
  { unfold _parse_watch_id, uri_file_name.
    destruct (urlparse_scheme s rest Hs) as [->|(parsed & -> & Hp)]; [reflexivity | ].
    cbn [bind]. rewrite Hp.
    replace (PyStr.nonempty (PyStr.lower s)) with true by (destruct s; [discriminate | reflexivity]).
    destruct (String.eqb_spec (PyStr.lower s) "file"); [contradiction | reflexivity]. }
  unfold handle_read_resource, handle_subscribe_resource. rewrite H. auto.
Qed.

End CodecMore.

(* ------------------------------------------------------------------ *)
(** ** Further properties: locating a record *)

Lemma scan_not_found (watch_id : string) (entries : store) :
  scan_for_watch watch_id entries = Raise FileNotFoundError
  <-> forallb (passed_over watch_id) entries = true.
Proof.
  induction entries as [|[n t] entries IH]; cbn [scan_for_watch forallb]; [tauto | ].
  unfold passed_over at 1. cbn [snd].
  destruct t as [|[| | | | | |payload]]; cbn [andb]; try exact IH;
    try (split; discriminate).
  destruct (json_is_str (dget_or_none "watch_id" payload) watch_id); cbn [negb andb];
    [split; discriminate | exact IH].
Qed.

Section LocateMore.

Context {RT : Runtime}.

(** X11.  Without a file [<id>.json], the record is looked for in
    enumeration order: files that are not JSON and records with another id
    are passed over, the first record carrying the id is returned, and a
    JSON document that is not an object met before it raises
    [AttributeError]. *)
Theorem locate_scans_in_order
  (st before after : store) (watch_id : string) (e : string * file_text) :
  lookup_path st (watch_id ++ ".json") = NoEntry ->
  glob_json st = (before ++ e :: after)%list ->
  forallb (passed_over watch_id) before = true ->
  passed_over watch_id e = false ->
  _locate_watch_file st watch_id
  = match snd e with
    | JsonText (JObj _) => Ok (fst e)
    | _ => Raise AttributeError
    end.
Proof.
  intros Hlegacy Hglob Hbefore He. unfold _locate_watch_file, path_exists.
  rewrite Hlegacy. cbn [bind]. rewrite Hglob, (scan_passes _ _ _ Hbefore).
  destruct e as [n t]. unfold passed_over in He. cbn [snd fst] in *.
  cbn [scan_for_watch].
  destruct t as [|[| | | | | |payload]]; try discriminate; try reflexivity.
  apply negb_false_iff in He. now rewrite He.
Qed.

(** X12.  Without a file [<id>.json], locating an id raises
    [FileNotFoundError] exactly when every [*.json] file is passed over, and
    then loading, reading and subscribing fail the same way. *)
Theorem unknown_id_is_not_found (st : store) (watch_id : string) :
  lookup_path st (watch_id ++ ".json") = NoEntry ->
  (_locate_watch_file st watch_id = Raise FileNotFoundError
   <-> forallb (passed_over watch_id) (glob_json st) = true)
  /\ (forallb (passed_over watch_id) (glob_json st) = true ->
      _load_watch st watch_id = Raise FileNotFoundError).
Proof.
  intros Hlegacy.
  assert (H : _locate_watch_file st watch_id = scan_for_watch watch_id (glob_json st)).
  { unfold _locate_watch_file, path_exists. now rewrite Hlegacy. }
  split.
  - rewrite H. apply scan_not_found.
  - intros Hall. unfold _load_watch. rewrite H.
    now rewrite (proj2 (scan_not_found _ _) Hall).
Qed.

End LocateMore.

(* ------------------------------------------------------------------ *)
(** ** Further properties: the simulator and the directory *)

Lemma find_file_put_some (name name' : string) (t : file_text) (st : store) :
  find_file name st <> None -> find_file name (put_file name' t st) <> None.
Proof.
  intros H. destruct (String.eqb_spec name name') as [->|Hne].
  - now rewrite find_file_put_same.
  - now rewrite find_file_put_other.
Qed.

Lemma path_exists_put (st : store) (name rel : string) (t0 t : file_text) :
  find_file name st = Some t0 ->
  path_exists (put_file name t st) rel = path_exists st rel.
Proof.
  intros H. unfold path_exists, lookup_path.
  destruct (String.eqb rel EmptyString || String.eqb rel "." || String.eqb rel "..");
    [reflexivity | ].
  destruct (PyStr.contains "/" rel || PyStr.contains "000" rel); [reflexivity | ].
  destruct (String.eqb_spec rel name) as [->|Hne].
  - now rewrite find_file_put_same, H.
  - now rewrite find_file_put_other.
Qed.

(** Rewriting a record without touching its [watch_id] does not change
    what the fallback scan finds. *)
Lemma scan_put_same (watch_id name : string) (old new : dict) (st : store) :
  find_file name st = Some (JsonText (JObj old)) ->
  dget_or_none "watch_id" new = dget_or_none "watch_id" old ->
  scan_for_watch watch_id (glob_json (put_file name (JsonText (JObj new)) st))
  = scan_for_watch watch_id (glob_json st).
Proof.
  intros Hfind Hid. induction st as [|[n t] st IH]; [discriminate | ].
  cbn [find_file] in Hfind. cbn [put_file].
  destruct (String.eqb_spec n name) as [->|Hne].
  - injection Hfind as ->. unfold glob_json. cbn [filter fst].
    destruct (PyStr.endswith ".json" name); [ | reflexivity].
    cbn [scan_for_watch]. now rewrite Hid.
  - unfold glob_json in *. cbn [filter fst].
    destruct (PyStr.endswith ".json" n); [ | now apply IH].
    cbn [scan_for_watch]. rewrite (IH Hfind). reflexivity.
Qed.

Section SimulatorMore.

Context {RT : Runtime}.

Lemma locate_put_same (st : store) (watch_id name : string) (old new : dict) :
  find_file name st = Some (JsonText (JObj old)) ->
  dget_or_none "watch_id" new = dget_or_none "watch_id" old ->
  _locate_watch_file (put_file name (JsonText (JObj new)) st) watch_id
  = _locate_watch_file st watch_id.
Proof.
  intros Hfind Hid. unfold _locate_watch_file.
  rewrite (path_exists_put _ _ _ _ _ Hfind).
  now rewrite (scan_put_same _ _ _ _ _ Hfind Hid).
Qed.

Lemma ticked_other (target : option pyfloat) (new_price : number) (origin destination : json)
  (history : list json) (payload : dict) (k : string) :
  k <> "history" -> k <> "status" -> k <> "summary" ->
  dget k (ticked target new_price origin destination history payload) = dget k payload.
Proof.
  intros H1 H2 H3. unfold ticked.
  rewrite decide_status_other by assumption. now apply dget_dset_other.
Qed.

Lemma tick_field_false (k : string) :
  tick_field k = false ->
  k <> "history" /\ k <> "status" /\ k <> "summary" /\ k <> "file_name".
Proof.
  unfold tick_field. intros H.
  apply orb_false_elim in H as [H H4]. apply orb_false_elim in H as [H H3].
  apply orb_false_elim in H as [H1 H2].
  repeat split; intros ->; discriminate.
Qed.

(** An iteration that does not report an update leaves the store alone. *)
Lemma tick_failed_store (st st' : store) (watch_id : string) (target : option pyfloat)
  (draw : Z) (r : result tick_outcome) :
  tick st watch_id target draw = (r, st') ->
  (forall saved, r <> Ok (Updated saved)) ->
  st' = st.
Proof.
  unfold tick.
  destruct (_load_watch st watch_id) as [payload| |]; try (now intros [= <- <-]).
  destruct (negb (hashable (dget_or_none "status" payload))); try (now intros [= <- <-]).
  destruct (json_is_str _ "notified" || json_is_str _ "cancelled");
    try (now intros [= <- <-]).
  destruct (current_price_of payload) as [current| |]; try (now intros [= <- <-]).
  cbv zeta.
  destruct (add_delta current (randint (-40) 20 draw)) as [moved| |];
    try (now intros [= <- <-]).
  destruct (dget "history" payload) as [[| | | | |history|]|]; try (now intros [= <- <-]).
  destruct (dget "origin" _) as [origin|]; try (now intros [= <- <-]).
  destruct (dget "destination" _) as [destination|]; try (now intros [= <- <-]).
  destruct (_save_watch st watch_id _) as [[saved| |] st1] eqn:Hs; intros [= <- <-] Hr.
  - now contradiction (Hr saved).
  - apply save_store in Hs as [[_ ->]|(? & ? & [=] & _)]. reflexivity.
  - apply save_store in Hs as [[_ ->]|(? & ? & [=] & _)]. reflexivity.
Qed.

Lemma tick_stopped_inv (st st' : store) (watch_id : string) (target : option pyfloat) (draw : Z) :
  tick st watch_id target draw = (Ok Stopped, st') ->
  st' = st /\ exists payload, _load_watch st watch_id = Ok payload
                              /\ is_terminal payload = true.
Proof.
  intros H. split; [apply (tick_failed_store _ _ _ _ _ _ H); discriminate | ].
  revert H. unfold tick.
  destruct (_load_watch st watch_id) as [payload| |]; try discriminate.
  destruct (negb (hashable (dget_or_none "status" payload))); try discriminate.
  fold (is_terminal payload). destruct (is_terminal payload) eqn:Ht.
  - intros _. now exists payload.
  - destruct (current_price_of payload) as [current| |]; try discriminate.
    cbv zeta.
    destruct (add_delta current (randint (-40) 20 draw)) as [moved| |]; try discriminate.
    destruct (dget "history" payload) as [[| | | | |history|]|]; try discriminate.
    destruct (dget "origin" _) as [origin|]; try discriminate.
    destruct (dget "destination" _) as [destination|]; try discriminate.
    destruct (_save_watch st watch_id _) as [[saved| |] st1]; discriminate.
Qed.

(** X13.  An iteration rewrites the record it loaded and nothing else of
    it: every field other than [history], [status], [summary] and
    [file_name] is persisted with the value it was loaded with, and the
    record persisted is the one reported. *)
Theorem tick_preserves_other_fields
  (st st' : store) (watch_id : string) (target : option pyfloat) (draw : Z) (saved : dict) :
  tick st watch_id target draw = (Ok (Updated saved), st') ->
  exists payload name,
    _load_watch st watch_id = Ok payload
    /\ lookup_path st' name = Regular (JsonText (JObj saved))
    /\ forall k, tick_field k = false -> dget k saved = dget k payload.
Proof.
  intros Htick.
  apply tick_updated_inv in Htick
    as (payload & history & current & moved & o & d & Hl & _ & _ & _ & _ & Hsave).
  apply save_store in Hsave as [[Hno _]|(name & saved' & [= <-] & _ & Hlook & Hsaved)].
  - now contradiction (Hno saved).
  - exists payload, name. split; [exact Hl | ]. split; [exact Hlook | ].
    intros k Hk. apply tick_field_false in Hk as (H1 & H2 & H3 & H4).
    destruct Hsaved as [->|[v ->]].
    + now apply ticked_other.
    + rewrite dget_dset_other by exact H4. now apply ticked_other.
Qed.

(** What an iteration does on a directory whose records carry the names of
    their files. *)
Lemma tick_named (st st' : store) (watch_id : string) (target : option pyfloat) (draw : Z)
  (saved : dict) :
  store_named st ->
  tick st watch_id target draw = (Ok (Updated saved), st') ->
  exists name stored,
    _locate_watch_file st watch_id = Ok name
    /\ find_file name st = Some (JsonText (JObj stored))
    /\ st' = put_file name (JsonText (JObj saved)) st
    /\ lookup_path st' name = Regular (JsonText (JObj saved))
    /\ dget "file_name" saved = Some (JStr name)
    /\ dget_or_none "watch_id" saved = dget_or_none "watch_id" stored
    /\ forall k, tick_field k = false ->
                 dget k saved = dget k (with_defaults name stored).
Proof.
  intros Hnamed Htick.
  apply tick_updated_inv in Htick
    as (payload & history & current & moved & o & d & Hl & _ & _ & _ & _ & Hsave).
  unfold _load_watch in Hl.
  destruct (_locate_watch_file st watch_id) as [name| |] eqn:Hloc; try discriminate.
  cbn [bind] in Hl.
  destruct (read_json st name) as [[| | | | | |stored]| |] eqn:Hread; try discriminate.
  cbn [bind] in Hl. fold (with_defaults name stored) in Hl. injection Hl as <-.
  pose proof (Hnamed _ _ (read_json_in _ _ _ Hread)) as Hfile.
  assert (Hreg : lookup_path st name = Regular (JsonText (JObj stored))).
  { unfold read_json in Hread.
    destruct (lookup_path st name) as [| |[|j]|]; try discriminate. now injection Hread as ->. }
  pose proof (regular_is_component _ _ _ Hreg) as (Hne & _ & _ & _ & Hfind).
  set (new := ticked target (py_max moved (NInt 50)) o d history (with_defaults name stored))
    in *.
  assert (Hfn : dget "file_name" new = Some (JStr name)).
  { unfold new. rewrite ticked_other by discriminate. now apply with_defaults_keeps. }
  unfold _save_watch, dget_or_none in Hsave. rewrite Hfn in Hsave.
  replace (truthy (JStr name)) with true in Hsave
    by (destruct name; [now contradiction Hne | reflexivity]).
  unfold _write_watch_file in Hsave. rewrite Hreg in Hsave. cbn [bind] in Hsave.
  injection Hsave as <- <-.
  exists name, stored. split; [reflexivity | ]. split; [exact Hfind | ].
  split; [reflexivity | ].
  split.
  { unfold lookup_path in *.
    destruct (String.eqb name EmptyString || String.eqb name "." || String.eqb name "..");
      [discriminate | ].
    destruct (PyStr.contains "/" name || PyStr.contains "000" name); [discriminate | ].
    now rewrite find_file_put_same. }
  split; [exact Hfn | ]. split.
  - unfold dget_or_none, new. rewrite ticked_other by discriminate.
    now rewrite with_defaults_other by discriminate.
  - intros k Hk. apply tick_field_false in Hk as (H1 & H2 & H3 & _).
    unfold new. now apply ticked_other.
Qed.

Lemma store_named_put (st : store) (name : string) (payload : dict) :
  store_named st -> dget "file_name" payload = Some (JStr name) ->
  store_named (put_file name (JsonText (JObj payload)) st).
Proof.
  intros Hst Hp n p Hin. apply in_put_file in Hin as [[= <- <-]|Hin]; [exact Hp | ].
  exact (Hst _ _ Hin).
Qed.

Lemma tick_keeps_named (st : store) (watch_id : string) (target : option pyfloat) (draw : Z) :
  store_named st -> store_named (snd (tick st watch_id target draw)).
Proof.
  intros Hst. destruct (tick st watch_id target draw) as [r st'] eqn:E. cbn [snd].
  destruct r as [[|saved]| |];
    try (rewrite (tick_failed_store _ _ _ _ _ _ E); [exact Hst | discriminate]).
  destruct (tick_named _ _ _ _ _ _ Hst E) as (name & stored & _ & _ & -> & _ & Hfn & _).
  now apply store_named_put.
Qed.

Lemma create_keeps_named (st : store) (session : bool) (uuid4_hex name : string)
  (arguments : option dict) :
  store_named st ->
  store_named (snd (handle_call_tool st session uuid4_hex name arguments)).
Proof.
  intros Hst. unfold handle_call_tool.
  destruct (negb (String.eqb name "track_flight_price")); [exact Hst | ].
  destruct (negb (forallb hashable _)); [exact Hst | ].
  destruct (existsb is_none _); [exact Hst | ].
  destruct (py_float _) as [price| |]; try exact Hst.
  destruct (_allocate_watch_file st _ _ _ _) as [[file_name resource_name]| |];
    try exact Hst.
  destruct (_write_watch_file st file_name _) as [w st1] eqn:E.
  assert (Hst1 : store_named st1).
  { apply write_store in E as [(_ & -> & _)|[_ ->]]; [ | exact Hst].
    apply store_named_put; [exact Hst | ].
    rewrite dget_dset_other by discriminate. apply dget_dset_same. }
  destruct w as [[]| |]; try exact Hst1.
  destruct session; cbn [bind]; try exact Hst1.
  destruct (is_none _); cbn [bind]; try exact Hst1.
  destruct (py_float _); exact Hst1.
Qed.

(** X14.  On a directory whose records carry the names of their own files,
    every create call and every simulator iteration keeps it so, hence every
    run of the engine: no record is ever written under another file's name. *)
Theorem records_keep_their_file_name (st0 st : store) :
  store_named st0 -> engine_run st0 st -> store_named st.
Proof.
  intros H0 Hrun. induction Hrun as [st|st st' st'' Hstep _ IH]; [exact H0 | ].
  apply IH. destruct Hstep.
  - now apply create_keeps_named.
  - now apply tick_keeps_named.
Qed.

(** X15.  No run of the engine removes a file: a name present in the
    directory stays present. *)
Theorem engine_never_deletes (st0 st : store) (name : string) :
  engine_run st0 st -> find_file name st0 <> None -> find_file name st <> None.
Proof.
  intros Hrun. induction Hrun as [st|st st' st'' Hstep _ IH]; [auto | ].
  intros H. apply IH. destruct Hstep.
  - destruct (handle_call_tool_writes st session uuid4_hex name0 arguments)
      as [->|(f & p & _ & ->)]; [exact H | ].
    rewrite find_file_app. now destruct (find_file name st).
  - destruct (tick_store st watch_id target_price draw)
      as [->|(n & p & h & np & s & _ & _ & _ & ->)]; [exact H | ].
    now apply find_file_put_some.
Qed.

(** X16.  On a directory whose records carry the names of their own files,
    the simulator of a watch writes the file its id resolves to and no
    other, however many iterations it runs: every other file keeps its
    text, and the id keeps resolving to the same file. *)
Theorem simulator_writes_one_file
  (st : store) (watch_id : string) (target : option pyfloat) (draws : list Z) :
  store_named st ->
  let st' := snd (_simulate_price_updates st watch_id target draws) in
  _locate_watch_file st' watch_id = _locate_watch_file st watch_id
  /\ forall other,
       _locate_watch_file st watch_id <> Ok other ->
       find_file other st' = find_file other st.
Proof.
  revert st. induction draws as [|draw draws IH]; intros st Hst; cbn zeta.
  - now split.
  - cbn [_simulate_price_updates].
    destruct (tick st watch_id target draw) as [r st1] eqn:E.
    destruct r as [[|saved]| |];
      try (rewrite (tick_failed_store _ _ _ _ _ _ E) by discriminate; now split).
    destruct (tick_named _ _ _ _ _ _ Hst E)
      as (name & stored & Hloc & Hfind & -> & _ & Hfn & Hid & _).
    assert (Hloc1 : _locate_watch_file (put_file name (JsonText (JObj saved)) st) watch_id
                    = _locate_watch_file st watch_id)
      by now apply (locate_put_same _ _ _ stored).
    assert (Hother : forall other, _locate_watch_file st watch_id <> Ok other ->
              find_file other (put_file name (JsonText (JObj saved)) st)
              = find_file other st).
    { intros other Ho. apply find_file_put_other. intros ->. now apply Ho. }
    destruct (is_notified saved); cbn [snd]; [now split | ].
    destruct (IH _ (store_named_put _ _ _ Hst Hfn)) as [H1 H2]. split.
    + now rewrite H1.
    + intros other Ho. rewrite H2 by now rewrite Hloc1. now apply Hother.
Qed.

(** X17.  On a directory whose records carry the names of their own files,
    the simulator ends only on a terminal record: when it returns, the
    record its id loads has status [notified] or [cancelled]. *)
Theorem simulator_ends_on_terminal_record
  (st st' : store) (watch_id : string) (target : option pyfloat) (draws : list Z) :
  store_named st ->
  _simulate_price_updates st watch_id target draws = (Finished, st') ->
  exists payload, _load_watch st' watch_id = Ok payload /\ is_terminal payload = true.
Proof.
  revert st. induction draws as [|draw draws IH]; intros st Hst;
    cbn [_simulate_price_updates]; [discriminate | ].
  destruct (tick st watch_id target draw) as [r st1] eqn:E.
  destruct r as [[|saved]| |]; try discriminate.
  - intros [= <-]. now destruct (tick_stopped_inv _ _ _ _ _ E) as [-> H].
  - destruct (tick_named _ _ _ _ _ _ Hst E)
      as (name & stored & Hloc & Hfind & -> & Hlook & Hfn & Hid & _).
    destruct (is_notified saved) eqn:Hn.
    + intros [= <-]. exists (with_defaults name saved). split.
      * apply load_located; [ | now apply read_json_regular].
        now rewrite (locate_put_same _ _ _ stored).
      * unfold is_terminal, is_notified, dget_or_none in *.
        destruct (dget "status" saved) as [v|] eqn:Hs; [ | discriminate].
        now rewrite (with_defaults_keeps _ _ _ _ Hs), Hn.
    + apply IH. now apply store_named_put.
Qed.

End SimulatorMore.

(* ------------------------------------------------------------------ *)
(** ** Further properties: saving and loading *)

Section SaveFacts.

Context {RT : Runtime}.

(** X26.  Saving under an id and loading that id again is a round trip.
    On a directory whose records carry the names of their own files, a
    record that was loaded under an id, with any fields changed other than
    [watch_id], is saved into the file it was loaded from and is what the
    id loads afterwards; a record whose [file_name] was dropped gets it
    back from the file the id resolves to. *)
Theorem saved_record_is_loaded
  (st : store) (watch_id : string) (loaded payload : dict) :
  store_named st ->
  _load_watch st watch_id = Ok loaded ->
  dget "file_name" payload = dget "file_name" loaded
    \/ truthy (dget_or_none "file_name" payload) = false ->
  dget_or_none "watch_id" payload = dget_or_none "watch_id" loaded ->
  dget "resource_name" payload <> None ->
  exists saved st' name,
    _save_watch st watch_id payload = (Ok saved, st')
    /\ _locate_watch_file st watch_id = Ok name
    /\ st' = put_file name (JsonText (JObj saved)) st
    /\ _load_watch st' watch_id = Ok saved
    /\ dget "file_name" saved = Some (JStr name)
    /\ forall k, k <> "file_name" -> dget k saved = dget k payload.
Proof.
  intros Hnamed Hl Hfile Hid Hres. unfold _load_watch in Hl.
  destruct (_locate_watch_file st watch_id) as [name| |] eqn:Hloc; try discriminate.
  cbn [bind] in Hl.
  destruct (read_json st name) as [[| | | | | |stored]| |] eqn:Hread; try discriminate.
  cbn [bind] in Hl. fold (with_defaults name stored) in Hl. injection Hl as <-.
  pose proof (Hnamed _ _ (read_json_in _ _ _ Hread)) as Hstored.
  assert (Hreg : lookup_path st name = Regular (JsonText (JObj stored))).
  { unfold read_json in Hread.
    destruct (lookup_path st name) as [| |[|j]|]; try discriminate.
    now injection Hread as ->. }
  pose proof (regular_is_component _ _ _ Hreg) as (Hne & Hdot & _ & Hslash & Hfind).
  rewrite (with_defaults_keeps _ _ _ _ Hstored) in Hfile.
  unfold dget_or_none in Hid. rewrite with_defaults_other in Hid by discriminate.
  fold (dget_or_none "watch_id" stored) in Hid. fold (dget_or_none "watch_id" payload) in Hid.
  assert (Hnonempty : truthy (JStr name) = true)
    by (destruct name; [now contradiction Hne | reflexivity]).
  assert (Hafter : forall saved,
             dget "file_name" saved = Some (JStr name) ->
             dget_or_none "watch_id" saved = dget_or_none "watch_id" payload ->
             dget "resource_name" saved <> None ->
             lookup_path (put_file name (JsonText (JObj saved)) st) name
             = Regular (JsonText (JObj saved))
             /\ _load_watch (put_file name (JsonText (JObj saved)) st) watch_id = Ok saved).
  { intros saved Hf Hw Hr.
    assert (Hlook : lookup_path (put_file name (JsonText (JObj saved)) st) name
                    = Regular (JsonText (JObj saved))).
    { unfold lookup_path in *.
      destruct (String.eqb name EmptyString || String.eqb name "." || String.eqb name "..");
        [discriminate | ].
      destruct (PyStr.contains "/" name || PyStr.contains "000" name); [discriminate | ].
      now rewrite find_file_put_same. }
    split; [exact Hlook | ].
    rewrite (load_located _ _ name saved).
    - destruct (dget "resource_name" saved) as [r|] eqn:Er; [ | contradiction].
      now rewrite (with_defaults_complete _ _ _ _ Hf Er).
    - rewrite (locate_put_same _ _ _ stored); [exact Hloc | exact Hfind | ].
      now rewrite Hw.
    - now apply read_json_regular. }
  unfold _save_watch.
  destruct Hfile as [Hsame|Hfalsy].
  - unfold dget_or_none at 1 2. rewrite Hsame, Hnonempty.
    unfold _write_watch_file. rewrite Hreg. cbn [bind].
    exists payload, (put_file name (JsonText (JObj payload)) st), name.
    destruct (Hafter payload Hsame eq_refl Hres) as [_ Hload].
    repeat (split; [reflexivity || assumption | ]). reflexivity.
  - rewrite Hfalsy, Hloc.
    rewrite (path_name_ends_in name name Hne Hdot (ends_in_self _ Hslash)).
    unfold _write_watch_file. rewrite Hreg. cbn [bind].
    set (saved := dset "file_name" (JStr name) payload).
    exists saved, (put_file name (JsonText (JObj saved)) st), name.
    assert (Hf : dget "file_name" saved = Some (JStr name)) by apply dget_dset_same.
    destruct (Hafter saved Hf) as [_ Hload].
    + unfold dget_or_none, saved. now rewrite dget_dset_other by discriminate.
    + unfold saved. now rewrite dget_dset_other by discriminate.
    + repeat (split; [reflexivity || assumption | ]).
      intros k Hk. unfold saved. now apply dget_dset_other.
Qed.

End SaveFacts.

(* ------------------------------------------------------------------ *)
(** ** Further properties: the listing *)

Lemma string_leb_trans (a b c : string) :
  String.leb a b = true -> String.leb b c = true -> String.leb a c = true.
Proof.
  unfold String.leb. revert b c.
  induction a as [|x a IH]; intros [|y b] [|z c]; cbn [String.compare];
    try discriminate; try reflexivity.
  unfold Ascii.compare.
  destruct (N.compare_spec (N_of_ascii x) (N_of_ascii y)) as [Hxy|Hxy|Hxy];
    destruct (N.compare_spec (N_of_ascii y) (N_of_ascii z)) as [Hyz|Hyz|Hyz];
    destruct (N.compare_spec (N_of_ascii x) (N_of_ascii z)) as [Hxz|Hxz|Hxz];
    try discriminate; try reflexivity; try lia.
  apply IH.
Qed.

Lemma string_leb_false (a b : string) : String.leb a b = false -> String.leb b a = true.
Proof. intros H. destruct (String.leb_total a b); congruence. Qed.

Lemma insert_by_name_perm (e : string * file_text) (sorted : store) :
  Permutation (insert_by_name e sorted) (e :: sorted).
Proof.
  induction sorted as [|x sorted IH]; cbn [insert_by_name]; [reflexivity | ].
  destruct (String.leb (fst e) (fst x)); [reflexivity | ].
  rewrite IH. apply perm_swap.
Qed.

Lemma sorted_by_name_perm (entries : store) : Permutation (sorted_by_name entries) entries.
Proof.
  induction entries as [|e entries IH]; [reflexivity | ].
  cbn [sorted_by_name fold_right]. fold (sorted_by_name entries).
  rewrite insert_by_name_perm. now apply perm_skip.
Qed.

Lemma insert_by_name_sorted (e : string * file_text) (sorted : store) :
  StronglySorted name_le sorted -> StronglySorted name_le (insert_by_name e sorted).
Proof.
  induction sorted as [|x sorted IH]; cbn [insert_by_name]; intros H.
  - constructor; [constructor | constructor].
  - inversion H as [|? ? Hs Hx]; subst.
    destruct (String.leb (fst e) (fst x)) eqn:E.
    + constructor; [exact H | ]. constructor; [exact E | ].
      eapply Forall_impl; [ | exact Hx]. intros y Hy. unfold name_le in *.
      eapply string_leb_trans; eauto.
    + constructor; [now apply IH | ].
      apply (Permutation_Forall (Permutation_sym (insert_by_name_perm e sorted))).
      constructor; [ | exact Hx]. now apply string_leb_false.
Qed.

Lemma sorted_by_name_sorted (entries : store) :
  StronglySorted name_le (sorted_by_name entries).
Proof.
  induction entries as [|e entries IH]; [constructor | ].
  now apply insert_by_name_sorted.
Qed.

Lemma insert_by_name_least (e : string * file_text) (sorted : store) :
  Forall (name_le e) sorted -> insert_by_name e sorted = e :: sorted.
Proof.
  destruct sorted as [|x sorted]; [reflexivity | ]. intros H.
  inversion H as [|? ? Hx _]; subst. cbn [insert_by_name].
  unfold name_le in Hx. now rewrite Hx.
Qed.

Lemma filter_sorted (p : string * file_text -> bool) (sorted : store) :
  StronglySorted name_le sorted -> StronglySorted name_le (filter p sorted).
Proof.
  induction 1 as [|x sorted Hs IH Hx]; cbn [filter]; [constructor | ].
  destruct (p x); [ | exact IH]. constructor; [exact IH | ].
  apply Forall_forall. intros y Hy. apply filter_In in Hy as [Hy _].
  rewrite Forall_forall in Hx. now apply Hx.
Qed.

(** Sorting and leaving files out commute. *)
Lemma filter_insert_by_name (p : string * file_text -> bool) (e : string * file_text)
  (sorted : store) :
  StronglySorted name_le sorted ->
  filter p (insert_by_name e sorted)
  = if p e then insert_by_name e (filter p sorted) else filter p sorted.
Proof.
  induction 1 as [|x sorted Hs IH Hx]; cbn [insert_by_name filter].
  - now destruct (p e).
  - destruct (String.leb (fst e) (fst x)) eqn:E.
    + cbn [filter]. destruct (p e); [ | reflexivity].
      symmetry. apply insert_by_name_least.
      assert (Hall : Forall (name_le e) (x :: sorted)).
      { constructor; [exact E | ]. eapply Forall_impl; [ | exact Hx].
        intros y Hy. unfold name_le in *. eapply string_leb_trans; eauto. }
      apply Forall_forall. intros y Hy.
      apply (filter_In p y (x :: sorted)) in Hy as [Hy _].
      rewrite Forall_forall in Hall. now apply Hall.
    + cbn [filter]. rewrite IH.
      destruct (p x), (p e); cbn [insert_by_name]; rewrite ?E; reflexivity.
Qed.

Lemma filter_sorted_by_name (p : string * file_text -> bool) (entries : store) :
  sorted_by_name (filter p entries) = filter p (sorted_by_name entries).
Proof.
  induction entries as [|e entries IH]; [reflexivity | ].
  cbn [filter sorted_by_name fold_right]. fold (sorted_by_name entries).
  rewrite (filter_insert_by_name _ _ _ (sorted_by_name_sorted entries)).
  destruct (p e); [ | exact IH].
  cbn [sorted_by_name fold_right]. fold (sorted_by_name (filter p entries)).
  now rewrite IH.
Qed.

Lemma filter_comm {A : Type} (p q : A -> bool) (l : list A) :
  filter p (filter q l) = filter q (filter p l).
Proof.
  induction l as [|x l IH]; [reflexivity | ]. cbn [filter].
  destruct (q x) eqn:Eq, (p x) eqn:Ep; cbn [filter]; rewrite ?Eq, ?Ep, IH; reflexivity.
Qed.

Lemma filter_perm {A : Type} (p : A -> bool) (l l' : list A) :
  Permutation l l' -> Permutation (filter p l) (filter p l').
Proof.
  induction 1 as [|x l l' _ IH|x y l|l l' l'' _ IH1 _ IH2]; cbn [filter].
  - constructor.
  - destruct (p x); [now constructor | exact IH].
  - destruct (p x), (p y); try reflexivity. apply perm_swap.
  - now rewrite IH1.
Qed.

Lemma filter_names_nodup (p : string * file_text -> bool) (entries : store) :
  NoDup (map fst entries) -> NoDup (map fst (filter p entries)).
Proof.
  induction entries as [|e entries IH]; cbn [map filter]; [constructor | ].
  intros H. inversion H as [|? ? Hnot Hrest]; subst.
  destruct (p e); [ | now apply IH]. cbn [map]. constructor; [ | now apply IH].
  intros Hin. apply Hnot. apply in_map_iff in Hin as (y & Hy & Hin).
  apply filter_In in Hin as [Hin _]. apply in_map_iff. now exists y.
Qed.

(** Two sorted enumerations of the same files are the same list, file
    names being unique. *)
Lemma sorted_unique (l1 l2 : store) :
  StronglySorted name_le l1 -> StronglySorted name_le l2 ->
  Permutation l1 l2 -> NoDup (map fst l1) -> l1 = l2.
Proof.
  revert l2. induction l1 as [|x1 l1 IH]; intros l2 H1 H2 Hp Hnd.
  - apply Permutation_nil in Hp. now subst.
  - destruct l2 as [|x2 l2]; [now apply Permutation_sym, Permutation_nil in Hp | ].
    inversion H1 as [|? ? Hs1 Hx1]; subst. inversion H2 as [|? ? Hs2 Hx2]; subst.
    inversion Hnd as [|? ? Hnot Hnd']; subst.
    rewrite Forall_forall in Hx1, Hx2.
    assert (Hin2 : In x2 (x1 :: l1))
      by (apply (Permutation_in _ (Permutation_sym Hp)); now left).
    assert (Hin1 : In x1 (x2 :: l2)) by (apply (Permutation_in _ Hp); now left).
    assert (Heq : x1 = x2).
    { destruct Hin2 as [E|Hin2]; [exact E | ].
      destruct Hin1 as [E|Hin1]; [now symmetry | ].
      exfalso. apply Hnot.
      replace (fst x1) with (fst x2)
        by (apply String.leb_antisym; [apply (Hx2 _ Hin1) | apply (Hx1 _ Hin2)]).
      now apply in_map. }
    subst x2. f_equal. apply IH; auto.
    now apply Permutation_cons_inv in Hp.
Qed.

Lemma sorted_by_name_order (l1 l2 : store) :
  Permutation l1 l2 -> NoDup (map fst l1) -> sorted_by_name l1 = sorted_by_name l2.
Proof.
  intros Hp Hnd. apply sorted_unique; try apply sorted_by_name_sorted.
  - rewrite !sorted_by_name_perm. exact Hp.
  - apply (Permutation_NoDup (l := map fst l1)); [ | exact Hnd].
    apply Permutation_map, Permutation_sym, sorted_by_name_perm.
Qed.

Lemma filter_listed (st : store) : filter parseable (glob_json st) = filter listed st.
Proof.
  unfold glob_json. induction st as [|e st IH]; [reflexivity | ].
  cbn [filter]. unfold listed at 1.
  destruct (PyStr.endswith ".json" (fst e)); cbn [filter andb]; [ | exact IH].
  destruct (parseable e); now rewrite IH.
Qed.

Lemma glob_json_idem (st : store) : glob_json (glob_json st) = glob_json st.
Proof.
  unfold glob_json. induction st as [|e st IH]; [reflexivity | ]. cbn [filter].
  destruct (PyStr.endswith ".json" (fst e)) eqn:E; [ | exact IH].
  cbn [filter]. now rewrite E, IH.
Qed.

Section ListingFacts.

Context {RT : Runtime}.

Lemma list_entry_fields (path : string) (payload : dict) (r : Resource) :
  list_entry path payload = Ok r ->
  res_uri r = _resource_uri path /\ res_mimeType r = "application/json".
Proof.
  unfold list_entry. cbv zeta.
  destruct (if truthy (dget_or_none "resource_name" payload) then _ else _)
    as [[| | | |name| |]| |]; cbn [bind]; try discriminate.
  intros [= <-]. split; reflexivity.
Qed.

Lemma list_loop_parseable (entries : store) :
  list_loop (filter parseable entries) = list_loop entries.
Proof.
  induction entries as [|[n t] entries IH]; [reflexivity | ]. cbn [filter].
  unfold parseable at 1. cbn [snd].
  destruct t as [|j]; [exact IH | ]. cbn [list_loop]. now rewrite IH.
Qed.

Lemma list_loop_fields (entries : store) (resources : list Resource) :
  list_loop entries = Ok resources ->
  map res_uri resources = map (fun e => _resource_uri (fst e)) (filter parseable entries)
  /\ Forall (fun r => res_mimeType r = "application/json") resources.
Proof.
  revert resources. induction entries as [|[n t] entries IH]; intros resources;
    cbn [list_loop filter].
  - intros [= <-]. split; [reflexivity | constructor].
  - unfold parseable at 1. cbn [snd].
    destruct t as [|[| | | | | |payload]]; try discriminate; [apply IH | ].
    destruct (list_entry n payload) as [r| |] eqn:Er; cbn [bind]; try discriminate.
    destruct (list_loop entries) as [rs| |]; cbn [bind]; try discriminate.
    intros [= <-]. destruct (IH rs eq_refl) as [Hu Hm].
    destruct (list_entry_fields _ _ _ Er) as [Hur Hmr]. split.
    + cbn [map fst]. now rewrite Hur, Hu.
    + now constructor.
Qed.

(** A listing that returns met only text that is not JSON and objects. *)
Lemma list_loop_objects (entries : store) (resources : list Resource) :
  list_loop entries = Ok resources ->
  forall name j, In (name, JsonText j) entries -> exists payload, j = JObj payload.
Proof.
  revert resources. induction entries as [|[n t] entries IH]; intros resources;
    cbn [list_loop]; [intros _ ? ? [] | ].
  destruct t as [|[| | | | | |payload]]; try discriminate.
  - intros H name j [[=]|Hin]. eapply IH; eauto.
  - destruct (list_entry n payload) as [r| |]; cbn [bind]; try discriminate.
    destruct (list_loop entries) as [rs| |]; cbn [bind]; try discriminate.
    intros _ name j [[= <- <-]|Hin]; [now exists payload | eapply IH; eauto].
Qed.

(** The listing of a rearranged enumeration returns when the listing does,
    with the same resources rearranged. *)
Lemma list_loop_perm (entries entries' : store) :
  Permutation entries entries' ->
  forall resources, list_loop entries = Ok resources ->
  exists resources', list_loop entries' = Ok resources'
                     /\ Permutation resources resources'.
Proof.
  induction 1 as [|[n t] l l' _ IH|[n1 t1] [n2 t2] l|l l' l'' _ IH1 _ IH2];
    intros resources.
  - intros H. now exists resources.
  - cbn [list_loop]. destruct t as [|[| | | | | |payload]]; try discriminate;
      [apply IH | ].
    destruct (list_entry n payload) as [r| |]; cbn [bind]; try discriminate.
    destruct (list_loop l) as [rs| |]; cbn [bind]; try discriminate.
    intros [= <-]. destruct (IH rs eq_refl) as (rs' & -> & Hp).
    exists (r :: rs'). split; [reflexivity | now constructor].
  - cbn [list_loop].
    destruct t1 as [|[| | | | | |p1]]; destruct t2 as [|[| | | | | |p2]];
      try discriminate; try (intros H; now exists resources).
    all: destruct (list_entry n2 p2) as [r2| |]; cbn [bind]; try discriminate.
    destruct (list_entry n1 p1) as [r1| |]; cbn [bind]; try discriminate.
    destruct (list_loop l) as [rs| |]; cbn [bind]; try discriminate.
    intros [= <-]. exists (r1 :: r2 :: rs). split; [reflexivity | apply perm_swap].
  - intros H. destruct (IH1 _ H) as (r1 & H1 & Hp1).
    destruct (IH2 _ H1) as (r2 & H2 & Hp2). exists r2. split; [exact H2 | ].
    now rewrite Hp1.
Qed.

(** X18.  The listing does not depend on the order in which the directory
    is enumerated (file names being unique): the handler sorts. *)
Theorem listing_ignores_enumeration_order (st1 st2 : store) :
  Permutation st1 st2 ->
  NoDup (map fst st1) ->
  handle_list_resources st1 = handle_list_resources st2.
Proof.
  intros Hp Hnd. unfold handle_list_resources, glob_json.
  rewrite (sorted_by_name_order _ (filter (fun e => PyStr.endswith ".json" (fst e)) st2));
    [reflexivity | now apply filter_perm | now apply filter_names_nodup].
Qed.

(** X19.  Files that are not [*.json] and files whose text is not JSON
    have no influence on the listing: it is the listing of the directory
    without them. *)
Theorem listing_skips_unparsable_files (st : store) :
  handle_list_resources (filter listed st) = handle_list_resources st.
Proof.
  unfold handle_list_resources. rewrite <- filter_listed.
  unfold glob_json at 1. rewrite filter_comm. fold (glob_json (glob_json st)).
  rewrite glob_json_idem, filter_sorted_by_name. apply list_loop_parseable.
Qed.

(** X20.  A listing that returns holds one resource for each [*.json] file
    whose text is JSON, in ascending order of file name, each at the URI of
    its file and with the JSON media type. *)
Theorem listing_is_sorted_by_file_name (st : store) (resources : list Resource) :
  handle_list_resources st = Ok resources ->
  exists files,
    Permutation files (filter listed st)
    /\ StronglySorted name_le files
    /\ map res_uri resources = map (fun e => _resource_uri (fst e)) files
    /\ Forall (fun r => res_mimeType r = "application/json") resources.
Proof.
  unfold handle_list_resources. intros H.
  exists (filter parseable (sorted_by_name (glob_json st))).
  destruct (list_loop_fields _ _ H) as [Hu Hm].
  split; [ | split; [ | split; [exact Hu | exact Hm]]].
  - now rewrite <- filter_sorted_by_name, sorted_by_name_perm, filter_listed.
  - apply filter_sorted, sorted_by_name_sorted.
Qed.

(** X21.  One [*.json] file holding a JSON document that is not an object
    (an array, a number, [null], ...) makes the whole listing fail: it never
    returns a list. *)
Theorem non_object_document_breaks_listing
  (st : store) (name : string) (j : json) (resources : list Resource) :
  In (name, JsonText j) st ->
  PyStr.endswith ".json" name = true ->
  (forall payload, j <> JObj payload) ->
  handle_list_resources st <> Ok resources.
Proof.
  intros Hin Hjson Hobj H. unfold handle_list_resources in H.
  destruct (list_loop_objects _ _ H name j) as [payload ->]; [ | now apply (Hobj payload)].
  apply (Permutation_in _ (Permutation_sym (sorted_by_name_perm _))).
  unfold glob_json. apply filter_In. now split.
Qed.

(** What a create call that returns has done. *)
Lemma handle_call_tool_ok
  (st st' : store) (session : bool) (uuid4_hex name : string) (arguments : option dict)
  (result : CallResult) :
  handle_call_tool st session uuid4_hex name arguments = (Ok result, st') ->
  let args := match arguments with Some a => a | None => [] end in
  exists candidate price,
    find_file (candidate ++ ".json") st = None
    /\ st' = (st ++ [((candidate ++ ".json")%string,
                      JsonText (JObj (created_payload uuid4_hex candidate args price)))])%list
    /\ link_name (resource_link result) = "flight-watch-" ++ candidate
    /\ link_uri (resource_link result) = _resource_uri (candidate ++ ".json").
Proof.
  unfold handle_call_tool.
  destruct (negb (String.eqb name "track_flight_price")); [discriminate | ].
  destruct (negb (forallb hashable _)); [discriminate | ].
  destruct (existsb is_none _); [discriminate | ].
  destruct (py_float _) as [price| |]; try discriminate.
  unfold _allocate_watch_file.
  destruct (allocate_loop _ st _ _ 1) as [[c|e|]|] eqn:Ea; try discriminate.
  apply allocate_loop_fresh, path_exists_false in Ea.
  rewrite (write_absent _ _ _ Ea).
  rewrite (put_file_absent st _ _ (lookup_absent_find _ _ Ea)).
  intros H. exists c, price. split; [apply lookup_absent_find, Ea | ].
  destruct session; cbn [bind] in H.
  - destruct (is_none _); cbn [bind] in H.
    + injection H as <- <-. repeat split; reflexivity.
    + destruct (py_float _); cbn [bind] in H; try discriminate.
      injection H as <- <-. repeat split; reflexivity.
  - injection H as <- <-. repeat split; reflexivity.
Qed.

(** X22.  After a create call that returns, a listing that returned before
    returns again, with the same resources and one more: the new record,
    under the name and URI of the link the call returned. *)
Theorem created_record_is_listed
  (st st' : store) (session : bool) (uuid4_hex name : string) (arguments : option dict)
  (result : CallResult) (resources : list Resource) :
  handle_call_tool st session uuid4_hex name arguments = (Ok result, st') ->
  handle_list_resources st = Ok resources ->
  exists added resources',
    handle_list_resources st' = Ok resources'
    /\ Permutation (added :: resources) resources'
    /\ res_name added = link_name (resource_link result)
    /\ res_uri added = link_uri (resource_link result).
Proof.
  intros Hcall Hlist.
  apply handle_call_tool_ok in Hcall as (c & price & Hfree & -> & Hname & Huri).
  set (args := match arguments with Some a => a | None => [] end) in *.
  set (payload := created_payload uuid4_hex c args price).
  set (e := ((c ++ ".json")%string, JsonText (JObj payload))).
  assert (Hentry : exists added,
             list_entry (c ++ ".json") payload = Ok added
             /\ res_name added = "flight-watch-" ++ c
             /\ res_uri added = _resource_uri (c ++ ".json")).
  { unfold list_entry. cbv zeta.
    change (dget_or_none "resource_name" payload) with (JStr ("flight-watch-" ++ c)).
    cbn [truthy PyStr.nonempty append bind]. eexists. repeat split. }
  destruct Hentry as (added & Hentry & Hn & Hu).
  unfold handle_list_resources in *. unfold glob_json in *.
  rewrite filter_app. unfold e at 1. cbn [filter fst].
  rewrite (endswith_append c ".json"). fold e.
  assert (Hp : Permutation
                 (e :: sorted_by_name (filter (fun e => PyStr.endswith ".json" (fst e)) st))
                 (sorted_by_name
                    (filter (fun e => PyStr.endswith ".json" (fst e)) st ++ [e])%list)).
  { rewrite !sorted_by_name_perm. apply Permutation_cons_append. }
  destruct (list_loop_perm _ _ Hp (added :: resources)) as (rs' & Hrs' & Hperm).
  { cbn [list_loop]. unfold e. cbn [list_loop]. rewrite Hentry. cbn [bind].
    now rewrite Hlist. }
  exists added, rs'. split; [exact Hrs' | ]. split; [exact Hperm | ].
  now rewrite Hn, Hu, Hname, Huri.
Qed.

End ListingFacts.

(* ------------------------------------------------------------------ *)
(** ** Further properties: the advertised tool and the create call *)

Section ToolFacts.

Context {RT : Runtime}.

(** X23.  A create call reads the arguments its schema declares and no
    other: two calls whose arguments agree on the declared properties have
    the same outcome and leave the same store. *)
Theorem undeclared_arguments_are_ignored
  (st : store) (session : bool) (uuid4_hex name : string) (tool : Tool)
  (arguments1 arguments2 : dict) :
  In tool handle_list_tools ->
  (forall k, In k (map prop_name (schema_properties tool)) ->
             dget k arguments1 = dget k arguments2) ->
  handle_call_tool st session uuid4_hex name (Some arguments1)
  = handle_call_tool st session uuid4_hex name (Some arguments2).
Proof.
  intros [<-|[]] Hagree. cbn [schema_properties map prop_name] in Hagree.
  assert (H : forall k, In k ["origin"; "destination"; "departure_date"; "initial_price";
                              "target_price"; "context_file"] ->
                        dget_or_none k arguments1 = dget_or_none k arguments2).
  { intros k Hk. unfold dget_or_none. now rewrite (Hagree k Hk). }
  unfold handle_call_tool.
  rewrite (H "origin"), (H "destination"), (H "departure_date"), (H "initial_price"),
    (H "target_price"), (H "context_file") by (cbn [In]; tauto).
  reflexivity.
Qed.

(** X24.  A create call that returns was made under the name of an
    advertised tool and supplied every argument that tool's schema marks as
    required; under any other name the call raises [ValueError] and the
    store is left alone. *)
Theorem accepted_calls_satisfy_schema
  (st : store) (session : bool) (uuid4_hex name : string) (arguments : option dict) :
  (forall result st',
      handle_call_tool st session uuid4_hex name arguments = (Ok result, st') ->
      exists tool,
        In tool handle_list_tools
        /\ tool_name tool = name
        /\ Forall (fun k =>
                     dget_or_none k (match arguments with Some a => a | None => [] end)
                     <> JNull)
                  (schema_required tool))
  /\ (~ In name (map tool_name handle_list_tools) ->
      handle_call_tool st session uuid4_hex name arguments = (Raise ValueError, st)).
Proof.
  split.
  - intros result st'. unfold handle_call_tool.
    destruct (String.eqb_spec name "track_flight_price") as [->|Hne];
      cbn [negb]; [ | discriminate].
    destruct (negb (forallb hashable _)); [discriminate | ].
    destruct (existsb is_none _) eqn:Hnone; [discriminate | ]. intros _.
    eexists. split; [now left | ]. split; [reflexivity | ].
    cbn [schema_required]. cbn [existsb] in Hnone.
    repeat (apply orb_false_elim in Hnone as [? Hnone]).
    repeat constructor; intros E; rewrite E in *; discriminate.
  - intros Hname. unfold handle_call_tool.
    destruct (String.eqb_spec name "track_flight_price") as [->|Hne]; [ | reflexivity].
    contradiction Hname. now left.
Qed.

End ToolFacts.

(* ------------------------------------------------------------------ *)
(** ** Further properties: a create call that fails late *)

Section LateFailure.

Context {RT : Runtime}.

(** X27.  The target price is converted only when a session is there to
    schedule the simulator, and only after the record has been written: a
    call with a session and a target [float()] rejects raises that error
    and still leaves the new record in the directory, while the same call
    without a session returns. *)
Theorem rejected_target_leaves_record
  (st : store) (uuid4_hex : string) (arguments : dict) (price : pyfloat) (e : exn) :
  forallb hashable (required_arguments arguments) = true ->
  existsb is_none (required_arguments arguments) = false ->
  py_float (dget_or_none "initial_price" arguments) = Ok price ->
  all_chars hex_char uuid4_hex = true ->
  is_none (dget_or_none "target_price" arguments) = false ->
  py_float (dget_or_none "target_price" arguments) = Raise e ->
  (exists st',
      handle_call_tool st true uuid4_hex "track_flight_price" (Some arguments)
      = (Raise e, st')
      /\ initial_record_persisted st st' (slug_of_arguments arguments) price)
  /\ (exists result,
         handle_call_tool st false uuid4_hex "track_flight_price" (Some arguments)
         = (Ok result,
            snd (handle_call_tool st true uuid4_hex "track_flight_price" (Some arguments)))).
Proof.
  intros Hhash Hnone Hprice Hid Hsome Hraise.
  set (o := py_str (dget_or_none "origin" arguments)).
  set (d := py_str (dget_or_none "destination" arguments)).
  set (dt := py_str (dget_or_none "departure_date" arguments)).
  destruct (allocate_total st uuid4_hex o d dt (hex_prefix_plain _ Hid))
    as [c [Hc [Hfree Hshape]]].
  apply path_exists_false in Hfree.
  set (payload := created_payload uuid4_hex c arguments price).
  set (st' := put_file (c ++ ".json") (JsonText (JObj payload)) st).
  assert (Hcall : handle_call_tool st true uuid4_hex "track_flight_price" (Some arguments)
                  = (Raise e, st')).
  { unfold handle_call_tool. cbn [String.eqb Ascii.eqb Bool.eqb negb].
    unfold required_arguments in Hhash, Hnone. rewrite Hhash, Hnone. cbn [negb].
    rewrite Hprice. fold o d dt. rewrite Hc, (write_absent _ _ _ Hfree), Hsome.
    cbn [bind]. rewrite Hraise. reflexivity. }
  split.
  - exists st'. split; [exact Hcall | ].
    exists (c ++ ".json"), payload.
    split; [exact Hfree | ]. split; [reflexivity | ].
    split; [apply (lookup_after_write st), write_absent, Hfree | ].
    split; [reflexivity | ]. split; [reflexivity | ]. split; [reflexivity | ].
    unfold slug_of_arguments. fold o d dt.
    destruct Hshape as [->|[j ->]]; unfold allocation_stem; rewrite !append_assoc;
      apply prefix_append.
  - rewrite Hcall. cbn [snd].
    unfold handle_call_tool. cbn [String.eqb Ascii.eqb Bool.eqb negb].
    unfold required_arguments in Hhash, Hnone. rewrite Hhash, Hnone. cbn [negb].
    rewrite Hprice. fold o d dt. rewrite Hc, (write_absent _ _ _ Hfree).
    cbn [bind]. eexists. reflexivity.
Qed.

End LateFailure.

(* ------------------------------------------------------------------ *)
(** ** Further properties: the listing under price updates *)

Section ListingStable.

Context {RT : Runtime}.

Lemma list_loop_cons (e : string * file_text) (entries : store) :
  list_loop (e :: entries)
  = (first <- list_loop [e] ;; rest <- list_loop entries ;; Ok (first ++ rest)%list).
Proof.
  destruct e as [n [|[| | | | | |payload]]]; cbn [list_loop bind]; try reflexivity.
  - now destruct (list_loop entries).
  - destruct (list_entry n payload); reflexivity.
Qed.

Lemma list_loop_alike (l l' : store) :
  Forall2 listed_alike l l' -> list_loop l = list_loop l'.
Proof.
  induction 1 as [|e e' l l' [_ He] _ IH]; [reflexivity | ].
  now rewrite (list_loop_cons e), (list_loop_cons e'), He, IH.
Qed.

Lemma glob_json_alike (l l' : store) :
  Forall2 listed_alike l l' -> Forall2 listed_alike (glob_json l) (glob_json l').
Proof.
  unfold glob_json. induction 1 as [|e e' l l' He _ IH]; [constructor | ].
  cbn [filter]. destruct He as [Hn He]. rewrite <- Hn.
  destruct (PyStr.endswith ".json" (fst e)); [ | exact IH].
  constructor; [now split | exact IH].
Qed.

Lemma insert_by_name_alike (e e' : string * file_text) (s s' : store) :
  listed_alike e e' -> Forall2 listed_alike s s' ->
  Forall2 listed_alike (insert_by_name e s) (insert_by_name e' s').
Proof.
  intros He. induction 1 as [|x x' s s' Hx Hs IH]; cbn [insert_by_name].
  - constructor; [exact He | constructor].
  - destruct He as [Hn He], Hx as [Hxn Hx]. rewrite <- Hn, <- Hxn.
    destruct (String.leb (fst e) (fst x)).
    + constructor; [now split | ]. constructor; [now split | exact Hs].
    + constructor; [now split | exact IH].
Qed.

Lemma sorted_by_name_alike (l l' : store) :
  Forall2 listed_alike l l' ->
  Forall2 listed_alike (sorted_by_name l) (sorted_by_name l').
Proof.
  induction 1 as [|e e' l l' He _ IH]; [constructor | ].
  cbn [sorted_by_name fold_right]. now apply insert_by_name_alike.
Qed.

Lemma listed_alike_refl (l : store) : Forall2 listed_alike l l.
Proof. induction l; constructor; [now split | assumption]. Qed.

Lemma put_file_alike (st : store) (name : string) (old new : file_text) :
  find_file name st = Some old ->
  list_loop [(name, old)] = list_loop [(name, new)] ->
  Forall2 listed_alike st (put_file name new st).
Proof.
  intros Hfind Hlist. induction st as [|[n t] st IH]; [discriminate | ].
  cbn [find_file] in Hfind. cbn [put_file].
  destruct (String.eqb_spec n name) as [->|Hne].
  - injection Hfind as ->. constructor; [now split | apply listed_alike_refl].
  - constructor; [now split | now apply IH].
Qed.

(** The resource of a record is read off fields an iteration leaves alone. *)
Lemma list_entry_saved (name : string) (stored saved : dict) :
  dget "file_name" stored = Some (JStr name) ->
  PyStr.nonempty name = true ->
  dget "file_name" saved = Some (JStr name) ->
  (forall k, tick_field k = false -> dget k saved = dget k (with_defaults name stored)) ->
  list_entry name saved = list_entry name stored.
Proof.
  intros Hstored Hne Hsaved Hkeep. unfold list_entry, dget_or_question, dget_or_none.
  rewrite Hstored, Hsaved.
  rewrite (Hkeep "origin" eq_refl), (Hkeep "destination" eq_refl),
    (Hkeep "resource_name" eq_refl).
  rewrite (with_defaults_other name stored "origin"),
    (with_defaults_other name stored "destination") by discriminate.
  cbn [truthy]. rewrite Hne. cbv zeta.
  unfold with_defaults. rewrite (setdefault_present _ _ _ _ Hstored).
  unfold setdefault.
  destruct (dget "resource_name" stored) as [v|] eqn:Ev; cbv beta iota.
  - now rewrite Ev.
  - rewrite dget_dset_same. cbn [truthy PyStr.nonempty append]. reflexivity.
Qed.

Lemma tick_keeps_listing (st : store) (watch_id : string) (target : option pyfloat) (draw : Z) :
  store_named st ->
  handle_list_resources (snd (tick st watch_id target draw)) = handle_list_resources st.
Proof.
  intros Hst. destruct (tick st watch_id target draw) as [r st'] eqn:E. cbn [snd].
  destruct r as [[|saved]| |];
    try (rewrite (tick_failed_store _ _ _ _ _ _ E); [reflexivity | discriminate]).
  destruct (tick_named _ _ _ _ _ _ Hst E)
    as (name & stored & Hloc & Hfind & -> & Hlook & Hfn & _ & Hkeep).
  unfold handle_list_resources. symmetry.
  apply list_loop_alike, sorted_by_name_alike, glob_json_alike.
  apply (put_file_alike _ _ _ _ Hfind). cbn [list_loop]. f_equal. symmetry.
  destruct (regular_is_component _ _ _ Hlook) as (Hne & _).
  apply list_entry_saved; auto.
  - apply Hst. now apply find_file_in.
  - destruct name; [now contradiction Hne | reflexivity].
Qed.

(** X28.  On a directory whose records carry the names of their own
    files, price updates never change the listing: after any number of
    iterations of a simulator, [handle_list_resources] returns what it
    returned before. *)
Theorem price_updates_keep_the_listing
  (st : store) (watch_id : string) (target : option pyfloat) (draws : list Z) :
  store_named st ->
  handle_list_resources (snd (_simulate_price_updates st watch_id target draws))
  = handle_list_resources st.
Proof.
  revert st. induction draws as [|draw draws IH]; intros st Hst; [reflexivity | ].
  cbn [_simulate_price_updates].
  pose proof (tick_keeps_listing st watch_id target draw Hst) as Hlist.
  pose proof (tick_keeps_named st watch_id target draw Hst) as Hnamed.
  destruct (tick st watch_id target draw) as [[[|saved]| |] st']; cbn [snd] in *;
    try exact Hlist.
  destruct (is_notified saved); cbn [snd]; [exact Hlist | ].
  now rewrite (IH _ Hnamed).
Qed.

End ListingStable.

(* ------------------------------------------------------------------ *)
(** ** The claims on the concrete scenario *)

Lemma decode_encode_roundtrip_witness :
  _parse_watch_id (RT := demo_runtime) demo_store
                  (_resource_uri (RT := demo_runtime) demo_file)
  = Ok demo_id
  /\ _parse_watch_id (RT := demo_runtime) empty_id_store
                     (_resource_uri (RT := demo_runtime) "lhr-lis-0a1b2c3d.json")
     = Ok "0a1b2c3d".
Proof.
  split.
  - refine (proj1 (proj2 (decode_encode_roundtrip (RT := demo_runtime)
                            demo_store demo_file demo_payload _ _ _ _)) demo_id _ _).
    + reflexivity.
    + reflexivity.
    + repeat constructor.
    + vm_compute. discriminate.
    + reflexivity.
    + discriminate.
  - refine (proj2 (proj2 (proj2 (decode_encode_roundtrip (RT := demo_runtime)
                                   empty_id_store "lhr-lis-0a1b2c3d.json"
                                   [("watch_id", JStr EmptyString)] _ _ _ _)))
                  _ "lhr-lis" "0a1b2c3d" _ _ _).
    + reflexivity.
    + reflexivity.
    + repeat constructor.
    + vm_compute. discriminate.
    + reflexivity.
    + reflexivity.
    + reflexivity.
    + discriminate.
Defined.

(** C1 fails as stated: a stored record whose [watch_id] field is the empty
    string decodes to the tail of its file name, and a record stored under a
    name with a [#] in it is not found again. *)
Lemma decode_encode_roundtrip_counterexample :
  (let st := [("lhr-lis-0a1b2c3d.json", JsonText (JObj [("watch_id", JStr EmptyString)]))] in
   _parse_watch_id (RT := demo_runtime) st
                   (_resource_uri (RT := demo_runtime) "lhr-lis-0a1b2c3d.json")
   = Ok "0a1b2c3d")
  /\ (let st := [("a#b.json", JsonText (JObj [("watch_id", JStr "w1")]))] in
      _resource_uri (RT := demo_runtime) "a#b.json"
      = "file:///srv/flight_watch_store/a#b.json"
      /\ _parse_watch_id (RT := demo_runtime) st
                         (_resource_uri (RT := demo_runtime) "a#b.json")
         = Raise FileNotFoundError).
Proof. repeat split; reflexivity. Qed.

Lemma sequence_equals_index_witness :
  store_indexed demo_store_2
  /\ sequences_of demo_store_2 demo_file = [Some (JInt 0); Some (JInt 1); Some (JInt 2)].
Proof.
  split; [ | reflexivity].
  apply (proj2 (proj2 (proj2 (sequence_equals_index (RT := demo_runtime))))).
  apply (run_step [] demo_store _
           (step_create [] true demo_id "track_flight_price" (Some demo_arguments))).
  apply (run_step demo_store demo_store_1 _
           (step_tick demo_store demo_id demo_target 0)).
  apply (run_step demo_store_1 demo_store_2 _
           (step_tick demo_store_1 demo_id demo_target 0)).
  apply run_done.
Defined.

Lemma terminal_status_stops_simulator_witness :
  tick (RT := demo_runtime) demo_cancelled_store demo_id demo_target 0
  = (Ok Stopped, demo_cancelled_store)
  /\ _simulate_price_updates (RT := demo_runtime) demo_cancelled_store demo_id
                             demo_target [0; 45]%Z
     = (Finished, demo_cancelled_store).
Proof.
  apply (proj1 (terminal_status_stops_simulator (RT := demo_runtime)
                  demo_cancelled_store demo_id demo_target 0 [45]%Z)
               (dset "status" (JStr "cancelled") demo_payload)).
  - reflexivity.
  - reflexivity.
Defined.

Lemma tick_appends_floored_price_witness :
  (exists saved st',
      tick (RT := demo_runtime) demo_store_1 demo_id demo_target 0
      = (Ok (Updated saved), st')
      /\ tick_postcondition (RT := demo_runtime) demo_store_1 st' demo_payload_1
                            demo_target 0 saved)
  /\ prices_of demo_store_2 demo_file
     = [Some (JFloat (400 # 1)); Some (JFloat (360 # 1)); Some (JFloat (320 # 1))]
  /\ (exists saved st',
         tick (RT := demo_runtime) cents_store demo_id (Some cents_target) 60
         = (Ok (Updated saved), st')
         /\ dget "status" saved = Some (JStr "notified")
         /\ prices_of st' demo_file = [Some (JFloat cents_price); Some (JFloat cents_target)]).
Proof.
  split; [ | split; [reflexivity | ]].
  - apply (tick_appends_floored_price (RT := demo_runtime) demo_store_1 demo_id
             demo_target 0 demo_payload_1).
    + vm_compute. reflexivity.
    + unfold tickable. split; [vm_compute; reflexivity | ].
      split; [vm_compute; reflexivity | ].
      split.
      { eexists [_], _, (JFloat (360 # 1)).
        split; [vm_compute; reflexivity | ]. split; [reflexivity | discriminate]. }
      split; [exists (JStr "LHR"); vm_compute; reflexivity | ].
      split; [exists (JStr "LIS"); vm_compute; reflexivity | ].
      left. exists demo_file. repeat split; vm_compute; (reflexivity || discriminate).
  - eexists. eexists. split; [vm_compute; reflexivity | ]. split; reflexivity.
Defined.

(** C4 fails as stated: a watch whose first quote is the text [nan], which
    [float()] accepts, gets NaN appended at every iteration, a price that is
    not at least 50, and is never notified. *)
Lemma tick_appends_floored_price_counterexample :
  prices_of nan_store demo_file = [Some (JFloat NaN)]
  /\ exists saved st',
       tick (RT := demo_runtime) nan_store demo_id demo_target 0
       = (Ok (Updated saved), st')
       /\ prices_of st' demo_file = [Some (JFloat NaN); Some (JFloat NaN)]
       /\ dget "status" saved = Some (JStr "watching").
Proof.
  split; [reflexivity | ]. eexists. eexists.
  split; [vm_compute; reflexivity | ]. split; reflexivity.
Qed.

Lemma sequential_allocations_distinct_witness :
  exists f2 r2,
    _allocate_watch_file (snd (_write_watch_file [] demo_file demo_payload))
                         demo_id "LHR" "LIS" "2025-06-01"
    = Ok (f2, r2)
    /\ f2 <> demo_file.
Proof.
  apply (sequential_allocations_distinct [] demo_id "LHR" "LIS" "2025-06-01"
           demo_file "flight-watch-lhr-lis-2025-06-01-0a1b2c3d"
           demo_id "LHR" "LIS" "2025-06-01" demo_payload).
  - reflexivity.
  - reflexivity.
Defined.

Lemma create_persists_initial_record_witness :
  slug_of_arguments (RT := demo_runtime) demo_arguments = "lhr-lis-2025-06-01"
  /\ initial_record_persisted [] demo_store "lhr-lis-2025-06-01" (400 # 1).
Proof.
  split; [reflexivity | ].
  apply (create_persists_initial_record (RT := demo_runtime)
           [] true demo_id demo_arguments (400 # 1)); reflexivity.
Defined.

Lemma create_rejects_before_persisting_witness :
  (exists e,
      handle_call_tool (RT := demo_runtime) demo_store true demo_id "track_flight_price"
                       (Some [("origin", JStr "LHR"); ("destination", JStr "LIS")])
      = (Raise e, demo_store))
  /\ (exists e,
         handle_call_tool (RT := demo_runtime) demo_store true demo_id "track_flight_price"
                          (Some [("origin", JStr "LHR"); ("destination", JStr "LIS");
                                 ("departure_date", JStr "2025-06-01");
                                 ("initial_price", JStr "cheap")])
         = (Raise e, demo_store)).
Proof.
  split.
  - apply (create_rejects_before_persisting (RT := demo_runtime)). left. reflexivity.
  - apply (create_rejects_before_persisting (RT := demo_runtime)). right.
    exists ValueError. reflexivity.
Defined.

Lemma read_returns_record_with_defaults_witness :
  handle_read_resource (RT := demo_runtime) demo_store demo_uri = Ok demo_payload
  /\ handle_read_resource (RT := demo_runtime) idless_store
                          "file:///srv/flight_watch_store/abc.json"
     = Ok [("status", JStr "watching"); ("file_name", JStr "abc.json");
           ("resource_name", JStr "flight-watch-abc")].
Proof.
  split.
  - refine (proj2 (proj2 (proj2 (proj2 (proj2
              (read_returns_record_with_defaults (RT := demo_runtime)
                 demo_store demo_uri demo_id demo_file demo_payload _ _ _))))) _ _ _ _);
      reflexivity.
  - refine (proj1 (read_returns_record_with_defaults (RT := demo_runtime)
                     idless_store "file:///srv/flight_watch_store/abc.json" "abc"
                     "abc.json" [("status", JStr "watching")] _ _ _));
      reflexivity.
Defined.

(** C8 fails as stated: a stored record without [file_name] and
    [resource_name] is returned with both fields added. *)
Lemma read_returns_record_with_defaults_counterexample :
  read_json bare_store "lhr-lis-0a1b2c3d.json" = Ok (JObj bare_payload)
  /\ handle_read_resource (RT := demo_runtime) bare_store
                          "file:///srv/flight_watch_store/lhr-lis-0a1b2c3d.json"
     = Ok (bare_payload
           ++ [("file_name", JStr "lhr-lis-0a1b2c3d.json");
               ("resource_name", JStr "flight-watch-lhr-lis-0a1b2c3d")])%list.
Proof. split; reflexivity. Qed.

Lemma fallback_takes_last_stem_token_witness :
  _parse_watch_id (RT := demo_runtime)
                  [("watch-7.json", JsonText (JObj [("status", JStr "watching")]))]
                  "file:///srv/flight_watch_store/watch-7.json"
  = Ok "7".
Proof.
  refine (proj2 (fallback_takes_last_stem_token (RT := demo_runtime)
                   _ _ "watch-7.json" [("status", JStr "watching")] _ _ _) "watch" 7%nat _);
    reflexivity.
Defined.

(** C9 fails as stated: for the file the allocator names after a collision,
    the identifier derived from the name is the collision counter, not the
    id prefix in front of it. *)
Lemma fallback_takes_last_stem_token_counterexample :
  _allocate_watch_file demo_store demo_id "LHR" "LIS" "2025-06-01"
  = Ok ("lhr-lis-2025-06-01-0a1b2c3d-1.json", "flight-watch-lhr-lis-2025-06-01-0a1b2c3d-1")
  /\ _parse_watch_id (RT := demo_runtime) collided_store
                     "file:///srv/flight_watch_store/lhr-lis-2025-06-01-0a1b2c3d-1.json"
     = Ok "1".
Proof. split; reflexivity. Qed.

Lemma legacy_path_is_not_validated_witness :
  _locate_watch_file legacy_store "abc" = Ok "abc.json"
  /\ exists loaded,
       _load_watch legacy_store "abc" = Ok loaded
       /\ dget "watch_id" loaded = Some (JStr "zzz").
Proof.
  destruct (proj1 (legacy_path_is_not_validated legacy_store "abc")
              (JsonText (JObj [("watch_id", JStr "zzz"); ("status", JStr "watching")]))
              eq_refl) as [Hlocate Hload].
  split; [exact Hlocate | ].
  exact (Hload _ eq_refl).
Defined.

(* ------------------------------------------------------------------ *)
(** ** The further properties on the concrete scenario *)

Lemma allocation_takes_first_free_name_witness :
  path_exists demo_store "lhr-lis-2025-06-01-0a1b2c3d-1.json" = Ok false
  /\ (("lhr-lis-2025-06-01-0a1b2c3d-1.json"
       = allocation_stem demo_id "LHR" "LIS" "2025-06-01" ++ ".json"
       /\ "flight-watch-lhr-lis-2025-06-01-0a1b2c3d-1"
          = "flight-watch-" ++ allocation_stem demo_id "LHR" "LIS" "2025-06-01")
      \/ exists k,
           (1 <= k)%nat
           /\ "lhr-lis-2025-06-01-0a1b2c3d-1.json"
              = candidate_file (allocation_stem demo_id "LHR" "LIS" "2025-06-01") k
           /\ "flight-watch-lhr-lis-2025-06-01-0a1b2c3d-1"
              = "flight-watch-" ++ allocation_stem demo_id "LHR" "LIS" "2025-06-01"
                ++ "-" ++ PyStr.of_nat k
           /\ path_exists demo_store
                (allocation_stem demo_id "LHR" "LIS" "2025-06-01" ++ ".json") = Ok true
           /\ forall i, (1 <= i < k)%nat ->
                path_exists demo_store
                  (candidate_file (allocation_stem demo_id "LHR" "LIS" "2025-06-01") i)
                = Ok true).
Proof.
  apply (allocation_takes_first_free_name demo_store demo_id "LHR" "LIS" "2025-06-01").
  vm_compute. reflexivity.
Defined.

Lemma created_record_is_readable_witness :
  exists result st' payload,
    handle_call_tool (RT := demo_runtime) [] true demo_id "track_flight_price"
                     (Some demo_arguments)
    = (Ok result, st')
    /\ handle_read_resource (RT := demo_runtime) st' (link_uri (resource_link result))
       = Ok payload
    /\ handle_subscribe_resource (RT := demo_runtime) st' (link_uri (resource_link result))
       = Ok tt.
Proof.
  destruct (created_record_is_readable (RT := demo_runtime)
              [] true demo_id demo_arguments (400 # 1))
    as (result & st' & file_name & payload & Hcall & _ & _ & _ & _ & _ & _ & _ & Hr & Hs).
  - repeat constructor.
  - reflexivity.
  - reflexivity.
  - reflexivity.
  - right. right. exists (350 # 1). reflexivity.
  - reflexivity.
  - reflexivity.
  - reflexivity.
  - reflexivity.
  - exists result, st', payload. auto.
Defined.

Lemma resource_uri_injective_witness :
  _resource_uri (RT := demo_runtime) demo_file = demo_uri
  /\ demo_file = "lhr-lis-2025-06-01-0a1b2c3d.json".
Proof.
  split; [reflexivity | ].
  apply (resource_uri_injective (RT := demo_runtime)); reflexivity.
Defined.

Lemma decoding_ignores_directory_witness :
  _parse_watch_id (RT := demo_runtime) demo_store
    ("file://" ++ String "/" ("srv/flight_watch_store" ++ "/" ++ demo_file))
  = _parse_watch_id (RT := demo_runtime) demo_store
      ("file://" ++ String "/" ("C:/Users/agent/store" ++ "/" ++ demo_file)).
Proof.
  apply (decoding_ignores_directory (RT := demo_runtime)); try reflexivity; discriminate.
Defined.

Lemma foreign_scheme_is_rejected_witness :
  _parse_watch_id (RT := demo_runtime) demo_store
                  ("https" ++ ":" ++ "//example.org/lhr-lis-2025-06-01-0a1b2c3d.json")
  = Raise ValueError
  /\ handle_read_resource (RT := demo_runtime) demo_store
       ("https" ++ ":" ++ "//example.org/lhr-lis-2025-06-01-0a1b2c3d.json")
     = Raise ValueError
  /\ handle_subscribe_resource (RT := demo_runtime) demo_store
       ("https" ++ ":" ++ "//example.org/lhr-lis-2025-06-01-0a1b2c3d.json")
     = Raise ValueError.
Proof.
  apply (foreign_scheme_is_rejected (RT := demo_runtime)); [reflexivity | discriminate].
Defined.

Lemma unknown_base_name_is_not_found_witness :
  handle_read_resource (RT := demo_runtime) demo_store
    ("file://" ++ String "/" ("srv/flight_watch_store" ++ "/" ++ "missing.json"))
  = Raise FileNotFoundError
  /\ handle_subscribe_resource (RT := demo_runtime) demo_store
       ("file://" ++ String "/" ("srv/flight_watch_store" ++ "/" ++ "missing.json"))
     = Raise FileNotFoundError.
Proof.
  refine (proj1 (unknown_base_name_is_not_found (RT := demo_runtime) demo_store
                   "srv/flight_watch_store" "missing.json" _ _ _ _ _) _);
    try reflexivity; discriminate.
Defined.

Lemma locate_scans_in_order_witness :
  _locate_watch_file cluttered_store demo_id = Ok demo_file.
Proof.
  apply (locate_scans_in_order cluttered_store [("broken.json", NotJson)] []
           demo_id (demo_file, JsonText (JObj demo_payload))); reflexivity.
Defined.

Lemma unknown_id_is_not_found_witness :
  _load_watch demo_store "ffff" = Raise FileNotFoundError.
Proof.
  apply (proj2 (unknown_id_is_not_found demo_store "ffff" eq_refl)). reflexivity.
Defined.

Lemma tick_preserves_other_fields_witness :
  exists payload name,
    _load_watch demo_store demo_id = Ok payload
    /\ lookup_path demo_store_1 name = Regular (JsonText (JObj demo_payload_1))
    /\ forall k, tick_field k = false -> dget k demo_payload_1 = dget k payload.
Proof.
  apply (tick_preserves_other_fields (RT := demo_runtime) demo_store demo_store_1 demo_id
           demo_target 0 demo_payload_1).
  vm_compute. reflexivity.
Defined.

Lemma records_keep_their_file_name_witness : store_named demo_store_2.
Proof.
  apply (records_keep_their_file_name (RT := demo_runtime) []).
  - intros name payload [].
  - apply (run_step [] demo_store _
             (step_create [] true demo_id "track_flight_price" (Some demo_arguments))).
    apply (run_step demo_store demo_store_1 _
             (step_tick demo_store demo_id demo_target 0)).
    apply (run_step demo_store_1 demo_store_2 _
             (step_tick demo_store_1 demo_id demo_target 0)).
    apply run_done.
Defined.

Lemma engine_never_deletes_witness : find_file demo_file demo_store_2 <> None.
Proof.
  apply (engine_never_deletes (RT := demo_runtime) demo_store demo_store_2 demo_file).
  - apply (run_step demo_store demo_store_1 _
             (step_tick demo_store demo_id demo_target 0)).
    apply (run_step demo_store_1 demo_store_2 _
             (step_tick demo_store_1 demo_id demo_target 0)).
    apply run_done.
  - discriminate.
Defined.

Lemma simulator_writes_one_file_witness :
  _locate_watch_file
    (snd (_simulate_price_updates (RT := demo_runtime) pair_store demo_id
            demo_target [0; 0]%Z)) demo_id
  = _locate_watch_file pair_store demo_id
  /\ find_file other_file
       (snd (_simulate_price_updates (RT := demo_runtime) pair_store demo_id
               demo_target [0; 0]%Z))
     = find_file other_file pair_store.
Proof.
  destruct (simulator_writes_one_file (RT := demo_runtime) pair_store demo_id
              demo_target [0; 0]%Z) as [Hlocate Hother].
  - apply (create_keeps_named (RT := demo_runtime)).
    apply (create_keeps_named (RT := demo_runtime)). intros name payload [].
  - split; [exact Hlocate | ]. apply Hother. discriminate.
Defined.

Lemma simulator_ends_on_terminal_record_witness :
  exists payload,
    _load_watch demo_store_2 demo_id = Ok payload /\ is_terminal payload = true.
Proof.
  apply (simulator_ends_on_terminal_record (RT := demo_runtime) demo_store demo_store_2
           demo_id demo_target [0; 0]%Z).
  - apply (create_keeps_named (RT := demo_runtime)). intros name payload [].
  - vm_compute. reflexivity.
Defined.

Lemma listing_ignores_enumeration_order_witness :
  handle_list_resources (RT := demo_runtime) pair_store
  = handle_list_resources (RT := demo_runtime) (rev pair_store).
Proof.
  apply (listing_ignores_enumeration_order (RT := demo_runtime)).
  - apply Permutation_rev.
  - vm_compute. constructor; [intros [H|[]]; discriminate | ].
    constructor; [intros [] | constructor].
Defined.

Lemma listing_is_sorted_by_file_name_witness :
  exists files,
    Permutation files (filter listed pair_store)
    /\ StronglySorted name_le files
    /\ map res_uri pair_listing
       = map (fun e => _resource_uri (RT := demo_runtime) (fst e)) files
    /\ Forall (fun r => res_mimeType r = "application/json") pair_listing.
Proof.
  apply (listing_is_sorted_by_file_name (RT := demo_runtime) pair_store pair_listing).
  vm_compute. reflexivity.
Defined.

Lemma non_object_document_breaks_listing_witness :
  handle_list_resources (RT := demo_runtime) array_store <> Ok demo_listing.
Proof.
  apply (non_object_document_breaks_listing (RT := demo_runtime) array_store
           "list.json" (JArr [])).
  - left. reflexivity.
  - reflexivity.
  - discriminate.
Defined.

Lemma created_record_is_listed_witness :
  exists result added resources',
    handle_call_tool (RT := demo_runtime) demo_store false other_id "track_flight_price"
                     (Some other_arguments)
    = (Ok result, pair_store)
    /\ handle_list_resources (RT := demo_runtime) pair_store = Ok resources'
    /\ Permutation (added :: demo_listing) resources'
    /\ res_name added = link_name (resource_link result)
    /\ res_uri added = link_uri (resource_link result).
Proof.
  assert (Hcall : exists result,
             handle_call_tool (RT := demo_runtime) demo_store false other_id
                              "track_flight_price" (Some other_arguments)
             = (Ok result, pair_store))
    by (eexists; vm_compute; reflexivity).
  destruct Hcall as [result Hcall]. exists result.
  destruct (created_record_is_listed (RT := demo_runtime) demo_store pair_store false
              other_id "track_flight_price" (Some other_arguments) result demo_listing
              Hcall)
    as (added & resources' & Hlist & Hperm & Hname & Huri).
  - vm_compute. reflexivity.
  - exists added, resources'. auto.
Defined.

Lemma undeclared_arguments_are_ignored_witness :
  handle_call_tool (RT := demo_runtime) [] true demo_id "track_flight_price"
                   (Some demo_arguments)
  = handle_call_tool (RT := demo_runtime) [] true demo_id "track_flight_price"
                     (Some (demo_arguments ++ [("cabin", JStr "economy")])%list).
Proof.
  apply (undeclared_arguments_are_ignored (RT := demo_runtime) [] true demo_id
           "track_flight_price" (hd (Build_Tool "" "" [] []) handle_list_tools)).
  - left. reflexivity.
  - intros k Hk. cbn in Hk.
    repeat (destruct Hk as [Hk|Hk]; [subst k; reflexivity | ]). contradiction.
Defined.

Lemma saved_record_is_loaded_witness :
  exists saved st' name,
    _save_watch demo_store demo_id (dset "status" (JStr "cancelled") demo_payload)
    = (Ok saved, st')
    /\ _locate_watch_file demo_store demo_id = Ok name
    /\ st' = put_file name (JsonText (JObj saved)) demo_store
    /\ _load_watch st' demo_id = Ok saved
    /\ dget "file_name" saved = Some (JStr name)
    /\ forall k, k <> "file_name" ->
         dget k saved = dget k (dset "status" (JStr "cancelled") demo_payload).
Proof.
  apply (saved_record_is_loaded demo_store demo_id demo_payload).
  - apply (create_keeps_named (RT := demo_runtime)). intros name payload [].
  - reflexivity.
  - left. reflexivity.
  - reflexivity.
  - discriminate.
Defined.

Lemma rejected_target_leaves_record_witness :
  (exists st',
      handle_call_tool (RT := demo_runtime) [] true demo_id "track_flight_price"
                       (Some (dset "target_price" (JStr "low") demo_arguments))
      = (Raise ValueError, st')
      /\ initial_record_persisted [] st'
           (slug_of_arguments (RT := demo_runtime)
              (dset "target_price" (JStr "low") demo_arguments)) (400 # 1))
  /\ (exists result,
         handle_call_tool (RT := demo_runtime) [] false demo_id "track_flight_price"
                          (Some (dset "target_price" (JStr "low") demo_arguments))
         = (Ok result,
            snd (handle_call_tool (RT := demo_runtime) [] true demo_id
                   "track_flight_price"
                   (Some (dset "target_price" (JStr "low") demo_arguments))))).
Proof.
  apply (rejected_target_leaves_record (RT := demo_runtime)); reflexivity.
Defined.

Lemma price_updates_keep_the_listing_witness :
  handle_list_resources (RT := demo_runtime)
    (snd (_simulate_price_updates (RT := demo_runtime) pair_store demo_id
            demo_target [0; 0]%Z))
  = handle_list_resources (RT := demo_runtime) pair_store.
Proof.
  apply (price_updates_keep_the_listing (RT := demo_runtime)).
  apply (create_keeps_named (RT := demo_runtime)).
  apply (create_keeps_named (RT := demo_runtime)). intros name payload [].
Defined.
